(** * TrueNAS MCP HTTP gateway: tool gating, context budget and session cache

    A shallow embedding of the gating core of [truenas_mcp_server.http_api]
    ([intent_classifier.py], [tool_gating.py], [mcp_server.py]) together
    with the properties the specification states about it.

    Conventions of the embedding:
    - a Python [str] is a [string] of ASCII characters; [lower], [strip] and
      the comparison of strings act on character codes as CPython does on
      that range;
    - a Python [dict] is an association list in insertion order whose keys
      are pairwise distinct ([Dict.wf]); [Dict.set] is the item assignment
      [d[k] = v], which overwrites in place or appends;
    - a Python [int] is a [Z];
    - the process-wide [http_settings] object is passed explicitly;
    - the log calls of the filters and of the protocol handler are left
      out; what [get_context_size] logs and serializes is recorded as a
      trace of [Event]s;
    - the JSON serializer and the tokenizer are libraries outside the
      repository and are taken as an [Env] of functions. *)

From Stdlib Require Import String Ascii List ZArith Bool Arith Lia.
From Stdlib Require Import Permutation Sorted OrdersEx RelationClasses.
Import ListNotations.
Open Scope string_scope.
Open Scope list_scope.

(** ** Python built-ins used by the source *)

Module Py.

Definition code (c : ascii) : nat := nat_of_ascii c.

Definition isupper_char (c : ascii) : bool :=
  (65 <=? code c)%nat && (code c <=? 90)%nat.

Definition lower_char (c : ascii) : ascii :=
  if isupper_char c then ascii_of_nat (code c + 32) else c.

(** [s.lower()] on ASCII text: the letters A-Z are mapped, one by one. *)
Fixpoint lower (s : string) : string :=
  match s with
  | EmptyString => EmptyString
  | String c s' => String (lower_char c) (lower s')
  end.

(** Characters [str.strip()] removes on ASCII text: TAB..CR, FS..US and
    SPACE. *)
Definition isspace_char (c : ascii) : bool :=
  let n := code c in
  ((9 <=? n)%nat && (n <=? 13)%nat) || ((28 <=? n)%nat && (n <=? 32)%nat).

Fixpoint lstrip (s : string) : string :=
  match s with
  | EmptyString => EmptyString
  | String c s' => if isspace_char c then lstrip s' else s
  end.

Fixpoint rstrip (s : string) : string :=
  match s with
  | EmptyString => EmptyString
  | String c s' =>
      match rstrip s' with
      | EmptyString => if isspace_char c then EmptyString else String c EmptyString
      | r => String c r
      end
  end.

(** [s.strip()] *)
Definition strip (s : string) : string := rstrip (lstrip s).

(** [sub in s] for two strings *)
Fixpoint contains (sub s : string) : bool :=
  prefix sub s ||
  match s with
  | EmptyString => false
  | String _ s' => contains sub s'
  end.

(** [s.endswith(suffix)] *)
Definition endswith (s suffix : string) : bool :=
  (String.length suffix <=? String.length s)%nat &&
  String.eqb
    (substring (String.length s - String.length suffix) (String.length suffix) s)
    suffix.

(** [s[: -n]] for a positive [n] *)
Definition drop_last (n : nat) (s : string) : string :=
  substring 0 (String.length s - n) s.

(** [s.replace(old, new)] for a one-character [old] *)
Fixpoint replace1 (old : ascii) (new : string) (s : string) : string :=
  match s with
  | EmptyString => EmptyString
  | String c s' =>
      if Ascii.eqb c old then new ++ replace1 old new s'
      else String c (replace1 old new s')
  end.

(** Truth value of a [str | None] *)
Definition truthy_str (o : option string) : bool :=
  match o with
  | None => false
  | Some s => negb (String.eqb s "")
  end.

(** Truth value of a [list | None] *)
Definition truthy_list {A : Type} (o : option (list A)) : bool :=
  match o with
  | None | Some [] => false
  | Some (_ :: _) => true
  end.

(** [x in l] for a list (or set) of strings *)
Definition mem (x : string) (l : list string) : bool :=
  existsb (String.eqb x) l.

(** [a < b] on strings: lexicographic on character codes *)
Definition str_lt (a b : string) : bool :=
  match String_as_OT.compare a b with
  | Lt => true
  | _ => false
  end.

(** [l[:k]] for a list and an integer bound, negative bounds counting
    from the end *)
Definition slice_to {A : Type} (k : Z) (l : list A) : list A :=
  if (k <? 0)%Z then firstn (Z.to_nat (Z.of_nat (List.length l) + k)) l
  else firstn (Z.to_nat k) l.

(** [set.update]: the elements of [xs] not yet present are added.  The
    iteration order of a Python set is unspecified; only membership and
    emptiness of the result are observed by the source. *)
Definition set_update (s xs : list string) : list string :=
  fold_left (fun acc x => if mem x acc then acc else acc ++ [x]) xs s.

(** [sorted(l, key=...)] through the strict comparison [lt] of the keys:
    a stable insertion sort. *)
Section Sorted.
Context {A : Type} (lt : A -> A -> bool).

Fixpoint insert (x : A) (l : list A) : list A :=
  match l with
  | [] => [x]
  | y :: l' => if lt y x then y :: insert x l' else x :: l
  end.

Definition sorted (l : list A) : list A := fold_right insert [] l.
End Sorted.

End Py.

(** ** Insertion-ordered dictionaries with string keys *)

Module Dict.

Definition t (V : Type) : Type := list (string * V).

Definition keys {V} (d : t V) : list string := map fst d.
Definition values {V} (d : t V) : list V := map snd d.

(** The keys of a dictionary are pairwise distinct. *)
Definition wf {V} (d : t V) : Prop := NoDup (keys d).

(** [d.get(k)] *)
Fixpoint get {V} (k : string) (d : t V) : option V :=
  match d with
  | [] => None
  | (k', v) :: d' => if String.eqb k k' then Some v else get k d'
  end.

(** [d.get(k, default)] *)
Definition get_or {V} (k : string) (d : t V) (default : V) : V :=
  match get k d with
  | Some v => v
  | None => default
  end.

(** [k in d] *)
Definition mem {V} (k : string) (d : t V) : bool :=
  match get k d with
  | Some _ => true
  | None => false
  end.

(** [d[k] = v] *)
Fixpoint set {V} (k : string) (v : V) (d : t V) : t V :=
  match d with
  | [] => [(k, v)]
  | (k', v') :: d' =>
      if String.eqb k k' then (k, v) :: d' else (k', v') :: set k v d'
  end.

(** [dict(pairs)] *)
Definition of_list {V} (pairs : list (string * V)) : t V :=
  fold_left (fun d kv => set (fst kv) (snd kv) d) pairs [].

(** [{k: v for k, v in d.items() if p(k, v)}] *)
Definition filter {V} (p : string -> V -> bool) (d : t V) : t V :=
  List.filter (fun kv => p (fst kv) (snd kv)) d.

End Dict.

(** ** intent_classifier.py *)

Module KeywordIntentClassifier.

Record t := { keyword_mappings : Dict.t (list string) }.

Definition _default_keywords : Dict.t (list string) :=
  [ ("user-ops", ["user"; "account"; "permission"; "login"; "ssh"]);
    ("storage-ops",
      ["pool"; "zfs"; "dataset"; "volume"; "quota"; "replication"; "disk"]);
    ("sharing-ops", ["smb"; "cifs"; "nfs"; "share"; "iscsi"; "afp"]);
    ("snapshot-ops", ["snapshot"; "rollback"; "clone"; "replica"]);
    ("apps-ops", ["app"; "chart"; "helm"; "docker"; "compose"]);
    ("instance-ops", ["incus"; "vm"; "virtual"; "guest"]);
    ("vm-ops", ["bhyve"; "legacy vm"; "virt"]);
    ("debug-ops", ["debug"; "diagnostic"; "trace"]);
    ("meta-ops", ["tool"; "metadata"; "list tools"]) ].

(** [__init__]: [keyword_mappings or self._default_keywords()] *)
Definition init (keyword_mappings : option (Dict.t (list string))) : t :=
  match keyword_mappings with
  | None | Some [] => {| keyword_mappings := _default_keywords |}
  | Some m => {| keyword_mappings := m |}
  end.

(** The body of the [for] loop: one mapping entry against the lowered
    query, appending to [matches]. *)
Definition classify_step (lowered : string) (matches : list string)
    (entry : string * list string) : list string :=
  let (task_type, keywords) := entry in
  if existsb (fun keyword => Py.contains keyword lowered) keywords
  then matches ++ [task_type]
  else matches.

Definition classify_intent (self : t) (query : string) : list string :=
  let lowered := Py.lower query in
  fold_left (classify_step lowered) (keyword_mappings self) [].

End KeywordIntentClassifier.

(** ** settings.py: the fields of [http_settings] the gating core reads *)

Inductive Precedence := Intent | Explicit.

Record HttpServerSettings := {
  log_level : string;
  intent_classification_enabled : bool;
  intent_fallback_to_all : bool;
  intent_precedence : Precedence;
  strict_context_limit : bool;
  default_max_tools : Z
}.

(** ** tool_gating.py: data model *)

(** JSON values, for the schemas a tool carries. *)
Unset Elimination Schemes.
Inductive Json :=
| JNull
| JBool (b : bool)
| JInt (n : Z)
| JStr (s : string)
| JArr (items : list Json)
| JObj (fields : list (string * Json)).
Set Elimination Schemes.

Record Tool := {
  name : string;
  description : string;
  method : string;
  path : string;
  request_schema : option Json;
  response_schema : Json;
  task_types : list string;
  priority : Z;
  required_scopes : option (list string)
}.

(** The field [intent_confidence] is read nowhere and is left out. *)
Record FilterContext := {
  task_type : option string;
  client_id : option string;
  session_id : option string;
  request_id : string;
  query : option string;
  detected_task_types : option (list string)
}.

(** [strict_context_limit or not intent_fallback_to_all] *)
Definition strict_policy (st : HttpServerSettings) : bool :=
  strict_context_limit st || negb (intent_fallback_to_all st).

(** ** TaskTypeFilter *)

Module TaskTypeFilter.

Record t := {
  task_type_allowlists : Dict.t (list string);
  _alias_map : Dict.t string
}.

Definition _normalize_key (value : option string) : option string :=
  match value with
  | None => None
  | Some v =>
      if String.eqb v "" then None
      else
        let normalized := Py.lower (Py.strip v) in
        if String.eqb normalized "" then None else Some normalized
  end.

Definition set_add (x : string) (s : list string) : list string :=
  if Py.mem x s then s else s ++ [x].

Definition _alias_candidates (canonical : string) : list string :=
  let aliases := [] in
  let aliases :=
    if Py.endswith canonical "-ops" then
      let trimmed := Py.drop_last (String.length "-ops") canonical in
      if String.eqb trimmed "" then aliases else set_add trimmed aliases
    else aliases in
  let hyphen_to_underscore := Py.replace1 "-"%char "_" canonical in
  let aliases :=
    if negb (String.eqb hyphen_to_underscore "")
       && negb (String.eqb hyphen_to_underscore canonical)
    then set_add hyphen_to_underscore aliases else aliases in
  let compact := Py.replace1 "_"%char "" hyphen_to_underscore in
  let aliases :=
    if negb (String.eqb compact "") && negb (String.eqb compact canonical)
    then set_add compact aliases else aliases in
  aliases.

(** First loop of [_expand_allowlists]. *)
Definition expand_step (normalized : Dict.t (list string))
    (item : string * list string) : Dict.t (list string) :=
  let (raw_key, tools) := item in
  match _normalize_key (Some raw_key) with
  | None => normalized
  | Some canonical => Dict.set canonical tools normalized
  end.

(** Inner loop of the second loop of [_expand_allowlists]. *)
Definition alias_step (normalized : Dict.t (list string)) (canonical : string)
    (alias_map : Dict.t string) (alias : string) : Dict.t string :=
  if Dict.mem alias normalized || Dict.mem alias alias_map then alias_map
  else Dict.set alias canonical alias_map.

Definition _expand_allowlists (task_type_allowlists : Dict.t (list string))
  : Dict.t (list string) * Dict.t string :=
  let normalized := fold_left expand_step task_type_allowlists [] in
  let alias_map :=
    fold_left
      (fun alias_map canonical =>
         fold_left (alias_step normalized canonical)
           (_alias_candidates canonical) alias_map)
      (Dict.keys normalized) [] in
  (normalized, alias_map).

Definition init (task_type_allowlists : Dict.t (list string)) : t :=
  let (normalized, alias_map) := _expand_allowlists task_type_allowlists in
  {| task_type_allowlists := normalized; _alias_map := alias_map |}.

Definition normalize_step (self : t) (normalized : list string)
    (task_type : string) : list string :=
  match _normalize_key (Some task_type) with
  | None => normalized
  | Some key =>
      if Dict.mem key (task_type_allowlists self) then normalized ++ [key]
      else
        match Dict.get key (_alias_map self) with
        | Some canonical => normalized ++ [canonical]
        | None => normalized
        end
  end.

Definition _normalize_task_types (self : t) (task_types : list string)
  : list string :=
  fold_left (normalize_step self) task_types [].

Definition _merge_allowlists (self : t) (task_types : list string)
  : list string :=
  fold_left
    (fun merged task_type =>
       Py.set_update merged
         (Dict.get_or task_type (task_type_allowlists self) []))
    task_types [].

(** The guard of the first [if] of [apply]. *)
Definition strict_no_match (st : HttpServerSettings) (context : FilterContext)
  : bool :=
  match query context, detected_task_types context with
  | Some _, Some [] => strict_policy st
  | _, _ => false
  end.

(** The precedence block of [apply]: the value of [task_types_to_use]
    before normalization. *)
Definition select_task_types (st : HttpServerSettings)
    (context : FilterContext) : list string :=
  let explicit :=
    match task_type context with Some s => [s] | None => [] end in
  let detected :=
    match detected_task_types context with Some l => l | None => [] end in
  match intent_precedence st with
  | Intent =>
      if Py.truthy_list (detected_task_types context) then detected
      else if Py.truthy_str (task_type context) then explicit
      else []
  | Explicit =>
      if Py.truthy_str (task_type context) then explicit
      else if Py.truthy_list (detected_task_types context) then detected
      else []
  end.

Definition apply (st : HttpServerSettings) (self : t) (tools : Dict.t Tool)
    (context : FilterContext) : Dict.t Tool :=
  if strict_no_match st context then []
  else
    let task_types_to_use :=
      _normalize_task_types self (select_task_types st context) in
    match task_types_to_use with
    | [] =>
        Dict.filter
          (fun _ tool => negb (Py.mem "meta-ops" (task_types tool))) tools
    | _ :: _ =>
        let merged_allowlist := _merge_allowlists self task_types_to_use in
        match merged_allowlist with
        | [] => if strict_policy st then [] else tools
        | _ :: _ =>
            Dict.filter
              (fun name tool =>
                 Py.mem name merged_allowlist
                 && existsb (fun t => Py.mem t (task_types tool))
                      task_types_to_use)
              tools
        end
    end.

End TaskTypeFilter.

(** ** ResourceFilter *)

Module ResourceFilter.

Record t := { max_tools : Z }.

(** The sort key [(-item[1].priority, item[0])] and the comparison of two
    such tuples. *)
Definition sort_key (item : string * Tool) : Z * string :=
  ((- priority (snd item))%Z, fst item).

Definition key_lt (a b : Z * string) : bool :=
  (fst a <? fst b)%Z || ((fst a =? fst b)%Z && Py.str_lt (snd a) (snd b)).

Definition item_lt (a b : string * Tool) : bool :=
  key_lt (sort_key a) (sort_key b).

Definition apply (self : t) (tools : Dict.t Tool) (context : FilterContext)
  : Dict.t Tool :=
  if (Z.of_nat (List.length tools) <=? max_tools self)%Z then tools
  else
    let sorted_tools := Py.sorted item_lt tools in
    Dict.of_list (Py.slice_to (max_tools self) sorted_tools).

End ResourceFilter.

(** ** SecurityFilter *)

Module SecurityFilter.

Record t := { blocklist : list string }.

Definition apply (self : t) (tools : Dict.t Tool) (context : FilterContext)
  : Dict.t Tool :=
  Dict.filter (fun name _ => negb (Py.mem name (blocklist self))) tools.

End SecurityFilter.

(** ** ToolGateController *)

Record FilterConfig := {
  cfg_task_type_allowlists : Dict.t (list string);
  cfg_max_tools : Z;
  cfg_blocklist : list string
}.

(** The three implementations of the [ToolFilter] interface. *)
Inductive ToolFilter :=
| TaskType (f : TaskTypeFilter.t)
| Resource (f : ResourceFilter.t)
| Security (f : SecurityFilter.t).

Definition ToolFilter_apply (st : HttpServerSettings) (f : ToolFilter)
    (tools : Dict.t Tool) (context : FilterContext) : Dict.t Tool :=
  match f with
  | TaskType f => TaskTypeFilter.apply st f tools context
  | Resource f => ResourceFilter.apply f tools context
  | Security f => SecurityFilter.apply f tools context
  end.

(** The values [_estimator_type] is assigned or compared with. *)
Inductive EstimatorType := Unknown | Tiktoken | Approx | Fallback.

Definition is_fallback (e : EstimatorType) : bool :=
  match e with Fallback => true | _ => false end.

(** The libraries the estimator calls.  [tiktoken_encode] is [None] when
    importing the tokenizer or loading its encoding raises; applied to a
    text it gives the number of tokens, or [None] when encoding raises. *)
Record Env := {
  json_dumps_tool : Tool -> string;
  json_dumps_tools : list Tool -> string;
  tiktoken_encode : option (string -> option nat)
}.

(** What [get_context_size] does besides computing a value. *)
Inductive Event :=
| Serialize (tools : list string)
| LogError (token_count : Z)
| LogWarning (token_count : Z).

(** A call either returns or raises [ValueError]; the message of the error
    is determined by the token count. *)
Inductive Outcome (A : Type) :=
| Return (value : A)
| RaiseValueError (token_count : Z).
Arguments Return {A} value.
Arguments RaiseValueError {A} token_count.

Module ToolGateController.

Record t := {
  all_tools : Dict.t Tool;
  config : FilterConfig;
  filters : list ToolFilter;
  _tool_sizes : Dict.t Z;
  _total_all_tools_size : Z;
  _estimator_type : EstimatorType
}.

(** [len(serialized) // 4] *)
Definition approx_size (serialized : string) : Z :=
  (Z.of_nat (String.length serialized) / 4)%Z.

(** The loop of the [try] block: stops at the first tool whose encoding
    raises, keeping the sizes stored so far. *)
Fixpoint fill_tiktoken (env : Env) (enc : string -> option nat)
    (items : list (string * Tool)) (sizes : Dict.t Z) : Dict.t Z * bool :=
  match items with
  | [] => (sizes, true)
  | (name, tool) :: rest =>
      match enc (json_dumps_tool env tool) with
      | Some n => fill_tiktoken env enc rest (Dict.set name (Z.of_nat n) sizes)
      | None => (sizes, false)
      end
  end.

(** The loop of the [except] block. *)
Definition fill_approx (env : Env) (items : list (string * Tool))
    (sizes : Dict.t Z) : Dict.t Z :=
  fold_left
    (fun sizes item =>
       Dict.set (fst item) (approx_size (json_dumps_tool env (snd item))) sizes)
    items sizes.

Definition sum (l : list Z) : Z := fold_left Z.add l 0%Z.

Definition _precompute_tool_sizes (env : Env) (self : t) : t :=
  let attempt :=
    match tiktoken_encode env with
    | None => (_tool_sizes self, false)
    | Some enc => fill_tiktoken env enc (all_tools self) (_tool_sizes self)
    end in
  let (sizes, estimator) :=
    if snd attempt then (fst attempt, Tiktoken)
    else (fill_approx env (all_tools self) (fst attempt), Approx) in
  {| all_tools := all_tools self;
     config := config self;
     filters := filters self;
     _tool_sizes := sizes;
     _total_all_tools_size := sum (Dict.values sizes);
     _estimator_type := estimator |}.

Definition init (env : Env) (st : HttpServerSettings)
    (all_tools : Dict.t Tool) (config : FilterConfig) : t :=
  _precompute_tool_sizes env
    {| all_tools := all_tools;
       config := config;
       filters :=
         [ TaskType (TaskTypeFilter.init (cfg_task_type_allowlists config));
           Resource
             {| ResourceFilter.max_tools :=
                  if (cfg_max_tools config =? 0)%Z then default_max_tools st
                  else cfg_max_tools config |};
           Security {| SecurityFilter.blocklist := cfg_blocklist config |} ];
       _tool_sizes := [];
       _total_all_tools_size := 0;
       _estimator_type := Unknown |}.

(** [get_available_tools]; the diagnostic list [filters_applied] is not
    modelled. *)
Definition get_available_tools (st : HttpServerSettings) (self : t)
    (context : FilterContext) : Dict.t Tool :=
  fold_left (fun tools f => ToolFilter_apply st f tools context)
    (filters self) (all_tools self).

Definition list_active_tools (self : t) : list string :=
  Dict.keys (all_tools self).

Definition with_estimator (self : t) (e : EstimatorType) : t :=
  {| all_tools := all_tools self;
     config := config self;
     filters := filters self;
     _tool_sizes := _tool_sizes self;
     _total_all_tools_size := _total_all_tools_size self;
     _estimator_type := e |}.

(** The guard [self._tool_sizes and self._estimator_type != "fallback"]. *)
Definition use_precomputed (self : t) : bool :=
  match _tool_sizes self with
  | [] => false
  | _ :: _ => negb (is_fallback (_estimator_type self))
  end.

(** The first [if] of [get_context_size]: the controller afterwards, the
    events caused and the value of [token_count]. *)
Definition estimate_tokens (env : Env) (st : HttpServerSettings) (self : t)
    (tools : Dict.t Tool) : t * list Event * Z :=
  if use_precomputed self then
    (self, [],
     sum (map (fun name => Dict.get_or name (_tool_sizes self) 0%Z)
            (Dict.keys tools)))
  else
    let serialized := json_dumps_tools env (Dict.values tools) in
    let events := [Serialize (Dict.keys tools)] in
    let approx :=
      (with_estimator self Approx, events, approx_size serialized) in
    if String.eqb (log_level st) "DEBUG" then
      match tiktoken_encode env with
      | Some enc =>
          match enc serialized with
          | Some n => (with_estimator self Tiktoken, events, Z.of_nat n)
          | None => approx
          end
      | None => approx
      end
    else approx.

Definition get_context_size (env : Env) (st : HttpServerSettings) (self : t)
    (tools : Dict.t Tool) (enforce_hard_limit : option bool)
  : t * list Event * Outcome Z :=
  let enforce_hard_limit :=
    match enforce_hard_limit with
    | None => strict_context_limit st
    | Some b => b
    end in
  let '(self, events, token_count) := estimate_tokens env st self tools in
  let events :=
    if (7600 <? token_count)%Z then events ++ [LogError token_count]
    else events in
  if (7600 <? token_count)%Z && enforce_hard_limit then
    (self, events, RaiseValueError token_count)
  else
    let events :=
      if (5000 <? token_count)%Z then events ++ [LogWarning token_count]
      else events in
    (self, events, Return token_count).

End ToolGateController.

(** ** jsonrpc_models.py *)

Module JSONRPCError.
Definition PARSE_ERROR : Z := -32700.
Definition INVALID_REQUEST : Z := -32600.
Definition METHOD_NOT_FOUND : Z := -32601.
Definition INVALID_PARAMS : Z := -32602.
Definition INTERNAL_ERROR : Z := -32603.
End JSONRPCError.

(** ** tool_registry.py: the catalog side of the registry *)

Module TrueNASToolRegistry.
Record t := { _tools : Dict.t Tool }.
Definition get_all_tools (self : t) : Dict.t Tool := _tools self.
End TrueNASToolRegistry.

(** ** mcp_server.py *)

Module TrueNASHTTPMCP.

(** A classifier is anything with a [classify_intent] method. *)
Definition IntentClassifier := string -> list string.

Record t := {
  tool_registry : TrueNASToolRegistry.t;
  tool_gate_controller : ToolGateController.t;
  intent_classifier : option IntentClassifier;
  session_tools : Dict.t (Dict.t Tool)
}.

(** The members of [params] that [tools/list] reads, as strings. *)
Record ListParams := {
  lp_task_type : option string;
  lp_query : option string
}.

(** The members of [params] that [tools/call] reads; [cp_name] is [None]
    when the key is missing. *)
Record CallParams := {
  cp_name : option string;
  cp_arguments : option Json
}.

Inductive ClassificationMethod := MethodNone | MethodIntent | MethodExplicit.

(** [a or b] on optional strings *)
Definition or_str (a b : option string) : option string :=
  if Py.truthy_str a then a else b.

(** Lines 68-99 of [handle_tools_list]: from the request to the
    [FilterContext]. *)
Definition build_context (st : HttpServerSettings) (self : t)
    (params : option ListParams) (request_id session : string)
    (task_type_header : option string)
  : FilterContext * ClassificationMethod :=
  let params :=
    match params with
    | Some p => p
    | None => {| lp_task_type := None; lp_query := None |}
    end in
  let task_type := or_str task_type_header (lp_task_type params) in
  let query := lp_query params in
  let classifier :=
    if Py.truthy_str query && intent_classification_enabled st
    then intent_classifier self else None in
  let '(task_type, detected, classification_method) :=
    match classifier, query with
    | Some classify, Some q =>
        (match intent_precedence st with
         | Intent => None
         | Explicit => task_type
         end,
         Some (classify q), MethodIntent)
    | _, _ =>
        (task_type, None,
         if Py.truthy_str task_type then MethodExplicit else MethodNone)
    end in
  ({| task_type := task_type;
      client_id := None;
      session_id := Some session;
      request_id := request_id;
      query := query;
      detected_task_types := detected |},
   classification_method).

(** [tool.required_scopes or tool.task_types] *)
Definition effective_scopes (tool : Tool) : list string :=
  match required_scopes tool with
  | Some (s :: l) => s :: l
  | _ => task_types tool
  end.

(** [any(scope in scopes for scope in required)] *)
Definition shares_scope (scopes required : list string) : bool :=
  existsb (fun scope => Py.mem scope scopes) required.

(** [scopes and "admin" not in scopes] *)
Definition scope_limited (scopes : list string) : bool :=
  match scopes with
  | [] => false
  | _ :: _ => negb (Py.mem "admin" scopes)
  end.

Record ListResult := {
  tools : Dict.t Tool;
  context_size : Z;
  classification_method : ClassificationMethod;
  meta_query : option string;
  meta_detected_task_types : option (list string)
}.

Definition with_session_tools (self : t)
    (controller : ToolGateController.t) (cache : Dict.t (Dict.t Tool)) : t :=
  {| tool_registry := tool_registry self;
     tool_gate_controller := controller;
     intent_classifier := intent_classifier self;
     session_tools := cache |}.

Definition handle_tools_list (env : Env) (st : HttpServerSettings) (self : t)
    (params : option ListParams) (request_id session : string)
    (scopes : list string) (task_type_header : option string)
  : t * Outcome ListResult :=
  let (context, method_) :=
    build_context st self params request_id session task_type_header in
  let filtered_tools :=
    ToolGateController.get_available_tools st (tool_gate_controller self)
      context in
  let filtered_tools :=
    if scope_limited scopes then
      Dict.filter (fun _ tool => shares_scope scopes (effective_scopes tool))
        filtered_tools
    else filtered_tools in
  let cache := Dict.set session filtered_tools (session_tools self) in
  let '(controller, _, size) :=
    ToolGateController.get_context_size env st (tool_gate_controller self)
      filtered_tools None in
  let self := with_session_tools self controller cache in
  match size with
  | RaiseValueError n => (self, RaiseValueError n)
  | Return context_size =>
      (self,
       Return {| tools := filtered_tools;
                 context_size := context_size;
                 classification_method := method_;
                 meta_query := query context;
                 meta_detected_task_types := detected_task_types context |})
  end.

(** Why a call is refused; the message of the error is built from it. *)
Inductive Refusal :=
| MissingName
| NotAvailable (tool_name : string)
| InsufficientPermissions (required : list string).

(** The result of [handle_tools_call] up to line 221: an error reply, or
    the tool found and authorized, with which the handler goes on to
    validate the arguments and dispatch. *)
Inductive CallResult :=
| Error (code : Z) (why : Refusal)
| Proceed (tool_name : string) (tool_meta : Tool) (arguments : Json).

(** [self.session_tools.get(session_id) or self.tool_registry.get_all_tools()] *)
Definition session_filtered (self : t) (session : string) : Dict.t Tool :=
  match Dict.get session (session_tools self) with
  | Some (item :: rest) => item :: rest
  | _ => TrueNASToolRegistry.get_all_tools (tool_registry self)
  end.

Definition handle_tools_call (self : t) (params : option CallParams)
    (request_id session : string) (scopes : list string) : CallResult :=
  match params with
  | None => Error JSONRPCError.INVALID_PARAMS MissingName
  | Some p =>
      match cp_name p with
      | None => Error JSONRPCError.INVALID_PARAMS MissingName
      | Some tool_name =>
          let arguments :=
            match cp_arguments p with Some a => a | None => JObj [] end in
          let visible := session_filtered self session in
          match Dict.get tool_name visible with
          | None => Error JSONRPCError.METHOD_NOT_FOUND (NotAvailable tool_name)
          | Some tool_meta =>
              let required := effective_scopes tool_meta in
              if scope_limited scopes && negb (shares_scope scopes required)
              then Error JSONRPCError.METHOD_NOT_FOUND
                     (InsufficientPermissions required)
              else Proceed tool_name tool_meta arguments
          end
      end
  end.

End TrueNASHTTPMCP.


(** ** Truth value of a JSON value, as Python tests it *)

Definition truthy_json (j : Json) : bool :=
  match j with
  | JNull => false
  | JBool b => b
  | JInt n => negb (n =? 0)%Z
  | JStr s => negb (String.eqb s "")
  | JArr [] => false
  | JArr (_ :: _) => true
  | JObj [] => false
  | JObj (_ :: _) => true
  end.

(** [s.isascii()] *)
Fixpoint is_ascii (s : string) : bool :=
  match s with
  | EmptyString => true
  | String c s' => (Py.code c <? 128)%nat && is_ascii s'
  end.

(** ** auth.py and the scope table of settings.py *)

Module Auth.

(** The fields of [http_settings] that authentication reads.  The scope
    table is [None] until [validate] has parsed a non-empty TOKEN_SCOPES. *)
Record Settings := {
  mcp_access_token : string;
  _token_scopes_cache : option (Dict.t (list string))
}.

(** [validate], on the parsed value of TOKEN_SCOPES ([None] when the
    variable is empty): [None] stands for the [ValueError]. *)
Definition validate (mcp_access_token : string)
    (token_scopes : option (Dict.t (list string))) : option Settings :=
  let has_primary_token := negb (String.eqb mcp_access_token "") in
  let has_scope_map :=
    match token_scopes with Some _ => true | None => false end in
  if negb has_primary_token && negb has_scope_map then None
  else Some {| mcp_access_token := mcp_access_token;
               _token_scopes_cache := token_scopes |}.

(** [self._token_scopes_cache and token in self._token_scopes_cache] *)
Definition in_scope_table (self : Settings) (token : string) : bool :=
  match _token_scopes_cache self with
  | Some (entry :: rest) => Dict.mem token (entry :: rest)
  | _ => false
  end.

(** [hmac.compare_digest(a, b)] on two strings: [None] stands for the
    [TypeError] it raises unless both strings are ASCII. *)
Definition compare_digest (a b : string) : option bool :=
  if is_ascii a && is_ascii b then Some (String.eqb a b) else None.

(** [bool(expected) and hmac.compare_digest(expected, provided)]: with an
    empty [expected] the comparison is not made. *)
Definition _compare_secret (expected provided : string) : option bool :=
  if String.eqb expected "" then Some false
  else compare_digest expected provided.

(** How a check of the credentials ends: with a value, with the 401 reply,
    or with the [TypeError] of the comparison, which leaves the
    dependency. *)
Inductive Checked (A : Type) :=
| Accepted (value : A)
| Unauthorized
| Raised.
Arguments Accepted {A} value.
Arguments Unauthorized {A}.
Arguments Raised {A}.

Definition verify_token (self : Settings) (token : string) : Checked string :=
  if in_scope_table self token then Accepted token
  else
    match _compare_secret (mcp_access_token self) token with
    | Some true => Accepted token
    | Some false => Unauthorized
    | None => Raised
    end.

(** [resolve_scopes]: the set of the scopes listed for the token, or
    [{"admin"}]. *)
Definition resolve_scopes (self : Settings) (token : string) : list string :=
  if in_scope_table self token then
    Py.set_update []
      (match _token_scopes_cache self with
       | Some table => Dict.get_or token table []
       | None => []
       end)
  else ["admin"].

Definition verify_token_with_scopes (self : Settings) (token : string)
  : Checked (list string) :=
  match verify_token self token with
  | Accepted token => Accepted (resolve_scopes self token)
  | Unauthorized => Unauthorized
  | Raised => Raised
  end.

End Auth.

(** ** tool_registry.py: loading the tool definitions *)

Module RegistryLoader.

Definition TASK_TYPE_MAP : Dict.t (list string) :=
  [ ("UserTools", ["user-ops"]);
    ("StorageTools", ["storage-ops"]);
    ("SharingTools", ["sharing-ops"]);
    ("SnapshotTools", ["snapshot-ops"]);
    ("AppTools", ["apps-ops"]);
    ("InstanceTools", ["instance-ops"]);
    ("LegacyVMTools", ["vm-ops"]);
    ("DebugTools", ["debug-ops"]) ].

Section Loader.

(** The type of the handlers, which the loader only stores. *)
Context {Handler : Type}.

(** One entry of [get_tool_definitions()]:
    [(name, handler, description, param_schema)]. *)
Record Entry := {
  e_name : string;
  e_handler : Handler;
  e_description : string;
  e_param_schema : option (Dict.t Json)
}.

(** A tool object: the name of its class and what
    [get_tool_definitions()] gives, [None] when the call raises; an entry
    is [None] when it does not unpack into four parts. *)
Record ToolInstance := {
  class_name : string;
  definitions : option (list (option Entry))
}.

(** The keys [_build_input_schema] copies from the description of a
    parameter, after [type] and [description]. *)
Definition extra_keys : list string :=
  ["enum"; "items"; "format"; "default"; "minimum"; "maximum"].

Definition copy_key (meta : Dict.t Json) (prop : Dict.t Json) (key : string)
  : Dict.t Json :=
  match Dict.get key meta with
  | Some value => Dict.set key value prop
  | None => prop
  end.

(** The body of the loop of [_build_input_schema], on the pair of
    [properties] and [required]. *)
Definition schema_step (acc : Dict.t Json * list string)
    (item : string * Json) : Dict.t Json * list string :=
  let (properties, required) := acc in
  let (param_name, meta) := item in
  match meta with
  | JObj meta =>
      let json_type := Dict.get_or "type" meta (JStr "string") in
      let prop := [("type", json_type)] in
      let prop := copy_key meta prop "description" in
      let prop := fold_left (copy_key meta) extra_keys prop in
      let properties := Dict.set param_name (JObj prop) properties in
      let required :=
        match Dict.get "required" meta with
        | Some flag =>
            if truthy_json flag then required ++ [param_name] else required
        | None => required
        end in
      (properties, required)
  | _ => acc
  end.

Definition _build_input_schema (params : Dict.t Json) : Json :=
  let (properties, required) := fold_left schema_step params ([], []) in
  JObj [("type", JStr "object");
        ("properties", JObj properties);
        ("required", JArr (map JStr required))].

(** The two dictionaries of the registry. *)
Record Registry := {
  r_tools : Dict.t Tool;
  r_handlers : Dict.t Handler
}.

(** The body of the inner loop of [_load_tools]. *)
Definition load_entry (task_types : list string) (self : Registry)
    (entry : option Entry) : Registry :=
  match entry with
  | None => self
  | Some e =>
      let schema :=
        _build_input_schema
          (match e_param_schema e with Some p => p | None => [] end) in
      let tool_meta :=
        {| name := e_name e;
           description := e_description e;
           method := "rpc";
           path := ("/tools/" ++ e_name e)%string;
           request_schema := Some schema;
           response_schema := JObj [("type", JStr "object")];
           task_types := task_types;
           priority := 0;
           required_scopes := Some task_types |} in
      {| r_tools := Dict.set (e_name e) tool_meta (r_tools self);
         r_handlers := Dict.set (e_name e) (e_handler e) (r_handlers self) |}
  end.

(** The body of the outer loop of [_load_tools]. *)
Definition load_instance (self : Registry) (tool : ToolInstance) : Registry :=
  let task_types :=
    Dict.get_or (class_name tool) TASK_TYPE_MAP ["truenas-ops"] in
  match definitions tool with
  | None => self
  | Some entries => fold_left (load_entry task_types) entries self
  end.

Definition _load_tools (tool_instances : list ToolInstance) : Registry :=
  fold_left load_instance tool_instances
    {| r_tools := []; r_handlers := [] |}.

Definition get_handler (self : Registry) (tool_name : string)
  : option Handler :=
  Dict.get tool_name (r_handlers self).

End Loader.

Arguments Entry : clear implicits.
Arguments ToolInstance : clear implicits.
Arguments Registry : clear implicits.

End RegistryLoader.

(** ** http_server.py: the default allowlists *)

(** [allowlists.setdefault(task_type, []).append(tool_name)] *)
Definition allow_tool (tool_name : string) (allowlists : Dict.t (list string))
    (task_type : string) : Dict.t (list string) :=
  Dict.set task_type (Dict.get_or task_type allowlists [] ++ [tool_name])
    allowlists.

Definition _build_default_allowlists (tools : Dict.t Tool)
  : Dict.t (list string) :=
  fold_left
    (fun allowlists item =>
       fold_left (allow_tool (fst item)) (task_types (snd item)) allowlists)
    tools [].

(** ** mcp_server.py: the rest of [handle_tools_call], and the other handlers *)

Module Dispatch.

(** What [jsonschema.validate(instance, schema)] does: it returns, raises
    [ValidationError] with a message and a path, or raises another error
    (a malformed schema). *)
Inductive Validation :=
| Valid
| Invalid (message : string) (path : list Json)
| SchemaError.

(** The validator and the handlers the registry holds.  A handler applied
    to the arguments gives its result, or [None] when the invocation
    raises. *)
Record Runtime := {
  jsonschema_validate : Json -> Json -> Validation;
  _handlers : Dict.t (Json -> option Json)
}.

Inductive Failure :=
| Refused (why : TrueNASHTTPMCP.Refusal)
| InvalidParameters (message : string) (path : list Json)
| HandlerNotFound (tool_name : string)
| ExecutionFailed.

(** The reply of [handle_tools_call]: an error member, the content, or an
    exception that leaves the handler. *)
Inductive Reply :=
| Failed (code : Z) (why : Failure)
| Content (result : Json)
| Raised.

(** [if tool_meta.request_schema:] followed by the validation. *)
Definition validate_arguments (rt : Runtime) (tool_meta : Tool)
    (arguments : Json) : Validation :=
  match request_schema tool_meta with
  | Some schema =>
      if truthy_json schema then jsonschema_validate rt arguments schema
      else Valid
  | None => Valid
  end.

(** Lines 222-270 of [handle_tools_call], entered with the tool found and
    authorized. *)
Definition finish_tools_call (rt : Runtime) (tool_name : string)
    (tool_meta : Tool) (arguments : Json) : Reply :=
  match validate_arguments rt tool_meta arguments with
  | Invalid message path =>
      Failed JSONRPCError.INVALID_PARAMS (InvalidParameters message path)
  | SchemaError => Raised
  | Valid =>
      match Dict.get tool_name (_handlers rt) with
      | None => Failed JSONRPCError.METHOD_NOT_FOUND (HandlerNotFound tool_name)
      | Some handler =>
          match handler arguments with
          | None => Failed JSONRPCError.INTERNAL_ERROR ExecutionFailed
          | Some result =>
              if truthy_json (response_schema tool_meta) then
                match jsonschema_validate rt result (response_schema tool_meta)
                with
                | SchemaError => Raised
                | Valid | Invalid _ _ => Content result
                end
              else Content result
          end
      end
  end.

(** [handle_tools_call], whole. *)
Definition handle_tools_call (rt : Runtime) (self : TrueNASHTTPMCP.t)
    (params : option TrueNASHTTPMCP.CallParams) (request_id session : string)
    (scopes : list string) : Reply :=
  match TrueNASHTTPMCP.handle_tools_call self params request_id session scopes
  with
  | TrueNASHTTPMCP.Error code why => Failed code (Refused why)
  | TrueNASHTTPMCP.Proceed tool_name tool_meta arguments =>
      finish_tools_call rt tool_name tool_meta arguments
  end.

(** [handle_prompts_get]: [None] stands for the INVALID_PARAMS error
    member, [Some tt] for the prompt. *)
Definition handle_prompts_get (prompt_name : option string) : option unit :=
  match prompt_name with
  | Some n => if String.eqb n "intent-query-help" then Some tt else None
  | None => None
  end.

(** *** http_server.py: [mcp_endpoint] *)

Inductive RpcId := IdStr (s : string) | IdInt (n : Z).

(** The members of [params] the handlers read, as strings. *)
Record RpcParams := {
  rp_name : option string;
  rp_arguments : option Json;
  rp_task_type : option string;
  rp_query : option string
}.

Record RpcRequest := {
  rpc_method : string;
  rpc_params : option RpcParams;
  rpc_id : option RpcId
}.

Definition list_params (p : option RpcParams)
  : option TrueNASHTTPMCP.ListParams :=
  match p with
  | Some p => Some {| TrueNASHTTPMCP.lp_task_type := rp_task_type p;
                      TrueNASHTTPMCP.lp_query := rp_query p |}
  | None => None
  end.

Definition call_params (p : option RpcParams)
  : option TrueNASHTTPMCP.CallParams :=
  match p with
  | Some p => Some {| TrueNASHTTPMCP.cp_name := rp_name p;
                      TrueNASHTTPMCP.cp_arguments := rp_arguments p |}
  | None => None
  end.

Inductive Payload :=
| Initialized
| ToolsListed (listing : TrueNASHTTPMCP.ListResult)
| ToolCalled (result : Json)
| PromptsListed
| PromptGot.

(** What the endpoint sends back: an empty body, or an envelope with the
    id of the request and either a result or an error code. *)
Inductive HttpResponse :=
| EmptyBody
| ResultEnvelope (id : RpcId) (result : Payload)
| ErrorEnvelope (id : RpcId) (code : Z).

(** [request.headers.get("X-Session-ID") or _derive_session_id(request)];
    the derived id is taken as computed. *)
Definition resolve_session_id (x_session_id : option string)
    (derived : string) : string :=
  match x_session_id with
  | Some s => if String.eqb s "" then derived else s
  | None => derived
  end.

Definition mcp_endpoint (rt : Runtime) (env : Env) (st : HttpServerSettings)
    (self : TrueNASHTTPMCP.t) (rpc_request : RpcRequest)
    (request_id : string) (x_session_id : option string) (derived : string)
    (scopes : list string) (x_task_type : option string)
  : TrueNASHTTPMCP.t * HttpResponse :=
  let session := resolve_session_id x_session_id derived in
  match rpc_id rpc_request with
  | None => (self, EmptyBody)
  | Some id =>
      let method := rpc_method rpc_request in
      if String.eqb method "initialize" then
        (self, ResultEnvelope id Initialized)
      else if String.eqb method "tools/list" then
        match TrueNASHTTPMCP.handle_tools_list env st self
                (list_params (rpc_params rpc_request)) request_id session
                scopes x_task_type with
        | (self, Return listing) =>
            (self, ResultEnvelope id (ToolsListed listing))
        | (self, RaiseValueError _) =>
            (self, ErrorEnvelope id JSONRPCError.INTERNAL_ERROR)
        end
      else if String.eqb method "tools/call" then
        match handle_tools_call rt self (call_params (rpc_params rpc_request))
                request_id session scopes with
        | Failed code _ => (self, ErrorEnvelope id code)
        | Content result => (self, ResultEnvelope id (ToolCalled result))
        | Raised => (self, ErrorEnvelope id JSONRPCError.INTERNAL_ERROR)
        end
      else if String.eqb method "prompts/list" then
        (self, ResultEnvelope id PromptsListed)
      else if String.eqb method "prompts/get" then
        match handle_prompts_get
                (match rpc_params rpc_request with
                 | Some p => rp_name p
                 | None => None
                 end) with
        | Some _ => (self, ResultEnvelope id PromptGot)
        | None => (self, ErrorEnvelope id JSONRPCError.INVALID_PARAMS)
        end
      else (self, ErrorEnvelope id JSONRPCError.METHOD_NOT_FOUND)
  end.

End Dispatch.
(** * Vocabulary of the specification *)

(** [sub] occurs in [s] as a contiguous run of characters. *)
Definition Substring (sub s : string) : Prop :=
  exists pre post : string, s = (pre ++ sub ++ post)%string.

(** One entry of the keyword mapping matches the query when one of its
    keywords occurs in the lower-cased query. *)
Definition entry_matches (query : string) (entry : string * list string) : bool :=
  existsb (fun keyword => Py.contains keyword (Py.lower query)) (snd entry).

(** The strict no-match condition in words: a query was supplied, the
    classifier ran and found nothing, and policy forbids falling back. *)
Definition StrictNoMatch (st : HttpServerSettings) (context : FilterContext)
  : Prop :=
  query context <> None
  /\ detected_task_types context = Some []
  /\ (strict_context_limit st = true \/ intent_fallback_to_all st = false).

(** The labels [TaskTypeFilter.apply] works with once the short-circuit is
    passed: the source selected by precedence, normalized. *)
Definition resolved_labels (st : HttpServerSettings) (self : TaskTypeFilter.t)
    (context : FilterContext) : list string :=
  TaskTypeFilter._normalize_task_types self
    (TaskTypeFilter.select_task_types st context).

(** [n] is in the union of the allowlist entries of [labels]. *)
Definition InMergedAllowlist (self : TaskTypeFilter.t) (labels : list string)
    (n : string) : Prop :=
  exists label,
    In label labels
    /\ In n (Dict.get_or label (TaskTypeFilter.task_type_allowlists self) []).

(** [tool] carries one of [labels] in its own [task_types]. *)
Definition SharesLabel (labels : list string) (tool : Tool) : Prop :=
  exists label, In label labels /\ In label (task_types tool).

(** The test both comprehension clauses of the last branch of [apply] make. *)
Definition keep_tool (self : TaskTypeFilter.t) (labels : list string)
    (name : string) (tool : Tool) : bool :=
  Py.mem name (TaskTypeFilter._merge_allowlists self labels)
  && existsb (fun t => Py.mem t (task_types tool)) labels.

(** The default exclusion: the tools not tagged with the reserved label. *)
Definition not_meta (tools : Dict.t Tool) : Dict.t Tool :=
  Dict.filter (fun _ tool => negb (Py.mem "meta-ops" (task_types tool))) tools.

(** ** Sample data, after tests/unit/test_tool_gating.py *)

Definition _make_tool (name : string) (task_types : list string) (priority : Z)
  : Tool :=
  {| name := name;
     description := (name ++ " description")%string;
     method := "rpc";
     path := ("/tools/" ++ name)%string;
     request_schema := None;
     response_schema := JObj [("type", JStr "object")];
     task_types := task_types;
     priority := priority;
     required_scopes := None |}.

Definition list_pools : Tool := _make_tool "list_pools" ["storage-ops"] 0.
Definition create_user : Tool := _make_tool "create_user" ["user-ops"] 0.
Definition tool_info : Tool := _make_tool "tool_info" ["meta-ops"] 0.

Definition sample_tools : Dict.t Tool :=
  [("list_pools", list_pools); ("create_user", create_user)].

Definition sample_catalog : Dict.t Tool :=
  [("list_pools", list_pools); ("create_user", create_user);
   ("tool_info", tool_info)].

Definition storage_filter : TaskTypeFilter.t :=
  TaskTypeFilter.init [("storage-ops", ["list_pools"])].

Definition plain_context (task_type : option string) : FilterContext :=
  {| task_type := task_type;
     client_id := None;
     session_id := None;
     request_id := "req-1";
     query := None;
     detected_task_types := None |}.

(** The settings of a process started without overrides, and two variants. *)
Definition default_settings : HttpServerSettings :=
  {| log_level := "INFO";
     intent_classification_enabled := true;
     intent_fallback_to_all := true;
     intent_precedence := Intent;
     strict_context_limit := false;
     default_max_tools := 12 |}.

Definition strict_settings : HttpServerSettings :=
  {| log_level := "INFO";
     intent_classification_enabled := true;
     intent_fallback_to_all := true;
     intent_precedence := Intent;
     strict_context_limit := true;
     default_max_tools := 12 |}.

Definition sample_env : Env :=
  {| json_dumps_tool := fun tool => name tool;
     json_dumps_tools := fun tools => String.concat "," (map name tools);
     tiktoken_encode := None |}.

Definition sample_config : FilterConfig :=
  {| cfg_task_type_allowlists :=
       [("storage-ops", ["list_pools"]); ("user-ops", ["create_user"])];
     cfg_max_tools := 10;
     cfg_blocklist := [] |}.

(** A server as [lifespan] builds it, over the sample catalog, with the
    default keyword classifier and no session seen yet. *)
Definition sample_server (st : HttpServerSettings) : TrueNASHTTPMCP.t :=
  {| TrueNASHTTPMCP.tool_registry :=
       {| TrueNASToolRegistry._tools := sample_catalog |};
     TrueNASHTTPMCP.tool_gate_controller :=
       ToolGateController.init sample_env st sample_catalog sample_config;
     TrueNASHTTPMCP.intent_classifier :=
       Some (KeywordIntentClassifier.classify_intent
               (KeywordIntentClassifier.init None));
     TrueNASHTTPMCP.session_tools := [] |}.

Definition list_request (task_type query : option string)
  : option TrueNASHTTPMCP.ListParams :=
  Some {| TrueNASHTTPMCP.lp_task_type := task_type;
          TrueNASHTTPMCP.lp_query := query |}.

Definition call_request (name : string) : option TrueNASHTTPMCP.CallParams :=
  Some {| TrueNASHTTPMCP.cp_name := Some name;
          TrueNASHTTPMCP.cp_arguments := None |}.

(** ** The claims about the protocol handler, as stated *)

(** The labels [TaskTypeFilter.apply] selects for a [tools/list] request. *)
Definition labels_used (st : HttpServerSettings) (self : TrueNASHTTPMCP.t)
    (params : option TrueNASHTTPMCP.ListParams)
    (task_type_header : option string) : list string :=
  TaskTypeFilter.select_task_types st
    (fst (TrueNASHTTPMCP.build_context st self params "req-1" "S"
            task_type_header)).

(** "Under intent precedence with classification enabled and a query
    present, the detected labels are used when there are some, and the
    explicit label otherwise." *)
Definition FallsBackToExplicit (st : HttpServerSettings)
    (self : TrueNASHTTPMCP.t) (params : TrueNASHTTPMCP.ListParams)
    (task_type_header : option string) : Prop :=
  forall classify q explicit,
    intent_precedence st = Intent ->
    intent_classification_enabled st = true ->
    TrueNASHTTPMCP.intent_classifier self = Some classify ->
    TrueNASHTTPMCP.lp_query params = Some q -> q <> "" ->
    TrueNASHTTPMCP.or_str task_type_header (TrueNASHTTPMCP.lp_task_type params)
      = Some explicit ->
    explicit <> "" ->
    (classify q <> [] ->
       labels_used st self (Some params) task_type_header = classify q)
    /\ (classify q = [] ->
         labels_used st self (Some params) task_type_header = [explicit]).

(** "Once a set is stored for the session, a call naming a tool of the set
    passes the availability check and a call naming any other tool is
    answered METHOD_NOT_FOUND." *)
Definition CacheDeterminesDispatch (self : TrueNASHTTPMCP.t) (session : string)
    (scopes : list string) : Prop :=
  forall stored tool_name,
    Dict.get session (TrueNASHTTPMCP.session_tools self) = Some stored ->
    (Dict.mem tool_name stored = true ->
       TrueNASHTTPMCP.handle_tools_call self (call_request tool_name) "req-2"
         session scopes
       <> TrueNASHTTPMCP.Error JSONRPCError.METHOD_NOT_FOUND
            (TrueNASHTTPMCP.NotAvailable tool_name))
    /\ (Dict.mem tool_name stored = false ->
         TrueNASHTTPMCP.handle_tools_call self (call_request tool_name) "req-2"
           session scopes
         = TrueNASHTTPMCP.Error JSONRPCError.METHOD_NOT_FOUND
             (TrueNASHTTPMCP.NotAvailable tool_name)).

(** The server after a [tools/list] in session [S] whose query the
    classifier matches with nothing, under strict policy. *)
Definition server_after_empty_listing : TrueNASHTTPMCP.t :=
  fst (TrueNASHTTPMCP.handle_tools_list sample_env strict_settings
         (sample_server strict_settings)
         (list_request None (Some "xyzzy")) "req-1" "S" ["admin"] None).

(** ** Context budget *)

(** Whether the hard limit is enforced for a call of [get_context_size]:
    the argument when given, the process flag otherwise. *)
Definition enforcement_active (st : HttpServerSettings)
    (enforce_hard_limit : option bool) : bool :=
  match enforce_hard_limit with
  | Some b => b
  | None => strict_context_limit st
  end.

(** The estimated token count of a call of [get_context_size]. *)
Definition token_count (env : Env) (st : HttpServerSettings)
    (self : ToolGateController.t) (tools : Dict.t Tool) : Z :=
  snd (ToolGateController.estimate_tokens env st self tools).

(** The events a call logs once the count [n] is known. *)
Definition threshold_events (n : Z) (enforce : bool) : list Event :=
  if (7600 <? n)%Z then
    if enforce then [LogError n] else [LogError n; LogWarning n]
  else if (5000 <? n)%Z then [LogWarning n]
  else [].

(** Every tool of the catalog is encoded by the tokenizer. *)
Definition tokenizer_covers (env : Env) (enc : string -> option nat)
    (all_tools : Dict.t Tool) : bool :=
  forallb
    (fun item =>
       match enc (json_dumps_tool env (snd item)) with
       | Some _ => true
       | None => false
       end)
    all_tools.

(** The size the constructor records for a tool of the catalog: the token
    count when the tokenizer is available and encodes the whole catalog,
    the approximation otherwise. *)
Definition precomputed_size (env : Env) (all_tools : Dict.t Tool) (tool : Tool)
  : Z :=
  let approx := ToolGateController.approx_size (json_dumps_tool env tool) in
  match tiktoken_encode env with
  | Some enc =>
      if tokenizer_covers env enc all_tools then
        match enc (json_dumps_tool env tool) with
        | Some n => Z.of_nat n
        | None => approx
        end
      else approx
  | None => approx
  end.

(** ** Resource cap *)

(** The order of truncation: higher priority first, and among equal
    priorities the lexicographically smaller name first. *)
Definition precedes (a b : string * Tool) : Prop :=
  (priority (snd b) < priority (snd a))%Z
  \/ (priority (snd a) = priority (snd b) /\ String_as_OT.lt (fst a) (fst b)).

(** "Within the cap the filter returns its input unchanged; past the cap it
    returns exactly the first [max_tools] entries of the sorted list", for
    any integer cap; the first entries of a negative number are none. *)
Definition TrimsToCap (self : ResourceFilter.t) (tools : Dict.t Tool)
    (context : FilterContext) : Prop :=
  ((Z.of_nat (List.length tools) <= ResourceFilter.max_tools self)%Z ->
   ResourceFilter.apply self tools context = tools)
  /\ ((ResourceFilter.max_tools self < Z.of_nat (List.length tools))%Z ->
      ResourceFilter.apply self tools context
      = firstn (Z.to_nat (ResourceFilter.max_tools self))
          (Py.sorted ResourceFilter.item_lt tools)).

(** Five tools with priorities 3, 1, 3, 0, 2. *)
Definition five_tools : Dict.t Tool :=
  [("restart", _make_tool "restart" ["apps-ops"] 3);
   ("list_users", _make_tool "list_users" ["user-ops"] 1);
   ("backup", _make_tool "backup" ["storage-ops"] 3);
   ("trace", _make_tool "trace" ["debug-ops"] 0);
   ("clone", _make_tool "clone" ["snapshot-ops"] 2)].

(** * Vocabulary of the further properties *)

(** The canonical form of a label, when it has one. *)
Definition canon (label : string) : option string :=
  TaskTypeFilter._normalize_key (Some label).

(** What one incoming label contributes to the normalized list: nothing, or
    one configured key. *)
Definition resolve_label (self : TaskTypeFilter.t) (label : string)
  : list string :=
  TaskTypeFilter.normalize_step self [] label.

(** The alias table maps names that are no keys to keys. *)
Definition AliasTableSound (normalized : Dict.t (list string))
    (alias_map : Dict.t string) : Prop :=
  Dict.wf alias_map
  /\ forall alias canonical,
       In (alias, canonical) alias_map ->
       Dict.mem alias normalized = false
       /\ Dict.mem canonical normalized = true.

(** The cap the controller hands to its resource filter:
    [config.max_tools or http_settings.default_max_tools]. *)
Definition effective_cap (st : HttpServerSettings) (config : FilterConfig) : Z :=
  if (cfg_max_tools config =? 0)%Z then default_max_tools st
  else cfg_max_tools config.

(** The table of a controller: distinct names, sizes that are not negative. *)
Definition SizeTableOK (sizes : Dict.t Z) : Prop :=
  Dict.wf sizes /\ forall k v, In (k, v) sizes -> (0 <= v)%Z.


(** The string has an upper-case letter. *)
Fixpoint has_upper (s : string) : bool :=
  match s with
  | EmptyString => false
  | String c s' => Py.isupper_char c || has_upper s'
  end.


(** ** Sample runtime *)

(** A validator that accepts everything, and one handler, for
    [list_pools]. *)
Definition sample_runtime : Dispatch.Runtime :=
  {| Dispatch.jsonschema_validate := fun _ _ => Dispatch.Valid;
     Dispatch._handlers :=
       [("list_pools", fun _ => Some (JArr [JStr "tank"]))] |}.

(** An environment whose tokenizer counts 8000 tokens for every text. *)
Definition heavy_env : Env :=
  {| json_dumps_tool := fun tool => name tool;
     json_dumps_tools := fun tools => String.concat "," (map name tools);
     tiktoken_encode := Some (fun _ => Some (80 * 100)%nat) |}.

Definition heavy_server : TrueNASHTTPMCP.t :=
  {| TrueNASHTTPMCP.tool_registry :=
       {| TrueNASToolRegistry._tools := sample_catalog |};
     TrueNASHTTPMCP.tool_gate_controller :=
       ToolGateController.init heavy_env strict_settings sample_catalog
         sample_config;
     TrueNASHTTPMCP.intent_classifier := None;
     TrueNASHTTPMCP.session_tools := [] |}.

Definition rpc (method : string) (id : option Dispatch.RpcId)
    (name task_type query : option string) : Dispatch.RpcRequest :=
  {| Dispatch.rpc_method := method;
     Dispatch.rpc_params :=
       Some {| Dispatch.rp_name := name;
               Dispatch.rp_arguments := None;
               Dispatch.rp_task_type := task_type;
               Dispatch.rp_query := query |};
     Dispatch.rpc_id := id |}.

(** The id an envelope carries. *)
Definition response_id (r : Dispatch.HttpResponse) : option Dispatch.RpcId :=
  match r with
  | Dispatch.EmptyBody => None
  | Dispatch.ResultEnvelope id _ => Some id
  | Dispatch.ErrorEnvelope id _ => Some id
  end.


(** ** The registry *)

(** What [_load_tools] gives every tool it registers under [n]. *)
Definition RegisteredTool (n : string) (tool : Tool) : Prop :=
  name tool = n
  /\ path tool = ("/tools/" ++ n)%string
  /\ method tool = "rpc"
  /\ priority tool = 0%Z
  /\ required_scopes tool = Some (task_types tool)
  /\ (task_types tool = ["truenas-ops"]
      \/ exists class, In (class, task_types tool) RegistryLoader.TASK_TYPE_MAP)
  /\ exists properties required,
       request_schema tool
       = Some (JObj [("type", JStr "object");
                     ("properties", JObj properties);
                     ("required", JArr required)]).

Definition RegistryOK {Handler : Type}
    (reg : RegistryLoader.Registry Handler) : Prop :=
  Dict.keys (RegistryLoader.r_tools reg)
  = Dict.keys (RegistryLoader.r_handlers reg)
  /\ Dict.wf (RegistryLoader.r_tools reg)
  /\ forall n tool,
       In (n, tool) (RegistryLoader.r_tools reg) -> RegisteredTool n tool.

(** A description of a parameter asks for it: it is an object whose
    [required] member is true in Python's sense. *)
Definition marks_required (meta : Json) : Prop :=
  exists fields flag,
    meta = JObj fields
    /\ Dict.get "required" fields = Some flag
    /\ truthy_json flag = true.


(** The property [_build_input_schema] writes for a parameter described by
    the object [meta]. *)
Definition property_of (meta : Dict.t Json) : Dict.t Json :=
  fold_left (RegistryLoader.copy_key meta) RegistryLoader.extra_keys
    (RegistryLoader.copy_key meta
       [("type", Dict.get_or "type" meta (JStr "string"))] "description").

Definition required_flag (meta : Dict.t Json) : bool :=
  match Dict.get "required" meta with
  | Some flag => truthy_json flag
  | None => false
  end.

(** * Properties *)

(** ** Strings *)

Lemma prefix_iff (a s : string) :
  prefix a s = true <-> exists post, s = (a ++ post)%string.
Proof.
  revert s; induction a as [|c a IH]; intros s.
  - destruct s; simpl; split; eauto.
  - destruct s as [|d s]; simpl.
    + split; [discriminate | intros [post H]; discriminate].
    + destruct (ascii_dec c d) as [->|Hne].
      * split.
        -- intros H. apply IH in H. destruct H as [post H].
           exists post. now rewrite H.
        -- intros [post H]. injection H as H. apply IH. now exists post.
      * split; [discriminate | intros [post H]; injection H; intros; congruence].
Qed.

Lemma contains_nil (sub : string) :
  Py.contains sub "" = prefix sub "".
Proof. simpl. apply orb_false_r. Qed.

Lemma contains_cons (sub : string) (c : ascii) (s : string) :
  Py.contains sub (String c s) = prefix sub (String c s) || Py.contains sub s.
Proof. reflexivity. Qed.

Lemma contains_iff (sub s : string) :
  Py.contains sub s = true <-> Substring sub s.
Proof.
  unfold Substring. induction s as [|c s IH].
  - rewrite contains_nil, prefix_iff. split.
    + intros [post H]. exists "", post. exact H.
    + intros ([|? ?] & post & H); [exists post; exact H | discriminate].
  - rewrite contains_cons, orb_true_iff, prefix_iff, IH. split.
    + intros [[post H] | (pre & post & H)].
      * exists "", post. exact H.
      * exists (String c pre), post. simpl. now rewrite H.
    + intros ([|d pre] & post & H).
      * left. exists post. exact H.
      * right. simpl in H. injection H as _ H. eauto.
Qed.

Lemma mem_iff (x : string) (l : list string) :
  Py.mem x l = true <-> In x l.
Proof.
  unfold Py.mem. rewrite existsb_exists. split.
  - intros (y & Hy & E). apply String.eqb_eq in E. now subst.
  - intros H. exists x. split; [exact H | apply String.eqb_refl].
Qed.

Lemma mem_false_iff (x : string) (l : list string) :
  Py.mem x l = false <-> ~ In x l.
Proof.
  rewrite <- mem_iff. destruct (Py.mem x l); split; congruence.
Qed.

(** ** Dictionaries *)

Lemma get_in {V} (k : string) (d : Dict.t V) (v : V) :
  Dict.get k d = Some v -> In (k, v) d.
Proof.
  induction d as [|[k' v'] d IH]; simpl; [discriminate|].
  destruct (String.eqb_spec k k') as [->|Hne].
  - intros [= ->]. now left.
  - intros H. right. auto.
Qed.

Lemma get_none_iff {V} (k : string) (d : Dict.t V) :
  Dict.get k d = None <-> ~ In k (Dict.keys d).
Proof.
  induction d as [|[k' v'] d IH]; simpl.
  - tauto.
  - destruct (String.eqb_spec k k') as [->|Hne].
    + split; [discriminate | intros H; exfalso; auto].
    + rewrite IH. split; intros H; [intros [E|E]; congruence || auto | auto].
Qed.

Lemma in_get {V} (k : string) (d : Dict.t V) (v : V) :
  Dict.wf d -> In (k, v) d -> Dict.get k d = Some v.
Proof.
  unfold Dict.wf. induction d as [|[k' v'] d IH]; simpl; [tauto|].
  intros Hnd [E|Hin].
  - injection E as -> ->. now rewrite String.eqb_refl.
  - inversion Hnd as [|? ? Hnotin Hnd']; subst.
    destruct (String.eqb_spec k k') as [->|Hne].
    + exfalso. apply Hnotin. change k' with (fst (k', v)). now apply in_map.
    + auto.
Qed.

Lemma mem_iff_keys {V} (k : string) (d : Dict.t V) :
  Dict.mem k d = true <-> In k (Dict.keys d).
Proof.
  unfold Dict.mem. destruct (Dict.get k d) eqn:E.
  - split; [intros _ | reflexivity].
    apply get_in in E. change k with (fst (k, v)). now apply in_map.
  - apply get_none_iff in E. split; [discriminate | tauto].
Qed.

Lemma set_fresh {V} (k : string) (v : V) (d : Dict.t V) :
  ~ In k (Dict.keys d) -> Dict.set k v d = d ++ [(k, v)].
Proof.
  induction d as [|[k' v'] d IH]; simpl; [reflexivity|].
  intros H. destruct (String.eqb_spec k k') as [->|Hne].
  - exfalso. auto.
  - rewrite IH; auto.
Qed.

Lemma keys_set {V} (k : string) (v : V) (d : Dict.t V) (x : string) :
  In x (Dict.keys (Dict.set k v d)) <-> x = k \/ In x (Dict.keys d).
Proof.
  induction d as [|[k' v'] d IH]; simpl.
  - intuition.
  - destruct (String.eqb_spec k k') as [->|Hne]; simpl.
    + intuition.
    + rewrite IH. intuition.
Qed.

Lemma get_set {V} (k : string) (v : V) (d : Dict.t V) (x : string) :
  Dict.get x (Dict.set k v d) = if String.eqb x k then Some v else Dict.get x d.
Proof.
  induction d as [|[k' v'] d IH]; simpl.
  - reflexivity.
  - destruct (String.eqb_spec k k') as [->|Hne]; simpl.
    + destruct (String.eqb x k'); reflexivity.
    + rewrite IH. destruct (String.eqb_spec x k') as [->|Hne'].
      * destruct (String.eqb_spec k' k); [congruence | reflexivity].
      * reflexivity.
Qed.

Lemma of_list_acc {V} (pairs acc : Dict.t V) :
  NoDup (Dict.keys (acc ++ pairs)) ->
  fold_left (fun d kv => Dict.set (fst kv) (snd kv) d) pairs acc = acc ++ pairs.
Proof.
  revert acc. induction pairs as [|[k v] pairs IH]; intros acc Hnd; simpl.
  - now rewrite app_nil_r.
  - rewrite set_fresh.
    + rewrite IH; rewrite <- app_assoc; [reflexivity | exact Hnd].
    + unfold Dict.keys in *. rewrite map_app in Hnd. simpl in Hnd.
      apply NoDup_remove_2 in Hnd. intros Hin. apply Hnd.
      apply in_or_app. now left.
Qed.

Lemma of_list_wf {V} (pairs : Dict.t V) :
  Dict.wf pairs -> Dict.of_list pairs = pairs.
Proof.
  intros H. unfold Dict.of_list. now rewrite of_list_acc.
Qed.

Lemma filter_in {V} (p : string -> V -> bool) (d : Dict.t V) k v :
  In (k, v) (Dict.filter p d) <-> In (k, v) d /\ p k v = true.
Proof. unfold Dict.filter. now rewrite filter_In. Qed.

(** ** Intent classifier *)

Lemma entry_matches_iff (query : string) (entry : string * list string) :
  entry_matches query entry = true <->
  exists keyword, In keyword (snd entry) /\ Substring keyword (Py.lower query).
Proof.
  unfold entry_matches. rewrite existsb_exists.
  split; intros (k & Hin & H); exists k; split; auto; now apply contains_iff.
Qed.

Lemma classify_loop (query : string) (M : Dict.t (list string))
    (matches : list string) :
  fold_left (KeywordIntentClassifier.classify_step (Py.lower query)) M matches
  = matches ++ map fst (filter (entry_matches query) M).
Proof.
  revert matches. induction M as [|[task_type keywords] M IH]; intros matches.
  - simpl. now rewrite app_nil_r.
  - cbn [fold_left filter]. rewrite IH.
    unfold KeywordIntentClassifier.classify_step, entry_matches at 2.
    cbn [snd]. destruct (existsb _ keywords).
    + cbn [map fst]. now rewrite <- app_assoc.
    + reflexivity.
Qed.

(** C9. [classify_intent] returns the labels of the configured mapping, in
    the order of the mapping, whose entry has at least one keyword that is a
    literal substring of the lower-cased query; a label is in the result
    exactly when it has such an entry, so several labels may be returned. *)
Theorem classify_intent_keyword_membership
    (self : KeywordIntentClassifier.t) (q : string) :
  let M := KeywordIntentClassifier.keyword_mappings self in
  KeywordIntentClassifier.classify_intent self q
    = map fst (filter (entry_matches q) M)
  /\ (forall entry, entry_matches q entry = true <->
        exists keyword,
          In keyword (snd entry) /\ Substring keyword (Py.lower q))
  /\ (forall t, In t (KeywordIntentClassifier.classify_intent self q) <->
        exists keywords keyword,
          In (t, keywords) M /\ In keyword keywords
          /\ Substring keyword (Py.lower q)).
Proof.
  intros M.
  assert (E : KeywordIntentClassifier.classify_intent self q
              = map fst (filter (entry_matches q) M)).
  { unfold KeywordIntentClassifier.classify_intent. now rewrite classify_loop. }
  split; [exact E|]. split; [intros entry; apply entry_matches_iff|].
  intros t. rewrite E, in_map_iff. split.
  - intros ([t' kws] & Ht & Hin). cbn in Ht. subst t'.
    apply filter_In in Hin. destruct Hin as [Hin Hm].
    apply entry_matches_iff in Hm. destruct Hm as (k & Hk & Hs).
    exists kws, k. auto.
  - intros (kws & k & Hin & Hk & Hs). exists (t, kws). split; [reflexivity|].
    apply filter_In. split; [exact Hin|].
    apply entry_matches_iff. exists k. auto.
Qed.

Example classify_zfs_pools :
  KeywordIntentClassifier.classify_intent (KeywordIntentClassifier.init None)
    "Show me my ZFS pools and their snapshots"
  = ["storage-ops"; "snapshot-ops"].
Proof. vm_compute. reflexivity. Qed.

(** ** Task-type filter *)

Section TaskTypeFilterFacts.

Variable st : HttpServerSettings.
Variable self : TaskTypeFilter.t.

Lemma strict_policy_iff :
  strict_policy st = true <->
  strict_context_limit st = true \/ intent_fallback_to_all st = false.
Proof.
  unfold strict_policy. rewrite orb_true_iff, negb_true_iff. tauto.
Qed.

Lemma strict_no_match_iff (context : FilterContext) :
  TaskTypeFilter.strict_no_match st context = true
  <-> StrictNoMatch st context.
Proof.
  unfold TaskTypeFilter.strict_no_match, StrictNoMatch.
  rewrite <- strict_policy_iff.
  destruct (query context) as [q|], (detected_task_types context) as [[|d l]|];
    split; try discriminate; try (intros (H1 & H2 & H3); congruence).
  intros H. repeat split; [discriminate | exact H].
Qed.

Lemma strict_no_match_false (context : FilterContext) :
  ~ StrictNoMatch st context ->
  TaskTypeFilter.strict_no_match st context = false.
Proof.
  intros H. destruct (TaskTypeFilter.strict_no_match st context) eqn:E; auto.
  apply strict_no_match_iff in E. contradiction.
Qed.

Lemma set_update_in (s xs : list string) (n : string) :
  In n (Py.set_update s xs) <-> In n s \/ In n xs.
Proof.
  unfold Py.set_update. revert s. induction xs as [|x xs IH]; intros s.
  - simpl. tauto.
  - cbn [fold_left]. rewrite IH. destruct (Py.mem x s) eqn:E.
    + apply mem_iff in E. simpl. intuition; subst; auto.
    + rewrite in_app_iff. simpl. intuition.
Qed.

Lemma merge_loop_in (labels merged : list string) (n : string) :
  In n (fold_left
          (fun merged task_type =>
             Py.set_update merged
               (Dict.get_or task_type
                  (TaskTypeFilter.task_type_allowlists self) []))
          labels merged)
  <-> In n merged \/ InMergedAllowlist self labels n.
Proof.
  unfold InMergedAllowlist. revert merged.
  induction labels as [|l labels IH]; intros merged.
  - simpl. split; [auto | intros [H | (l & [] & _)]; exact H].
  - cbn [fold_left]. rewrite IH, set_update_in. split.
    + intros [[H | H] | (l' & Hl & H)]; eauto.
      * right. exists l. simpl. auto.
      * right. exists l'. simpl. auto.
    + intros [H | (l' & [-> | Hl] & H)]; eauto.
Qed.

Lemma merge_allowlists_in (labels : list string) (n : string) :
  In n (TaskTypeFilter._merge_allowlists self labels)
  <-> InMergedAllowlist self labels n.
Proof.
  unfold TaskTypeFilter._merge_allowlists. rewrite merge_loop_in.
  simpl. tauto.
Qed.

Lemma shares_label_iff (labels : list string) (tool : Tool) :
  existsb (fun t => Py.mem t (task_types tool)) labels = true
  <-> SharesLabel labels tool.
Proof.
  unfold SharesLabel. rewrite existsb_exists.
  split; intros (l & Hl & H); exists l; split; auto; now apply mem_iff.
Qed.

End TaskTypeFilterFacts.

(** C2. With a query supplied, [detected_task_types] equal to the empty
    list and strict or no-fallback policy, [TaskTypeFilter.apply] returns the
    empty tool set, whatever the catalog, the explicit [task_type] and the
    allowlists are. *)
Theorem strict_no_match_returns_empty
    (st : HttpServerSettings) (self : TaskTypeFilter.t) (tools : Dict.t Tool)
    (context : FilterContext) :
  query context <> None ->
  detected_task_types context = Some [] ->
  strict_context_limit st = true \/ intent_fallback_to_all st = false ->
  TaskTypeFilter.apply st self tools context = [].
Proof.
  intros Hq Hd Hp. unfold TaskTypeFilter.apply.
  assert (E : TaskTypeFilter.strict_no_match st context = true)
    by (apply strict_no_match_iff; repeat split; assumption).
  now rewrite E.
Qed.

Lemma strict_no_match_returns_empty_witness :
  TaskTypeFilter.apply strict_settings storage_filter sample_catalog
    {| task_type := Some "storage";
       client_id := None;
       session_id := None;
       request_id := "req-1";
       query := Some "xyz-no-match";
       detected_task_types := Some [] |} = [].
Proof.
  apply strict_no_match_returns_empty; simpl.
  - discriminate.
  - reflexivity.
  - left. reflexivity.
Defined.

Lemma apply_past_short_circuit
    (st : HttpServerSettings) (self : TaskTypeFilter.t) (tools : Dict.t Tool)
    (context : FilterContext) :
  ~ StrictNoMatch st context ->
  TaskTypeFilter.apply st self tools context =
  match resolved_labels st self context with
  | [] => not_meta tools
  | labels =>
      match TaskTypeFilter._merge_allowlists self labels with
      | [] => if strict_policy st then [] else tools
      | merged =>
          Dict.filter
            (fun name tool =>
               Py.mem name merged
               && existsb (fun t => Py.mem t (task_types tool)) labels)
            tools
      end
  end.
Proof.
  intros H. unfold TaskTypeFilter.apply.
  rewrite (strict_no_match_false st context H).
  unfold resolved_labels.
  destruct (TaskTypeFilter._normalize_task_types self _) as [|l ls];
    [reflexivity|].
  destruct (TaskTypeFilter._merge_allowlists self (l :: ls)); reflexivity.
Qed.

Lemma keep_tool_iff (self : TaskTypeFilter.t) (labels : list string)
    (n : string) (tool : Tool) :
  keep_tool self labels n tool = true <->
  InMergedAllowlist self labels n /\ SharesLabel labels tool.
Proof.
  unfold keep_tool.
  now rewrite andb_true_iff, mem_iff, merge_allowlists_in, shares_label_iff.
Qed.

Lemma apply_normal_resolution
    (st : HttpServerSettings) (self : TaskTypeFilter.t) (tools : Dict.t Tool)
    (context : FilterContext) :
  ~ StrictNoMatch st context ->
  resolved_labels st self context <> [] ->
  TaskTypeFilter._merge_allowlists self (resolved_labels st self context) <> [] ->
  TaskTypeFilter.apply st self tools context
  = Dict.filter (keep_tool self (resolved_labels st self context)) tools.
Proof.
  intros Hs Hl Hm.
  rewrite (apply_past_short_circuit st self tools context Hs).
  unfold keep_tool.
  destruct (resolved_labels st self context) as [|l ls]; [congruence|].
  destruct (TaskTypeFilter._merge_allowlists self (l :: ls)); [congruence|].
  reflexivity.
Qed.

(** C3. When the filter gets past the short-circuit, resolves at least one
    label and the union of the allowlist entries of the resolved labels is
    not empty, it returns, in the order of the input, exactly the input
    tools whose name is in that union and whose own [task_types] contain one
    of the resolved labels.  With the allowlist [storage-ops -> list_pools]
    and the tools [list_pools] and [create_user], the explicit label
    [storage] yields exactly [list_pools]. *)
Theorem allowlist_and_self_tag_intersection
    (st : HttpServerSettings) (self : TaskTypeFilter.t) (tools : Dict.t Tool)
    (context : FilterContext) :
  ~ StrictNoMatch st context ->
  resolved_labels st self context <> [] ->
  (exists n, InMergedAllowlist self (resolved_labels st self context) n) ->
  (exists keep : string -> Tool -> bool,
      TaskTypeFilter.apply st self tools context = Dict.filter keep tools
      /\ forall n tool,
           keep n tool = true <->
           InMergedAllowlist self (resolved_labels st self context) n
           /\ SharesLabel (resolved_labels st self context) tool)
  /\ (forall n tool,
        In (n, tool) (TaskTypeFilter.apply st self tools context) <->
        In (n, tool) tools
        /\ InMergedAllowlist self (resolved_labels st self context) n
        /\ SharesLabel (resolved_labels st self context) tool)
  /\ TaskTypeFilter.apply st storage_filter sample_tools
       (plain_context (Some "storage")) = [("list_pools", list_pools)].
Proof.
  intros Hs Hl (n0 & Hn0).
  assert (Hm : TaskTypeFilter._merge_allowlists self
                 (resolved_labels st self context) <> []).
  { apply merge_allowlists_in in Hn0. intros E. rewrite E in Hn0. exact Hn0. }
  rewrite (apply_normal_resolution st self tools context Hs Hl Hm).
  split; [|split].
  - exists (keep_tool self (resolved_labels st self context)).
    split; [reflexivity | apply keep_tool_iff].
  - intros n tool. now rewrite filter_in, keep_tool_iff.
  - destruct st as [? ? ? [] ? ?]; reflexivity.
Qed.

Lemma allowlist_and_self_tag_intersection_witness :
  exists keep : string -> Tool -> bool,
    TaskTypeFilter.apply default_settings storage_filter sample_catalog
      (plain_context (Some "Storage_Ops "))
    = Dict.filter keep sample_catalog.
Proof.
  destruct (allowlist_and_self_tag_intersection default_settings storage_filter
              sample_catalog (plain_context (Some "Storage_Ops ")))
    as [(keep & E & _) _].
  - intros (H & _). apply H. reflexivity.
  - vm_compute. discriminate.
  - exists "list_pools", "storage-ops". vm_compute. auto.
  - exists keep. exact E.
Defined.

(** C4. When the short-circuit does not apply, there is no explicit
    [task_type] and no non-empty [detected_task_types], the filter returns,
    in the order of the input, exactly the input tools whose [task_types] do
    not contain [meta-ops]. *)
Theorem default_meta_ops_exclusion
    (st : HttpServerSettings) (self : TaskTypeFilter.t) (tools : Dict.t Tool)
    (context : FilterContext) :
  ~ StrictNoMatch st context ->
  task_type context = None \/ task_type context = Some "" ->
  detected_task_types context = None \/ detected_task_types context = Some [] ->
  TaskTypeFilter.apply st self tools context = not_meta tools
  /\ forall n tool,
       In (n, tool) (TaskTypeFilter.apply st self tools context) <->
       In (n, tool) tools /\ ~ In "meta-ops" (task_types tool).
Proof.
  intros Hs Ht Hd.
  assert (E : TaskTypeFilter.apply st self tools context = not_meta tools).
  { rewrite (apply_past_short_circuit st self tools context Hs).
    unfold resolved_labels, TaskTypeFilter.select_task_types.
    destruct Ht as [-> | ->], Hd as [-> | ->], (intent_precedence st);
      reflexivity. }
  split; [exact E|]. intros n tool. rewrite E. unfold not_meta.
  now rewrite filter_in, negb_true_iff, mem_false_iff.
Qed.

Lemma default_meta_ops_exclusion_witness :
  TaskTypeFilter.apply default_settings storage_filter sample_catalog
    (plain_context None)
  = [("list_pools", list_pools); ("create_user", create_user)].
Proof.
  destruct (default_meta_ops_exclusion default_settings storage_filter
              sample_catalog (plain_context None)) as [E _].
  - intros (H & _). apply H. reflexivity.
  - left. reflexivity.
  - left. reflexivity.
  - rewrite E. reflexivity.
Defined.

(** When at least one label is resolved and the union of the allowlist
    entries of the resolved labels is empty, the policy decides between the
    empty set and the whole input. *)
Lemma empty_merged_allowlist_policy
    (st : HttpServerSettings) (self : TaskTypeFilter.t) (tools : Dict.t Tool)
    (context : FilterContext) :
  resolved_labels st self context <> [] ->
  (forall n, ~ InMergedAllowlist self (resolved_labels st self context) n) ->
  TaskTypeFilter.apply st self tools context
  = if strict_policy st then [] else tools.
Proof.
  intros Hl Hm. unfold TaskTypeFilter.apply.
  destruct (TaskTypeFilter.strict_no_match st context) eqn:Es.
  - apply strict_no_match_iff in Es. destruct Es as (_ & _ & Hp).
    apply strict_policy_iff in Hp. now rewrite Hp.
  - fold (resolved_labels st self context).
    destruct (resolved_labels st self context) as [|l ls]; [congruence|].
    destruct (TaskTypeFilter._merge_allowlists self (l :: ls)) as [|m ms] eqn:Em;
      [reflexivity|].
    exfalso. apply (Hm m). apply merge_allowlists_in. rewrite Em. now left.
Qed.

(** The second test of tests/unit/test_tool_gating.py: a mixed-case alias. *)
Example alias_mixed_case :
  Dict.keys
    (TaskTypeFilter.apply default_settings
       (TaskTypeFilter.init [("user-ops", ["create_user"])])
       [("create_user", create_user); ("list_pools", list_pools)]
       (plain_context (Some "User_Ops")))
  = ["create_user"].
Proof. vm_compute. reflexivity. Qed.

(** C5, evaluated where it fails.  The explicit label [bogus] is selected by
    precedence and is no allowlist key or alias; normalization drops it, so
    the filter takes the no-label branch: under strict policy the result is
    not empty, and with fallback enabled it is not the whole input. *)
Theorem unknown_task_type_takes_default_branch :
  TaskTypeFilter.select_task_types strict_settings
    (plain_context (Some "bogus")) = ["bogus"]
  /\ resolved_labels strict_settings storage_filter
       (plain_context (Some "bogus")) = []
  /\ strict_policy strict_settings = true
  /\ TaskTypeFilter.apply strict_settings storage_filter sample_catalog
       (plain_context (Some "bogus"))
     = [("list_pools", list_pools); ("create_user", create_user)]
  /\ strict_policy default_settings = false
  /\ TaskTypeFilter.apply default_settings storage_filter sample_catalog
       (plain_context (Some "bogus"))
     = [("list_pools", list_pools); ("create_user", create_user)]
  /\ TaskTypeFilter.apply default_settings storage_filter sample_catalog
       (plain_context (Some "bogus"))
     <> sample_catalog.
Proof.
  repeat split; try reflexivity. vm_compute. discriminate.
Qed.

(** ** Protocol handler: resolution of the task type *)

(** C6, refuted as stated: with the header [storage] and a query in which
    the classifier finds nothing, the explicit label is not selected. *)
Lemma explicit_label_not_used_after_classification :
  ~ FallsBackToExplicit default_settings (sample_server default_settings)
      {| TrueNASHTTPMCP.lp_task_type := None;
         TrueNASHTTPMCP.lp_query := Some "xyzzy" |}
      (Some "storage").
Proof.
  intros H.
  destruct (H (KeywordIntentClassifier.classify_intent
                 (KeywordIntentClassifier.init None))
              "xyzzy" "storage") as [_ H2];
    try reflexivity; try discriminate.
  specialize (H2 eq_refl). vm_compute in H2. discriminate.
Qed.

(** C6, as the code has it.  Under intent precedence, with classification
    enabled, a classifier configured and a non-empty query, the context
    handed to the filters carries the labels the classifier detected and no
    explicit label: the detected labels are the ones selected, and when
    there are none no label is selected, so that the task-type filter
    returns the empty set under strict or no-fallback policy and the tools
    not tagged [meta-ops] otherwise. *)
Theorem intent_precedence_discards_explicit
    (st : HttpServerSettings) (self : TrueNASHTTPMCP.t)
    (params : TrueNASHTTPMCP.ListParams) (request_id session : string)
    (task_type_header : option string)
    (classify : TrueNASHTTPMCP.IntentClassifier) (q : string) :
  intent_precedence st = Intent ->
  intent_classification_enabled st = true ->
  TrueNASHTTPMCP.intent_classifier self = Some classify ->
  TrueNASHTTPMCP.lp_query params = Some q ->
  q <> "" ->
  let context :=
    fst (TrueNASHTTPMCP.build_context st self (Some params) request_id session
           task_type_header) in
  task_type context = None
  /\ query context = Some q
  /\ detected_task_types context = Some (classify q)
  /\ TaskTypeFilter.select_task_types st context = classify q
  /\ (classify q = [] ->
      forall (f : TaskTypeFilter.t) (tools : Dict.t Tool),
        TaskTypeFilter.apply st f tools context
        = if strict_policy st then [] else not_meta tools).
Proof.
  intros Hp He Hc Hq Hne context.
  assert (Hctx : context =
                 {| task_type := None;
                    client_id := None;
                    session_id := Some session;
                    request_id := request_id;
                    query := Some q;
                    detected_task_types := Some (classify q) |}).
  { unfold context, TrueNASHTTPMCP.build_context.
    rewrite Hq, He, Hc, Hp. cbn [Py.truthy_str].
    apply String.eqb_neq in Hne. rewrite Hne. reflexivity. }
  rewrite Hctx. cbn [task_type query detected_task_types].
  repeat split.
  - unfold TaskTypeFilter.select_task_types. rewrite Hp.
    cbn [task_type detected_task_types Py.truthy_str].
    destruct (classify q); reflexivity.
  - intros E f tools. unfold TaskTypeFilter.apply,
      TaskTypeFilter.strict_no_match, TaskTypeFilter.select_task_types.
    cbn [task_type query detected_task_types]. rewrite E, Hp.
    destruct (strict_policy st); reflexivity.
Qed.

Lemma intent_precedence_discards_explicit_witness :
  TaskTypeFilter.select_task_types default_settings
    (fst (TrueNASHTTPMCP.build_context default_settings
            (sample_server default_settings)
            (list_request None (Some "xyzzy")) "req-1" "S" (Some "storage")))
  = [].
Proof.
  apply (intent_precedence_discards_explicit default_settings
           (sample_server default_settings)
           {| TrueNASHTTPMCP.lp_task_type := None;
              TrueNASHTTPMCP.lp_query := Some "xyzzy" |}
           "req-1" "S" (Some "storage")
           (KeywordIntentClassifier.classify_intent
              (KeywordIntentClassifier.init None))
           "xyzzy");
    try reflexivity.
  discriminate.
Defined.

(** ** Protocol handler: the session cache *)

(** [tools/list] stores the set it computed under the session id, also when
    the size check raises afterwards. *)
Lemma handle_tools_list_stores
    (env : Env) (st : HttpServerSettings) (self : TrueNASHTTPMCP.t)
    (params : option TrueNASHTTPMCP.ListParams) (request_id session : string)
    (scopes : list string) (task_type_header : option string) :
  exists stored,
    Dict.get session
      (TrueNASHTTPMCP.session_tools
         (fst (TrueNASHTTPMCP.handle_tools_list env st self params request_id
                 session scopes task_type_header)))
    = Some stored
    /\ forall listing,
         snd (TrueNASHTTPMCP.handle_tools_list env st self params request_id
                session scopes task_type_header) = Return listing ->
         TrueNASHTTPMCP.tools listing = stored.
Proof.
  unfold TrueNASHTTPMCP.handle_tools_list.
  destruct (TrueNASHTTPMCP.build_context _ _ _ _ _ _) as [context m].
  set (filtered := if TrueNASHTTPMCP.scope_limited scopes then _ else _).
  destruct (ToolGateController.get_context_size _ _ _ _ _) as [[c ev] [n|n]];
    exists filtered; cbn [fst snd TrueNASHTTPMCP.session_tools
                          TrueNASHTTPMCP.with_session_tools];
    rewrite get_set, String.eqb_refl; split; try reflexivity.
  - intros listing [= <-]. reflexivity.
  - discriminate.
Qed.

(** Without an entry for the session the whole registry is visible. *)
Lemma session_filtered_no_entry (self : TrueNASHTTPMCP.t) (session : string) :
  Dict.get session (TrueNASHTTPMCP.session_tools self) = None ->
  TrueNASHTTPMCP.session_filtered self session
  = TrueNASToolRegistry.get_all_tools (TrueNASHTTPMCP.tool_registry self).
Proof.
  intros H. unfold TrueNASHTTPMCP.session_filtered. now rewrite H.
Qed.

(** A stored set that is not empty is the visible set. *)
Lemma session_filtered_entry (self : TrueNASHTTPMCP.t) (session : string)
    (stored : Dict.t Tool) :
  Dict.get session (TrueNASHTTPMCP.session_tools self) = Some stored ->
  stored <> [] ->
  TrueNASHTTPMCP.session_filtered self session = stored.
Proof.
  intros H Hne. unfold TrueNASHTTPMCP.session_filtered. rewrite H.
  destruct stored; [congruence | reflexivity].
Qed.

(** With a non-empty stored set, the names of the set and only they pass
    the availability check. *)
Lemma stored_set_decides_availability (self : TrueNASHTTPMCP.t)
    (session : string) (stored : Dict.t Tool) (tool_name : string)
    (arguments : option Json) (request_id : string) (scopes : list string) :
  Dict.get session (TrueNASHTTPMCP.session_tools self) = Some stored ->
  stored <> [] ->
  let reply :=
    TrueNASHTTPMCP.handle_tools_call self
      (Some {| TrueNASHTTPMCP.cp_name := Some tool_name;
               TrueNASHTTPMCP.cp_arguments := arguments |})
      request_id session scopes in
  (Dict.mem tool_name stored = false ->
     reply = TrueNASHTTPMCP.Error JSONRPCError.METHOD_NOT_FOUND
               (TrueNASHTTPMCP.NotAvailable tool_name))
  /\ (forall tool_meta,
        Dict.get tool_name stored = Some tool_meta ->
        reply =
        if TrueNASHTTPMCP.scope_limited scopes
           && negb (TrueNASHTTPMCP.shares_scope scopes
                      (TrueNASHTTPMCP.effective_scopes tool_meta))
        then TrueNASHTTPMCP.Error JSONRPCError.METHOD_NOT_FOUND
               (TrueNASHTTPMCP.InsufficientPermissions
                  (TrueNASHTTPMCP.effective_scopes tool_meta))
        else TrueNASHTTPMCP.Proceed tool_name tool_meta
               (match arguments with Some a => a | None => JObj [] end)).
Proof.
  intros H Hne reply. unfold reply, TrueNASHTTPMCP.handle_tools_call.
  cbn [TrueNASHTTPMCP.cp_name TrueNASHTTPMCP.cp_arguments].
  rewrite (session_filtered_entry self session stored H Hne).
  unfold Dict.mem. split.
  - destruct (Dict.get tool_name stored); [discriminate | reflexivity].
  - intros tool_meta ->. reflexivity.
Qed.

(** A listing end to end: the query selects the storage tools, the caller's
    scope admits them, and the set is stored for the session. *)
Example tools_list_end_to_end :
  let reply :=
    TrueNASHTTPMCP.handle_tools_list sample_env default_settings
      (sample_server default_settings)
      (list_request None (Some "show me my zfs pools")) "req-1" "S"
      ["storage-ops"] None in
  Dict.get "S" (TrueNASHTTPMCP.session_tools (fst reply))
    = Some [("list_pools", list_pools)]
  /\ exists listing,
       snd reply = Return listing
       /\ TrueNASHTTPMCP.tools listing = [("list_pools", list_pools)]
       /\ TrueNASHTTPMCP.meta_detected_task_types listing
          = Some ["storage-ops"].
Proof.
  vm_compute. split; [reflexivity|]. eexists. repeat split.
Qed.

(** C1, evaluated where it fails.  A [tools/list] under strict policy whose
    query matches nothing stores the empty set for the session; the
    following [tools/call] for [list_pools], which is not in the stored set,
    is looked up in the whole registry and goes on to dispatch. *)
Theorem empty_stored_set_falls_back_to_registry :
  Dict.get "S" (TrueNASHTTPMCP.session_tools server_after_empty_listing)
    = Some []
  /\ TrueNASHTTPMCP.handle_tools_call server_after_empty_listing
       (call_request "list_pools") "req-2" "S" ["admin"]
     = TrueNASHTTPMCP.Proceed "list_pools" list_pools (JObj [])
  /\ ~ CacheDeterminesDispatch server_after_empty_listing "S" ["admin"].
Proof.
  split; [reflexivity|]. split; [reflexivity|].
  intros H. destruct (H [] "list_pools" eq_refl) as [_ H2].
  specialize (H2 eq_refl). discriminate.
Qed.

(** ** Context budget *)

Lemma estimate_events (env : Env) (st : HttpServerSettings)
    (self : ToolGateController.t) (tools : Dict.t Tool) (e : Event) :
  In e (snd (fst (ToolGateController.estimate_tokens env st self tools))) ->
  e = Serialize (Dict.keys tools).
Proof.
  unfold ToolGateController.estimate_tokens.
  destruct (ToolGateController.use_precomputed self); [intros []|].
  destruct (String.eqb (log_level st) "DEBUG"), (tiktoken_encode env) as [enc|];
    try destruct (enc _); cbn [fst snd]; intros [<-|[]]; reflexivity.
Qed.

Lemma get_context_size_unfold (env : Env) (st : HttpServerSettings)
    (self : ToolGateController.t) (tools : Dict.t Tool)
    (enforce_hard_limit : option bool) :
  let est := ToolGateController.estimate_tokens env st self tools in
  let n := token_count env st self tools in
  let enforce := enforcement_active st enforce_hard_limit in
  ToolGateController.get_context_size env st self tools enforce_hard_limit
  = (fst (fst est), snd (fst est) ++ threshold_events n enforce,
     if (7600 <? n)%Z && enforce then RaiseValueError n else Return n).
Proof.
  unfold ToolGateController.get_context_size, token_count, threshold_events,
    enforcement_active.
  destruct (ToolGateController.estimate_tokens env st self tools)
    as [[self' events] n]. cbn [fst snd].
  assert (Hlt : (7600 <? n)%Z = true -> (5000 <? n)%Z = true).
  { rewrite !Z.ltb_lt. lia. }
  destruct (7600 <? n)%Z;
    [rewrite (Hlt eq_refl) | destruct (5000 <? n)%Z];
    destruct enforce_hard_limit as [[]|]; try destruct (strict_context_limit st);
    cbn [andb]; rewrite <- ?app_assoc, ?app_nil_r; reflexivity.
Qed.

Lemma threshold_events_error (n : Z) (enforce : bool) :
  In (LogError n) (threshold_events n enforce) <-> (7600 < n)%Z.
Proof.
  unfold threshold_events. destruct (Z.ltb_spec 7600 n) as [H|H].
  - destruct enforce; simpl; tauto.
  - destruct (5000 <? n)%Z; simpl; split; try lia;
      intros [E|E]; try discriminate; tauto.
Qed.

Lemma threshold_events_warning (n : Z) (enforce : bool) :
  In (LogWarning n) (threshold_events n enforce) <->
  (5000 < n)%Z /\ ((7600 <? n)%Z && enforce = false).
Proof.
  unfold threshold_events. destruct (Z.ltb_spec 7600 n) as [H|H].
  - destruct enforce; simpl; split.
    + intros [E|[]]. discriminate.
    + intros [_ E]. discriminate.
    + intros _. split; [lia | reflexivity].
    + auto.
  - destruct (Z.ltb_spec 5000 n) as [H'|H']; simpl; split.
    + intros _. split; [lia | reflexivity].
    + auto.
    + intros [].
    + intros [E _]. lia.
Qed.

(** C7. [get_context_size] raises exactly when the estimated count exceeds
    7600 and the hard limit is enforced (by the argument, or by the process
    flag when the argument is omitted); in every other case, also above the
    advisory threshold of 5000, it returns the count.  An error is logged
    exactly above 7600 and a warning exactly when a count above 5000 is
    returned.  The thresholds are the same for all settings. *)
Theorem context_budget_enforcement
    (env : Env) (st : HttpServerSettings) (self : ToolGateController.t)
    (tools : Dict.t Tool) (enforce_hard_limit : option bool) :
  let result :=
    ToolGateController.get_context_size env st self tools enforce_hard_limit in
  let outcome := snd result in
  let events := snd (fst result) in
  let n := token_count env st self tools in
  let enforce := enforcement_active st enforce_hard_limit in
  ((exists m, outcome = RaiseValueError m) <->
     (7600 < n)%Z /\ enforce = true)
  /\ (outcome = Return n <-> ~ ((7600 < n)%Z /\ enforce = true))
  /\ (outcome = RaiseValueError n \/ outcome = Return n)
  /\ (In (LogError n) events <-> (7600 < n)%Z)
  /\ (In (LogWarning n) events <-> (5000 < n)%Z /\ outcome = Return n).
Proof.
  cbv zeta. rewrite get_context_size_unfold. cbn [fst snd].
  pose proof (estimate_events env st self tools) as Hev.
  set (events := snd (fst (ToolGateController.estimate_tokens env st self tools)))
    in *.
  set (n := token_count env st self tools).
  set (enforce := enforcement_active st enforce_hard_limit).
  assert (HE : ~ In (LogError n) events)
    by (intros H; apply Hev in H; discriminate).
  assert (HW : ~ In (LogWarning n) events)
    by (intros H; apply Hev in H; discriminate).
  rewrite !in_app_iff, threshold_events_error, threshold_events_warning.
  destruct ((7600 <? n)%Z && enforce) eqn:E.
  - apply andb_true_iff in E. destruct E as [E1 E2]. apply Z.ltb_lt in E1.
    split. { split; [intros _; auto | intros _; eauto]. }
    split. { split; [discriminate | intros H; exfalso; apply H; auto]. }
    split. { left. reflexivity. }
    split. { split; [intros [H|H]; tauto | auto]. }
    split.
    + intros [H|[_ H]]; [tauto | discriminate].
    + intros [_ H]. discriminate.
  - assert (E' : ~ ((7600 < n)%Z /\ enforce = true)).
    { intros [H1 H2]. apply Z.ltb_lt in H1. rewrite H1, H2 in E. discriminate. }
    split. { split; [intros [m Hm]; discriminate | tauto]. }
    split. { split; [intros _; exact E' | reflexivity]. }
    split. { right. reflexivity. }
    split. { split; [intros [H|H]; tauto | auto]. }
    split.
    + intros [H|[H _]]; [tauto | auto].
    + intros [H _]. right. auto.
Qed.

(** ** The precomputed size table *)

Lemma fill_approx_get_absent (env : Env) (items : Dict.t Tool)
    (sizes : Dict.t Z) (x : string) :
  ~ In x (Dict.keys items) ->
  Dict.get x (ToolGateController.fill_approx env items sizes) = Dict.get x sizes.
Proof.
  unfold ToolGateController.fill_approx. revert sizes.
  induction items as [|[k v] items IH]; intros sizes Hx; [reflexivity|].
  cbn [fold_left fst snd]. rewrite IH.
  - rewrite get_set. destruct (String.eqb_spec x k) as [->|]; [|reflexivity].
    exfalso. apply Hx. now left.
  - intros H. apply Hx. now right.
Qed.

Lemma fill_approx_get_present (env : Env) (items : Dict.t Tool)
    (sizes : Dict.t Z) (x : string) (tool : Tool) :
  Dict.wf items -> In (x, tool) items ->
  Dict.get x (ToolGateController.fill_approx env items sizes)
  = Some (ToolGateController.approx_size (json_dumps_tool env tool)).
Proof.
  unfold ToolGateController.fill_approx, Dict.wf. revert sizes.
  induction items as [|[k v] items IH]; intros sizes Hwf Hin; [destruct Hin|].
  inversion Hwf as [|? ? Hk Hwf']; subst. cbn [fold_left fst snd].
  destruct Hin as [E|Hin].
  - injection E as -> ->.
    change (fold_left _ items ?s) with (ToolGateController.fill_approx env items s).
    rewrite fill_approx_get_absent by exact Hk.
    now rewrite get_set, String.eqb_refl.
  - now apply IH.
Qed.

Lemma fill_tiktoken_get_absent (env : Env) (enc : string -> option nat)
    (items : Dict.t Tool) (sizes : Dict.t Z) (x : string) :
  ~ In x (Dict.keys items) ->
  Dict.get x (fst (ToolGateController.fill_tiktoken env enc items sizes))
  = Dict.get x sizes.
Proof.
  revert sizes. induction items as [|[k v] items IH]; intros sizes Hx;
    [reflexivity|].
  cbn [ToolGateController.fill_tiktoken].
  destruct (enc (json_dumps_tool env v)) as [n|]; [|reflexivity].
  rewrite IH.
  - rewrite get_set. destruct (String.eqb_spec x k) as [->|]; [|reflexivity].
    exfalso. apply Hx. now left.
  - intros H. apply Hx. now right.
Qed.

Lemma fill_tiktoken_ok (env : Env) (enc : string -> option nat)
    (items : Dict.t Tool) (sizes : Dict.t Z) :
  snd (ToolGateController.fill_tiktoken env enc items sizes)
  = tokenizer_covers env enc items.
Proof.
  unfold tokenizer_covers. revert sizes.
  induction items as [|[k v] items IH]; intros sizes; [reflexivity|].
  cbn [ToolGateController.fill_tiktoken forallb snd].
  destruct (enc (json_dumps_tool env v)); [apply IH | reflexivity].
Qed.

Lemma fill_tiktoken_get_present (env : Env) (enc : string -> option nat)
    (items : Dict.t Tool) (sizes : Dict.t Z) (x : string) (tool : Tool) :
  Dict.wf items -> In (x, tool) items ->
  tokenizer_covers env enc items = true ->
  exists n,
    enc (json_dumps_tool env tool) = Some n
    /\ Dict.get x (fst (ToolGateController.fill_tiktoken env enc items sizes))
       = Some (Z.of_nat n).
Proof.
  unfold Dict.wf, tokenizer_covers. revert sizes.
  induction items as [|[k v] items IH]; intros sizes Hwf Hin Hok;
    [destruct Hin|].
  inversion Hwf as [|? ? Hk Hwf']; subst.
  cbn [ToolGateController.fill_tiktoken forallb snd] in *.
  destruct (enc (json_dumps_tool env v)) as [n|] eqn:En; [|discriminate].
  destruct Hin as [E|Hin].
  - injection E as -> ->. exists n. split; [exact En|].
    rewrite fill_tiktoken_get_absent by exact Hk.
    now rewrite get_set, String.eqb_refl.
  - now apply IH.
Qed.

Lemma fill_approx_keys (env : Env) (items : Dict.t Tool) (sizes : Dict.t Z)
    (x : string) :
  In x (Dict.keys items) ->
  In x (Dict.keys (ToolGateController.fill_approx env items sizes)).
Proof.
  intros Hin. apply mem_iff_keys. unfold Dict.mem.
  destruct (Dict.get x (ToolGateController.fill_approx env items sizes)) eqn:E;
    [reflexivity|]. exfalso. revert sizes E.
  unfold ToolGateController.fill_approx.
  induction items as [|[k v] items IH]; intros sizes E; [destruct Hin|].
  cbn [fold_left fst snd] in E.
  destruct (in_dec string_dec x (Dict.keys items)) as [Hi|Hi].
  - exact (IH Hi _ E).
  - change (fold_left _ items ?s) with (ToolGateController.fill_approx env items s)
      in E.
    rewrite fill_approx_get_absent in E by exact Hi.
    rewrite get_set in E. destruct Hin as [<-|Hin]; [|contradiction].
    cbn [fst] in E. now rewrite String.eqb_refl in E.
Qed.

Lemma fill_tiktoken_keys (env : Env) (enc : string -> option nat)
    (items : Dict.t Tool) (sizes : Dict.t Z) (x : string) :
  tokenizer_covers env enc items = true ->
  In x (Dict.keys items) ->
  In x (Dict.keys (fst (ToolGateController.fill_tiktoken env enc items sizes))).
Proof.
  intros Hok Hin. apply mem_iff_keys. unfold Dict.mem.
  destruct (Dict.get x (fst (ToolGateController.fill_tiktoken env enc items sizes)))
    eqn:E; [reflexivity|]. exfalso. revert sizes E.
  unfold tokenizer_covers in Hok.
  induction items as [|[k v] items IH]; intros sizes E; [destruct Hin|].
  cbn [ToolGateController.fill_tiktoken forallb snd] in *.
  destruct (enc (json_dumps_tool env v)) as [n|]; [|discriminate].
  destruct (in_dec string_dec x (Dict.keys items)) as [Hi|Hi].
  - exact (IH Hok Hi _ E).
  - rewrite fill_tiktoken_get_absent in E by exact Hi.
    rewrite get_set in E. destruct Hin as [<-|Hin]; [|contradiction].
    cbn [fst] in E. now rewrite String.eqb_refl in E.
Qed.

(** The table the constructor leaves behind. *)
Lemma init_tool_sizes (env : Env) (st : HttpServerSettings)
    (all_tools : Dict.t Tool) (config : FilterConfig) :
  let self := ToolGateController.init env st all_tools config in
  (ToolGateController._estimator_type self = Tiktoken
   \/ ToolGateController._estimator_type self = Approx)
  /\ (forall x, In x (Dict.keys all_tools) ->
        In x (Dict.keys (ToolGateController._tool_sizes self)))
  /\ (forall x, ~ In x (Dict.keys all_tools) ->
        Dict.get x (ToolGateController._tool_sizes self) = None)
  /\ (forall x tool, Dict.wf all_tools -> In (x, tool) all_tools ->
        Dict.get x (ToolGateController._tool_sizes self)
        = Some (precomputed_size env all_tools tool)).
Proof.
  unfold ToolGateController.init, ToolGateController._precompute_tool_sizes,
    precomputed_size.
  cbn [ToolGateController.all_tools ToolGateController._tool_sizes].
  destruct (tiktoken_encode env) as [enc|].
  - rewrite fill_tiktoken_ok.
    destruct (tokenizer_covers env enc all_tools) eqn:Hok;
      cbn [ToolGateController._estimator_type ToolGateController._tool_sizes].
    + split; [now left|]. split; [|split].
      * intros x Hx. now apply fill_tiktoken_keys.
      * intros x Hx. now rewrite fill_tiktoken_get_absent.
      * intros x tool Hwf Hin.
        destruct (fill_tiktoken_get_present env enc all_tools [] x tool Hwf Hin Hok)
          as (n & En & Hn).
        now rewrite En, Hn.
    + split; [now right|]. split; [|split].
      * intros x Hx. now apply fill_approx_keys.
      * intros x Hx. rewrite fill_approx_get_absent by exact Hx.
        now rewrite fill_tiktoken_get_absent.
      * intros x tool Hwf Hin. now apply fill_approx_get_present.
  - cbn [fst snd ToolGateController._estimator_type
         ToolGateController._tool_sizes].
    split; [now right|]. split; [|split].
    + intros x Hx. now apply fill_approx_keys.
    + intros x Hx. now rewrite fill_approx_get_absent.
    + intros x tool Hwf Hin. now apply fill_approx_get_present.
Qed.


Lemma init_uses_precomputed (env : Env) (st : HttpServerSettings)
    (all_tools : Dict.t Tool) (config : FilterConfig) :
  all_tools <> [] ->
  ToolGateController._tool_sizes
    (ToolGateController.init env st all_tools config) <> []
  /\ ToolGateController.use_precomputed
       (ToolGateController.init env st all_tools config) = true.
Proof.
  intros Hne.
  destruct (init_tool_sizes env st all_tools config) as (He & Hk & _).
  assert (Hs : ToolGateController._tool_sizes
                 (ToolGateController.init env st all_tools config) <> []).
  { destruct all_tools as [|[k v] rest]; [congruence|].
    intros E. specialize (Hk k (or_introl eq_refl)). rewrite E in Hk.
    exact Hk. }
  split; [exact Hs|]. unfold ToolGateController.use_precomputed.
  destruct (ToolGateController._tool_sizes _); [congruence|].
  destruct He as [-> | ->]; reflexivity.
Qed.



(** ** Resource cap *)

Section InsertionSort.

Context {A : Type} (lt : A -> A -> bool).

Lemma insert_perm (x : A) (l : list A) :
  Permutation (Py.insert lt x l) (x :: l).
Proof.
  induction l as [|y l IH]; simpl; [reflexivity|].
  destruct (lt y x); [|reflexivity].
  rewrite IH. apply perm_swap.
Qed.

Lemma sorted_perm (l : list A) : Permutation (Py.sorted lt l) l.
Proof.
  induction l as [|x l IH]; simpl; [constructor|].
  rewrite insert_perm. now constructor.
Qed.

Lemma sorted_length (l : list A) : List.length (Py.sorted lt l) = List.length l.
Proof. apply Permutation_length, sorted_perm. Qed.

End InsertionSort.

Lemma str_lt_iff (a b : string) : Py.str_lt a b = true <-> String_as_OT.lt a b.
Proof.
  unfold Py.str_lt, String_as_OT.lt.
  destruct (String_as_OT.compare a b); split; congruence.
Qed.

Lemma item_lt_iff (a b : string * Tool) :
  ResourceFilter.item_lt a b = true <-> precedes a b.
Proof.
  unfold ResourceFilter.item_lt, ResourceFilter.key_lt, ResourceFilter.sort_key,
    precedes. cbn [fst snd].
  rewrite orb_true_iff, andb_true_iff, Z.ltb_lt, Z.eqb_eq, str_lt_iff.
  split; (intros [H | [H L]]; [left; lia | right; split; [lia | exact L]]).
Qed.

Lemma precedes_trans (a b c : string * Tool) :
  precedes a b -> precedes b c -> precedes a c.
Proof.
  unfold precedes. intros [H1 | [H1 L1]] [H2 | [H2 L2]]; try (left; lia).
  right. split; [lia|]. now transitivity (fst b).
Qed.

Lemma precedes_irrefl (a : string * Tool) : ~ precedes a a.
Proof.
  unfold precedes. intros [H | [_ H]]; [lia|].
  exact (StrictOrder_Irreflexive _ H).
Qed.

Lemma precedes_total (a b : string * Tool) :
  fst a <> fst b -> ResourceFilter.item_lt b a = false -> precedes a b.
Proof.
  intros Hne Hlt.
  assert (Hn : ~ precedes b a).
  { intros H. apply item_lt_iff in H. congruence. }
  unfold precedes in *.
  destruct (Z.lt_trichotomy (priority (snd a)) (priority (snd b)))
    as [H | [H | H]].
  - exfalso. apply Hn. now left.
  - right. split; [exact H|].
    destruct (String_as_OT.compare_spec (fst a) (fst b)) as [E | L | L].
    + contradiction.
    + exact L.
    + exfalso. apply Hn. right. split; [now symmetry | exact L].
  - now left.
Qed.

Lemma insert_in (x y : string * Tool) (l : Dict.t Tool) :
  In y (Py.insert ResourceFilter.item_lt x l) -> y = x \/ In y l.
Proof.
  intros H. apply (Permutation_in _ (insert_perm ResourceFilter.item_lt x l)) in H.
  destruct H as [<- | H]; auto.
Qed.

Lemma insert_sorted (x : string * Tool) (l : Dict.t Tool) :
  ~ In (fst x) (Dict.keys l) ->
  StronglySorted precedes l ->
  StronglySorted precedes (Py.insert ResourceFilter.item_lt x l).
Proof.
  intros Hx Hs. induction Hs as [|y l Hs IH Hall]; simpl.
  - repeat constructor.
  - assert (Hxy : fst x <> fst y) by (intros E; apply Hx; now left).
    assert (Hxl : ~ In (fst x) (Dict.keys l)) by (intros E; apply Hx; now right).
    destruct (ResourceFilter.item_lt y x) eqn:E.
    + constructor; [now apply IH|]. apply Forall_forall. intros z Hz.
      apply insert_in in Hz. destruct Hz as [-> | Hz].
      * now apply item_lt_iff.
      * rewrite Forall_forall in Hall. now apply Hall.
    + assert (Hp : precedes x y) by now apply precedes_total.
      constructor; [now constructor|]. constructor; [exact Hp|].
      apply Forall_forall. intros z Hz. rewrite Forall_forall in Hall.
      apply (precedes_trans x y z Hp). now apply Hall.
Qed.

Lemma sorted_strongly_sorted (tools : Dict.t Tool) :
  Dict.wf tools ->
  StronglySorted precedes (Py.sorted ResourceFilter.item_lt tools).
Proof.
  unfold Dict.wf. induction tools as [|x l IH]; intros Hwf; simpl.
  - constructor.
  - inversion Hwf as [|? ? Hx Hl]; subst. apply insert_sorted; [|now apply IH].
    intros H. apply Hx. unfold Dict.keys in *.
    apply (Permutation_in _
             (Permutation_map fst (sorted_perm ResourceFilter.item_lt l))).
    exact H.
Qed.

(** Two lists ordered by [precedes] with the same entries are equal. *)
Lemma strongly_sorted_unique (l l' : Dict.t Tool) :
  Permutation l l' ->
  StronglySorted precedes l -> StronglySorted precedes l' -> l = l'.
Proof.
  revert l'. induction l as [|a l IH]; intros l' Hp Hs Hs'.
  - apply Permutation_nil in Hp. now subst.
  - destruct l' as [|b l'].
    + apply Permutation_sym, Permutation_nil in Hp. discriminate.
    + inversion Hs as [|? ? Hsl Ha]; inversion Hs' as [|? ? Hsl' Hb]; subst.
      rewrite Forall_forall in Ha, Hb.
      assert (E : a = b).
      { assert (Hab : In a (b :: l'))
          by (apply (Permutation_in _ Hp); now left).
        assert (Hba : In b (a :: l))
          by (apply (Permutation_in _ (Permutation_sym Hp)); now left).
        destruct Hab as [E | Hab]; [now symmetry|].
        destruct Hba as [E | Hba]; [exact E|].
        exfalso. apply (precedes_irrefl a).
        apply (precedes_trans a b a); auto. }
      subst b. f_equal. apply IH; auto.
      now apply Permutation_cons_inv in Hp.
Qed.

Lemma firstn_wf {V} (n : nat) (d : Dict.t V) :
  Dict.wf d -> Dict.wf (firstn n d).
Proof.
  unfold Dict.wf, Dict.keys. intros H.
  rewrite <- (firstn_skipn n d), map_app in H.
  now apply NoDup_app_remove_r in H.
Qed.

Lemma sorted_wf (tools : Dict.t Tool) :
  Dict.wf tools -> Dict.wf (Py.sorted ResourceFilter.item_lt tools).
Proof.
  unfold Dict.wf, Dict.keys. intros H.
  apply (Permutation_NoDup
           (Permutation_map fst
              (Permutation_sym (sorted_perm ResourceFilter.item_lt tools)))).
  exact H.
Qed.

(** C8. For a dictionary of tools and a cap that is not negative: the
    sorted list the filter builds has the entries of the input, ordered by
    descending priority and then ascending name, and is the only such list;
    within the cap the filter returns its input itself, above the cap the
    first [max_tools] entries of the sorted list; the result does not depend
    on anything but the input and the cap. *)
Theorem resource_filter_cap
    (self : ResourceFilter.t) (tools : Dict.t Tool) (context : FilterContext) :
  Dict.wf tools ->
  (0 <= ResourceFilter.max_tools self)%Z ->
  let sorted_tools := Py.sorted ResourceFilter.item_lt tools in
  Permutation sorted_tools tools
  /\ StronglySorted precedes sorted_tools
  /\ (forall l, Permutation l tools -> StronglySorted precedes l ->
        l = sorted_tools)
  /\ ((Z.of_nat (List.length tools) <= ResourceFilter.max_tools self)%Z ->
      ResourceFilter.apply self tools context = tools)
  /\ ((ResourceFilter.max_tools self < Z.of_nat (List.length tools))%Z ->
      ResourceFilter.apply self tools context
      = firstn (Z.to_nat (ResourceFilter.max_tools self)) sorted_tools)
  /\ (forall context',
        ResourceFilter.apply self tools context'
        = ResourceFilter.apply self tools context).
Proof.
  intros Hwf Hcap sorted_tools.
  assert (Hperm : Permutation sorted_tools tools) by apply sorted_perm.
  assert (Hsorted : StronglySorted precedes sorted_tools)
    by now apply sorted_strongly_sorted.
  split; [exact Hperm|]. split; [exact Hsorted|]. split; [|split; [|split]].
  - intros l Hl Hs. apply strongly_sorted_unique; auto.
    now rewrite Hperm.
  - intros Hle. unfold ResourceFilter.apply.
    apply Z.leb_le in Hle. now rewrite Hle.
  - intros Hgt. unfold ResourceFilter.apply.
    apply Z.leb_gt in Hgt. rewrite Hgt. fold sorted_tools.
    unfold Py.slice_to.
    assert (E : (ResourceFilter.max_tools self <? 0)%Z = false)
      by (apply Z.ltb_ge; exact Hcap).
    rewrite E. apply of_list_wf, firstn_wf, sorted_wf, Hwf.
  - reflexivity.
Qed.

Lemma resource_filter_cap_witness :
  ResourceFilter.apply {| ResourceFilter.max_tools := 3 |} five_tools
    (plain_context None)
  = [("backup", _make_tool "backup" ["storage-ops"] 3);
     ("restart", _make_tool "restart" ["apps-ops"] 3);
     ("clone", _make_tool "clone" ["snapshot-ops"] 2)].
Proof.
  destruct (resource_filter_cap {| ResourceFilter.max_tools := 3 |} five_tools
              (plain_context None)) as (_ & _ & _ & _ & E & _).
  - unfold Dict.wf. simpl.
    repeat (constructor; [simpl; intuition discriminate|]). constructor.
  - simpl. lia.
  - rewrite E; [reflexivity | simpl; lia].
Defined.

(** C8, refuted as stated for every cap: with the cap -1 and five tools the
    filter returns four entries, not the first entries up to the cap. *)
Lemma negative_cap_exceeds_the_cap :
  ~ TrimsToCap {| ResourceFilter.max_tools := -1 |} five_tools
      (plain_context None).
Proof.
  intros [_ H].
  assert (E : ResourceFilter.apply {| ResourceFilter.max_tools := -1 |}
                five_tools (plain_context None) = []).
  { apply H. simpl. lia. }
  vm_compute in E. discriminate.
Qed.

(** The cap is an [int] in the source.  A negative cap is outside the
    theorem above: the slice then counts from the end of the sorted list. *)
Example negative_cap_slices_from_the_end :
  Dict.keys
    (ResourceFilter.apply {| ResourceFilter.max_tools := -1 |} five_tools
       (plain_context None))
  = ["backup"; "restart"; "clone"; "list_users"].
Proof. vm_compute. reflexivity. Qed.

(** * Further properties of the code *)

(** ** Normalization of labels *)

Lemma lower_char_idem (c : ascii) :
  Py.lower_char (Py.lower_char c) = Py.lower_char c.
Proof. destruct c as [[] [] [] [] [] [] [] []]; reflexivity. Qed.

Lemma isspace_lower_char (c : ascii) :
  Py.isspace_char (Py.lower_char c) = Py.isspace_char c.
Proof. destruct c as [[] [] [] [] [] [] [] []]; reflexivity. Qed.

Lemma isupper_lower_char (c : ascii) :
  Py.isupper_char (Py.lower_char c) = false.
Proof. destruct c as [[] [] [] [] [] [] [] []]; reflexivity. Qed.

Lemma lower_idem (s : string) : Py.lower (Py.lower s) = Py.lower s.
Proof.
  induction s as [|c s IH]; simpl; [reflexivity|].
  now rewrite lower_char_idem, IH.
Qed.

Lemma lower_empty_iff (s : string) : Py.lower s = "" <-> s = "".
Proof. destruct s; simpl; split; congruence. Qed.

Lemma lstrip_lower (s : string) : Py.lstrip (Py.lower s) = Py.lower (Py.lstrip s).
Proof.
  induction s as [|c s IH]; simpl; [reflexivity|].
  rewrite isspace_lower_char. destruct (Py.isspace_char c); [exact IH | reflexivity].
Qed.

Lemma rstrip_lower (s : string) : Py.rstrip (Py.lower s) = Py.lower (Py.rstrip s).
Proof.
  induction s as [|c s IH]; simpl; [reflexivity|].
  rewrite IH, isspace_lower_char.
  destruct (Py.rstrip s) as [|d r]; simpl.
  - destruct (Py.isspace_char c); reflexivity.
  - reflexivity.
Qed.

Lemma strip_lower (s : string) : Py.strip (Py.lower s) = Py.lower (Py.strip s).
Proof. unfold Py.strip. now rewrite lstrip_lower, rstrip_lower. Qed.

Lemma rstrip_idem (s : string) : Py.rstrip (Py.rstrip s) = Py.rstrip s.
Proof.
  induction s as [|c s IH]; simpl; [reflexivity|].
  destruct (Py.rstrip s) as [|d r] eqn:E.
  - destruct (Py.isspace_char c) eqn:Ec; simpl; [reflexivity|].
    now rewrite Ec.
  - change (Py.rstrip (String c (String d r)))
      with (match Py.rstrip (String d r) with
            | EmptyString =>
                if Py.isspace_char c then EmptyString else String c EmptyString
            | r' => String c r'
            end).
    now rewrite IH.
Qed.

(** [lstrip] leaves nothing, or a string that starts with a character that
    is not white space. *)
Lemma lstrip_head (s : string) :
  match Py.lstrip s with
  | EmptyString => True
  | String c _ => Py.isspace_char c = false
  end.
Proof.
  induction s as [|c s IH]; simpl; [exact I|].
  destruct (Py.isspace_char c) eqn:E; [exact IH | exact E].
Qed.

Lemma lstrip_rstrip_lstrip (s : string) :
  Py.lstrip (Py.rstrip (Py.lstrip s)) = Py.rstrip (Py.lstrip s).
Proof.
  pose proof (lstrip_head s) as H.
  destruct (Py.lstrip s) as [|c u]; [reflexivity|].
  simpl. destruct (Py.rstrip u); rewrite ?H; simpl; rewrite ?H; reflexivity.
Qed.

Lemma strip_idem (s : string) : Py.strip (Py.strip s) = Py.strip s.
Proof.
  unfold Py.strip. now rewrite lstrip_rstrip_lstrip, rstrip_idem.
Qed.

(** X1. The canonical form of a label is its own canonical form: normalizing
    twice is normalizing once. *)
Theorem normalize_key_idempotent (value : option string) :
  TaskTypeFilter._normalize_key (TaskTypeFilter._normalize_key value)
  = TaskTypeFilter._normalize_key value.
Proof.
  destruct value as [v|]; [|reflexivity].
  cbn [TaskTypeFilter._normalize_key].
  destruct (String.eqb v ""); [reflexivity|].
  destruct (String.eqb (Py.lower (Py.strip v)) "") eqn:E; [reflexivity|].
  cbn [TaskTypeFilter._normalize_key].
  now rewrite strip_lower, lower_idem, strip_idem, E.
Qed.

Lemma canonical_fixed (k c : string) : canon k = Some c -> canon c = Some c.
Proof.
  unfold canon. cbn [TaskTypeFilter._normalize_key].
  destruct (String.eqb k ""); [discriminate|].
  destruct (String.eqb (Py.lower (Py.strip k)) "") eqn:E; [discriminate|].
  intros [= <-]. rewrite E.
  now rewrite strip_lower, lower_idem, strip_idem, E.
Qed.

(** ** Dictionaries, continued *)

Lemma fold_left_invariant {A B : Type} (f : A -> B -> A) (I : A -> Prop)
    (l : list B) (a : A) :
  (forall acc x, In x l -> I acc -> I (f acc x)) -> I a ->
  I (fold_left f l a).
Proof.
  revert a. induction l as [|x l IH]; intros a Hstep Ha; [exact Ha|].
  cbn [fold_left]. apply IH.
  - intros acc y Hy. apply Hstep. now right.
  - apply Hstep; [now left | exact Ha].
Qed.

Lemma keys_set_eq {V} (k : string) (v : V) (d : Dict.t V) :
  Dict.keys (Dict.set k v d)
  = if Dict.mem k d then Dict.keys d else Dict.keys d ++ [k].
Proof.
  unfold Dict.mem. induction d as [|[k' v'] d IH]; simpl; [reflexivity|].
  destruct (String.eqb_spec k k') as [->|Hne]; simpl; [reflexivity|].
  rewrite IH. destruct (Dict.get k d); reflexivity.
Qed.

Lemma set_wf {V} (k : string) (v : V) (d : Dict.t V) :
  Dict.wf d -> Dict.wf (Dict.set k v d).
Proof.
  unfold Dict.wf. intros H. rewrite keys_set_eq.
  destruct (Dict.mem k d) eqn:E; [exact H|].
  apply NoDup_app; [exact H | repeat constructor; intros [] |].
  intros x Hx [<- | []]. apply mem_iff_keys in Hx. congruence.
Qed.

Lemma mem_set {V} (k : string) (v : V) (d : Dict.t V) (x : string) :
  Dict.mem x (Dict.set k v d) = String.eqb x k || Dict.mem x d.
Proof.
  unfold Dict.mem. rewrite get_set. destruct (String.eqb x k); reflexivity.
Qed.

(** ** What the constructor of the task-type filter builds *)

Lemma init_allowlists (raw : Dict.t (list string)) :
  TaskTypeFilter.task_type_allowlists (TaskTypeFilter.init raw)
  = fold_left TaskTypeFilter.expand_step raw [].
Proof. reflexivity. Qed.

Lemma init_alias_map (raw : Dict.t (list string)) :
  let normalized := fold_left TaskTypeFilter.expand_step raw [] in
  TaskTypeFilter._alias_map (TaskTypeFilter.init raw)
  = fold_left
      (fun alias_map canonical =>
         fold_left (TaskTypeFilter.alias_step normalized canonical)
           (TaskTypeFilter._alias_candidates canonical) alias_map)
      (Dict.keys normalized) [].
Proof. reflexivity. Qed.

Lemma expand_step_keys (normalized : Dict.t (list string))
    (item : string * list string) (x : string) :
  In x (Dict.keys (TaskTypeFilter.expand_step normalized item)) <->
  In x (Dict.keys normalized) \/ canon (fst item) = Some x.
Proof.
  destruct item as [k v]. unfold TaskTypeFilter.expand_step, canon. cbn [fst].
  destruct (TaskTypeFilter._normalize_key (Some k)) as [c|].
  - rewrite keys_set. split.
    + intros [-> | H]; auto.
    + intros [H | [= ->]]; auto.
  - split; [auto | intros [H | H]; [exact H | discriminate]].
Qed.

Lemma expand_keys (raw acc : Dict.t (list string)) (x : string) :
  In x (Dict.keys (fold_left TaskTypeFilter.expand_step raw acc)) <->
  In x (Dict.keys acc) \/ exists k v, In (k, v) raw /\ canon k = Some x.
Proof.
  revert acc. induction raw as [|[k v] raw IH]; intros acc.
  - simpl. split; [auto | intros [H | (? & ? & [] & _)]; exact H].
  - cbn [fold_left]. rewrite IH, expand_step_keys. cbn [fst]. split.
    + intros [[H | H] | (k' & v' & Hin & H)].
      * now left.
      * right. exists k, v. split; [now left | exact H].
      * right. exists k', v'. split; [now right | exact H].
    + intros [H | (k' & v' & [E | Hin] & H)].
      * left. now left.
      * injection E as -> ->. left. now right.
      * right. eauto.
Qed.

Lemma expand_wf (raw acc : Dict.t (list string)) :
  Dict.wf acc -> Dict.wf (fold_left TaskTypeFilter.expand_step raw acc).
Proof.
  apply fold_left_invariant. intros d [k v] _ Hd.
  unfold TaskTypeFilter.expand_step.
  destruct (TaskTypeFilter._normalize_key (Some k)); [now apply set_wf | exact Hd].
Qed.

Lemma expand_get_none (raw acc : Dict.t (list string)) (c : string) :
  (forall k v, In (k, v) raw -> canon k <> Some c) ->
  Dict.get c (fold_left TaskTypeFilter.expand_step raw acc) = Dict.get c acc.
Proof.
  revert acc. induction raw as [|[k v] raw IH]; intros acc H; [reflexivity|].
  cbn [fold_left]. rewrite IH by (intros k' v' Hin; apply (H k' v'); now right).
  unfold TaskTypeFilter.expand_step.
  assert (Hk : canon k <> Some c) by (apply (H k v); now left).
  unfold canon in Hk.
  destruct (TaskTypeFilter._normalize_key (Some k)) as [c'|]; [|reflexivity].
  rewrite get_set. destruct (String.eqb_spec c c') as [->|]; congruence.
Qed.

Lemma expand_get_last (pre post acc : Dict.t (list string))
    (k c : string) (v : list string) :
  canon k = Some c ->
  (forall k' v', In (k', v') post -> canon k' <> Some c) ->
  Dict.get c (fold_left TaskTypeFilter.expand_step (pre ++ (k, v) :: post) acc)
  = Some v.
Proof.
  intros Hk Hpost. rewrite fold_left_app. cbn [fold_left].
  rewrite expand_get_none by exact Hpost.
  unfold TaskTypeFilter.expand_step. unfold canon in Hk. rewrite Hk.
  now rewrite get_set, String.eqb_refl.
Qed.

(** X2. The keys the constructor stores are in canonical form and pairwise
    distinct, and they are exactly the canonical forms of the configured
    keys. *)
Theorem allowlist_keys_canonical (raw : Dict.t (list string)) :
  let normalized :=
    TaskTypeFilter.task_type_allowlists (TaskTypeFilter.init raw) in
  Dict.wf normalized
  /\ Forall (fun c => canon c = Some c) (Dict.keys normalized)
  /\ forall c, In c (Dict.keys normalized) <->
               exists k v, In (k, v) raw /\ canon k = Some c.
Proof.
  cbv zeta. rewrite init_allowlists.
  assert (K : forall c,
             In c (Dict.keys (fold_left TaskTypeFilter.expand_step raw [])) <->
             exists k v, In (k, v) raw /\ canon k = Some c).
  { intros c. rewrite expand_keys. simpl. tauto. }
  split; [apply expand_wf; constructor|]. split; [|exact K].
  apply Forall_forall. intros c Hc. apply K in Hc.
  destruct Hc as (k & v & _ & Hk). exact (canonical_fixed k c Hk).
Qed.

(** X3. When several configured keys have the same canonical form, the entry
    of the last of them is the one the filter keeps; a canonical form no
    configured key has is not a key of the filter. *)
Theorem allowlist_last_key_wins (raw : Dict.t (list string)) (c : string) :
  let normalized :=
    TaskTypeFilter.task_type_allowlists (TaskTypeFilter.init raw) in
  (forall pre k v post,
      raw = pre ++ (k, v) :: post ->
      canon k = Some c ->
      (forall k' v', In (k', v') post -> canon k' <> Some c) ->
      Dict.get c normalized = Some v)
  /\ ((forall k v, In (k, v) raw -> canon k <> Some c) ->
      Dict.get c normalized = None).
Proof.
  cbv zeta. rewrite init_allowlists. split.
  - intros pre k v post -> Hk Hpost. now apply expand_get_last.
  - intros H. now rewrite expand_get_none.
Qed.

Example allowlist_key_collision :
  TaskTypeFilter.task_type_allowlists
    (TaskTypeFilter.init
       [("Storage-Ops", ["list_pools"]); ("user-ops", ["create_user"]);
        (" storage-ops ", ["get_pool"])])
  = [("storage-ops", ["get_pool"]); ("user-ops", ["create_user"])].
Proof. reflexivity. Qed.

Lemma alias_step_sound (normalized : Dict.t (list string)) (canonical : string)
    (alias_map : Dict.t string) (alias : string) :
  Dict.mem canonical normalized = true ->
  AliasTableSound normalized alias_map ->
  AliasTableSound normalized
    (TaskTypeFilter.alias_step normalized canonical alias_map alias).
Proof.
  intros Hc [Hwf Hin]. unfold TaskTypeFilter.alias_step.
  destruct (Dict.mem alias normalized) eqn:E1; [now split|].
  destruct (Dict.mem alias alias_map) eqn:E2; [now split|]. cbn [orb].
  split; [now apply set_wf|]. intros a c.
  rewrite set_fresh.
  - rewrite in_app_iff. intros [H | [[= <- <-] | []]]; [now apply Hin | now split].
  - intros H. apply mem_iff_keys in H. congruence.
Qed.

Lemma alias_table_sound (raw : Dict.t (list string)) :
  AliasTableSound
    (TaskTypeFilter.task_type_allowlists (TaskTypeFilter.init raw))
    (TaskTypeFilter._alias_map (TaskTypeFilter.init raw)).
Proof.
  rewrite init_allowlists, init_alias_map.
  set (normalized := fold_left TaskTypeFilter.expand_step raw []).
  apply (fold_left_invariant _ (AliasTableSound normalized)).
  - intros am c Hc Ham.
    apply (fold_left_invariant _ (AliasTableSound normalized)); [|exact Ham].
    intros am' a _ Ham'. apply alias_step_sound; [|exact Ham'].
    now apply mem_iff_keys.
  - split; [constructor | intros a c []].
Qed.

(** A name is covered when it is a key or has an entry in the alias table. *)
Lemma alias_step_covers (normalized : Dict.t (list string)) (canonical : string)
    (alias_map : Dict.t string) (alias x : string) :
  (x = alias \/ Dict.mem x normalized || Dict.mem x alias_map = true) ->
  Dict.mem x normalized
  || Dict.mem x (TaskTypeFilter.alias_step normalized canonical alias_map alias)
  = true.
Proof.
  unfold TaskTypeFilter.alias_step. intros [-> | H].
  - destruct (Dict.mem alias normalized) eqn:E1; [reflexivity|].
    destruct (Dict.mem alias alias_map) eqn:E2; cbn [orb]; [exact E2|].
    now rewrite mem_set, String.eqb_refl.
  - destruct (Dict.mem alias normalized || Dict.mem alias alias_map);
      [exact H|].
    rewrite mem_set. apply orb_true_iff in H. destruct H as [-> | ->];
      [reflexivity | now rewrite !orb_true_r].
Qed.

Lemma alias_candidates_covered (raw : Dict.t (list string))
    (canonical alias : string) :
  let self := TaskTypeFilter.init raw in
  In canonical (Dict.keys (TaskTypeFilter.task_type_allowlists self)) ->
  In alias (TaskTypeFilter._alias_candidates canonical) ->
  Dict.mem alias (TaskTypeFilter.task_type_allowlists self)
  || Dict.mem alias (TaskTypeFilter._alias_map self) = true.
Proof.
  cbv zeta. rewrite init_allowlists, init_alias_map.
  set (normalized := fold_left TaskTypeFilter.expand_step raw []).
  set (covers := fun am : Dict.t string =>
                   Dict.mem alias normalized || Dict.mem alias am = true).
  set (inner := fun (c : string) (am : Dict.t string) =>
                  fold_left (TaskTypeFilter.alias_step normalized c)
                    (TaskTypeFilter._alias_candidates c) am).
  assert (Hmono : forall c am, covers am -> covers (inner c am)).
  { intros c am H. unfold inner.
    apply (fold_left_invariant _ covers); [|exact H].
    intros am' a _ H'. apply alias_step_covers. now right. }
  assert (Hhit : forall l am,
             In alias l ->
             covers (fold_left (TaskTypeFilter.alias_step normalized canonical)
                       l am)).
  { induction l as [|a l IH]; intros am Hin; [destruct Hin|].
    destruct Hin as [-> | Hin]; cbn [fold_left].
    - apply (fold_left_invariant _ covers).
      + intros am' a _ H'. apply alias_step_covers. now right.
      + apply alias_step_covers. now left.
    - now apply IH. }
  intros Hc Ha.
  change (covers (fold_left (fun am c => inner c am) (Dict.keys normalized) [])).
  generalize (@nil (string * string)) as am.
  induction (Dict.keys normalized) as [|c keys IH]; [destruct Hc|].
  intros am. cbn [fold_left]. destruct Hc as [-> | Hc].
  - apply (fold_left_invariant _ covers).
    + intros am' c' _ H'. now apply Hmono.
    + unfold inner. now apply Hhit.
  - now apply IH.
Qed.

Lemma normalize_loop (self : TaskTypeFilter.t) (labels acc : list string) :
  fold_left (TaskTypeFilter.normalize_step self) labels acc
  = acc ++ flat_map (resolve_label self) labels.
Proof.
  revert acc. induction labels as [|x labels IH]; intros acc; simpl.
  - now rewrite app_nil_r.
  - rewrite IH. rewrite app_assoc. f_equal.
    unfold resolve_label, TaskTypeFilter.normalize_step.
    destruct (TaskTypeFilter._normalize_key (Some x)) as [key|];
      [|now rewrite app_nil_r].
    destruct (Dict.mem key (TaskTypeFilter.task_type_allowlists self));
      [reflexivity|].
    destruct (Dict.get key (TaskTypeFilter._alias_map self));
      [reflexivity | now rewrite app_nil_r].
Qed.

Lemma resolve_label_cases (self : TaskTypeFilter.t) (label : string) :
  resolve_label self label = []
  \/ exists c,
       resolve_label self label = [c]
       /\ exists key,
            canon label = Some key
            /\ ((c = key
                 /\ Dict.mem key (TaskTypeFilter.task_type_allowlists self)
                    = true)
                \/ (Dict.mem key (TaskTypeFilter.task_type_allowlists self)
                    = false
                    /\ Dict.get key (TaskTypeFilter._alias_map self) = Some c)).
Proof.
  unfold resolve_label, TaskTypeFilter.normalize_step, canon.
  destruct (TaskTypeFilter._normalize_key (Some label)) as [key|]; [|now left].
  destruct (Dict.mem key (TaskTypeFilter.task_type_allowlists self)) eqn:E.
  - right. exists key. split; [reflexivity|]. exists key. auto.
  - destruct (Dict.get key (TaskTypeFilter._alias_map self)) as [c|] eqn:G;
      [|now left].
    right. exists c. split; [reflexivity|]. exists key. auto.
Qed.

Lemma resolve_label_key (raw : Dict.t (list string)) (label c : string) :
  In c (resolve_label (TaskTypeFilter.init raw) label) ->
  Dict.mem c (TaskTypeFilter.task_type_allowlists (TaskTypeFilter.init raw))
  = true.
Proof.
  destruct (resolve_label_cases (TaskTypeFilter.init raw) label)
    as [-> | (c' & -> & key & _ & [[-> H] | [_ H]])].
  - intros [].
  - intros [<- | []]. exact H.
  - intros [<- | []]. apply get_in in H.
    now apply (alias_table_sound raw) in H.
Qed.

(** X4. The alias table of a filter is a dictionary whose names are no keys of
    the allowlists and whose targets all are. *)
Theorem aliases_never_shadow_keys (raw : Dict.t (list string)) :
  let self := TaskTypeFilter.init raw in
  Dict.wf (TaskTypeFilter._alias_map self)
  /\ Forall
       (fun entry =>
          ~ In (fst entry) (Dict.keys (TaskTypeFilter.task_type_allowlists self))
          /\ In (snd entry)
               (Dict.keys (TaskTypeFilter.task_type_allowlists self)))
       (TaskTypeFilter._alias_map self).
Proof.
  destruct (alias_table_sound raw) as [Hwf H]. split; [exact Hwf|].
  apply Forall_forall. intros [a c] Hin. cbn [fst snd].
  destruct (H a c Hin) as [H1 H2]. split.
  - intros Hk. apply mem_iff_keys in Hk. congruence.
  - now apply mem_iff_keys.
Qed.

(** X5. Normalization keeps the order of the incoming labels, gives at most one
    label for each, and gives only keys of the allowlists: the lookup of
    [_merge_allowlists] never falls on its default. *)
Theorem normalized_labels_are_keys
    (raw : Dict.t (list string)) (labels : list string) :
  let self := TaskTypeFilter.init raw in
  let resolved := TaskTypeFilter._normalize_task_types self labels in
  resolved = flat_map (resolve_label self) labels
  /\ (List.length resolved <= List.length labels)%nat
  /\ Forall
       (fun c =>
          exists tools,
            Dict.get c (TaskTypeFilter.task_type_allowlists self) = Some tools)
       resolved.
Proof.
  cbv zeta. unfold TaskTypeFilter._normalize_task_types.
  rewrite normalize_loop. cbn [app]. split; [reflexivity|]. split.
  - induction labels as [|x labels IH]; [constructor|].
    cbn [flat_map]. rewrite length_app. cbn [List.length].
    destruct (resolve_label_cases (TaskTypeFilter.init raw) x)
      as [-> | (c & -> & _)]; cbn [List.length]; lia.
  - apply Forall_forall. intros c Hc. apply in_flat_map in Hc.
    destruct Hc as (x & _ & Hc). apply resolve_label_key in Hc.
    unfold Dict.mem in Hc.
    destruct (Dict.get c _) as [tools|]; [now exists tools | discriminate].
Qed.

(** X6. Any spelling of a configured key with the same canonical form resolves
    to that canonical form. *)
Theorem configured_key_resolves
    (raw : Dict.t (list string)) (k : string) (tools : list string)
    (label c : string) :
  In (k, tools) raw ->
  canon k = Some c ->
  canon label = Some c ->
  TaskTypeFilter._normalize_task_types (TaskTypeFilter.init raw) [label] = [c].
Proof.
  intros Hin Hk Hl.
  assert (Hc : Dict.mem c
                 (TaskTypeFilter.task_type_allowlists (TaskTypeFilter.init raw))
               = true).
  { apply mem_iff_keys. rewrite init_allowlists, expand_keys. right. eauto. }
  unfold TaskTypeFilter._normalize_task_types. cbn [fold_left].
  unfold TaskTypeFilter.normalize_step. unfold canon in Hl.
  now rewrite Hl, Hc.
Qed.

Lemma configured_key_resolves_witness :
  TaskTypeFilter._normalize_task_types
    (TaskTypeFilter.init [("Storage-Ops", ["list_pools"])]) ["  STORAGE-ops "]
  = ["storage-ops"].
Proof.
  apply (configured_key_resolves [("Storage-Ops", ["list_pools"])]
           "Storage-Ops" ["list_pools"] "  STORAGE-ops " "storage-ops").
  - now left.
  - reflexivity.
  - reflexivity.
Defined.

(** X7. Every alias candidate of a key of the filter that is in canonical form
    resolves to a key of the filter. *)
Theorem alias_candidates_resolve
    (raw : Dict.t (list string)) (canonical alias : string) :
  let self := TaskTypeFilter.init raw in
  In canonical (Dict.keys (TaskTypeFilter.task_type_allowlists self)) ->
  In alias (TaskTypeFilter._alias_candidates canonical) ->
  canon alias = Some alias ->
  exists target,
    TaskTypeFilter._normalize_task_types self [alias] = [target]
    /\ In target (Dict.keys (TaskTypeFilter.task_type_allowlists self)).
Proof.
  intros self Hc Ha Hn.
  pose proof (alias_candidates_covered raw canonical alias Hc Ha) as Hcov.
  fold self in Hcov.
  unfold TaskTypeFilter._normalize_task_types. cbn [fold_left].
  unfold TaskTypeFilter.normalize_step. unfold canon in Hn. rewrite Hn.
  destruct (Dict.mem alias (TaskTypeFilter.task_type_allowlists self)) eqn:E.
  - exists alias. split; [reflexivity | now apply mem_iff_keys].
  - cbn [orb] in Hcov. unfold Dict.mem in Hcov.
    destruct (Dict.get alias (TaskTypeFilter._alias_map self)) as [t|] eqn:G;
      [|discriminate].
    exists t. split; [reflexivity|].
    apply get_in in G. apply (alias_table_sound raw) in G.
    now apply mem_iff_keys.
Qed.

Lemma alias_candidates_resolve_witness :
  exists target,
    TaskTypeFilter._normalize_task_types
      (TaskTypeFilter.init
         [("storage-ops", ["list_pools"]); ("storage", ["get_pool"]);
          ("user-ops", ["create_user"])])
      ["storage_ops"] = [target]
    /\ In target ["storage-ops"; "storage"; "user-ops"].
Proof.
  apply (alias_candidates_resolve
           [("storage-ops", ["list_pools"]); ("storage", ["get_pool"]);
            ("user-ops", ["create_user"])] "storage-ops" "storage_ops").
  - now left.
  - vm_compute. auto.
  - reflexivity.
Defined.

(** ** The filters as selections *)

Lemma filter_wf {V} (p : string -> V -> bool) (d : Dict.t V) :
  Dict.wf d -> Dict.wf (Dict.filter p d).
Proof.
  unfold Dict.wf, Dict.keys, Dict.filter.
  induction d as [|[k v] d IH]; simpl; intros H; [constructor|].
  inversion H as [|? ? Hk Hd]; subst.
  destruct (p k v); simpl; [|now apply IH].
  constructor; [|now apply IH].
  intros Hin. apply Hk. apply in_map_iff in Hin.
  destruct Hin as ([k' v'] & E & Hin). cbn in E. subst k'.
  apply filter_In in Hin. destruct Hin as [Hin _].
  change k with (fst (k, v')). now apply in_map.
Qed.

Lemma filter_all {V} (d : Dict.t V) : Dict.filter (fun _ _ => true) d = d.
Proof.
  unfold Dict.filter. induction d as [|x l IH]; cbn; [reflexivity|].
  now f_equal.
Qed.

Lemma filter_none {V} (d : Dict.t V) : Dict.filter (fun _ _ => false) d = [].
Proof.
  unfold Dict.filter. induction d as [|x l IH]; cbn; [reflexivity | exact IH].
Qed.

Lemma task_type_filter_selects_aux
    (st : HttpServerSettings) (self : TaskTypeFilter.t) (tools : Dict.t Tool)
    (context : FilterContext) :
  exists keep : string -> Tool -> bool,
    TaskTypeFilter.apply st self tools context = Dict.filter keep tools.
Proof.
  pose proof (filter_all tools) as Hall.
  pose proof (filter_none tools) as Hnone.
  unfold TaskTypeFilter.apply.
  destruct (TaskTypeFilter.strict_no_match st context);
    [exists (fun _ _ => false); now rewrite Hnone|].
  destruct (TaskTypeFilter._normalize_task_types self _) as [|l ls];
    [eexists; reflexivity|].
  destruct (TaskTypeFilter._merge_allowlists self (l :: ls));
    [|eexists; reflexivity].
  destruct (strict_policy st).
  - exists (fun _ _ => false). now rewrite Hnone.
  - exists (fun _ _ => true). now rewrite Hall.
Qed.

(** X8. The task-type filter only selects: whatever the context and the
    settings, its result is its input with some entries left out, in the
    order of the input; it adds no entry and keeps the names distinct. *)
Theorem task_type_filter_selects
    (st : HttpServerSettings) (self : TaskTypeFilter.t) (tools : Dict.t Tool)
    (context : FilterContext) :
  (exists keep : string -> Tool -> bool,
      TaskTypeFilter.apply st self tools context = Dict.filter keep tools)
  /\ (forall entry,
        In entry (TaskTypeFilter.apply st self tools context) ->
        In entry tools)
  /\ (Dict.wf tools -> Dict.wf (TaskTypeFilter.apply st self tools context)).
Proof.
  destruct (task_type_filter_selects_aux st self tools context) as [keep E].
  split; [now exists keep|]. rewrite E. split.
  - intros [n tool] Hin. now apply filter_in in Hin.
  - apply filter_wf.
Qed.

Lemma strongly_sorted_app {A} (R : A -> A -> Prop) (l1 l2 : list A) :
  StronglySorted R (l1 ++ l2) ->
  forall x y, In x l1 -> In y l2 -> R x y.
Proof.
  induction l1 as [|a l1 IH]; intros Hs x y Hx Hy; [destruct Hx|].
  simpl in Hs. inversion Hs as [|? ? Hs' Hall]; subst.
  destruct Hx as [<- | Hx].
  - rewrite Forall_forall in Hall. apply Hall. apply in_or_app. now right.
  - now apply IH.
Qed.

(** What [ResourceFilter.apply] returns past the cap, for any cap. *)
Lemma resource_filter_truncates (self : ResourceFilter.t) (tools : Dict.t Tool)
    (context : FilterContext) :
  Dict.wf tools ->
  (ResourceFilter.max_tools self < Z.of_nat (List.length tools))%Z ->
  ResourceFilter.apply self tools context
  = Py.slice_to (ResourceFilter.max_tools self)
      (Py.sorted ResourceFilter.item_lt tools).
Proof.
  intros Hwf Hgt. unfold ResourceFilter.apply.
  apply Z.leb_gt in Hgt. rewrite Hgt. apply of_list_wf.
  unfold Py.slice_to.
  destruct (ResourceFilter.max_tools self <? 0)%Z;
    apply firstn_wf, sorted_wf, Hwf.
Qed.

(** X9. Within a cap that is not negative, the resource filter keeps
    [min(len(tools), max_tools)] tools, and every tool it keeps comes
    before every tool it drops in the order of priority and name. *)
Theorem resource_filter_keeps_the_best
    (self : ResourceFilter.t) (tools : Dict.t Tool) (context : FilterContext) :
  Dict.wf tools ->
  (0 <= ResourceFilter.max_tools self)%Z ->
  let kept := ResourceFilter.apply self tools context in
  Z.of_nat (List.length kept)
  = Z.min (Z.of_nat (List.length tools)) (ResourceFilter.max_tools self)
  /\ (forall entry, In entry kept -> In entry tools)
  /\ (forall k d, In k kept -> In d tools -> ~ In d kept -> precedes k d).
Proof.
  intros Hwf Hcap kept.
  destruct (Z.le_gt_cases (Z.of_nat (List.length tools))
              (ResourceFilter.max_tools self)) as [Hle | Hgt].
  - assert (E : kept = tools).
    { unfold kept, ResourceFilter.apply. apply Z.leb_le in Hle.
      now rewrite Hle. }
    rewrite E. split; [lia|]. split; [auto|]. intros k d _ Hd Hn.
    contradiction.
  - assert (E : kept = firstn (Z.to_nat (ResourceFilter.max_tools self))
                         (Py.sorted ResourceFilter.item_lt tools)).
    { unfold kept. rewrite resource_filter_truncates by assumption.
      unfold Py.slice_to.
      assert (E0 : (ResourceFilter.max_tools self <? 0)%Z = false)
        by (apply Z.ltb_ge; exact Hcap).
      now rewrite E0. }
    set (n := Z.to_nat (ResourceFilter.max_tools self)) in *.
    set (sorted_tools := Py.sorted ResourceFilter.item_lt tools) in *.
    assert (Hperm : Permutation sorted_tools tools) by apply sorted_perm.
    rewrite E. split; [|split].
    + rewrite length_firstn. unfold sorted_tools. rewrite sorted_length. lia.
    + intros entry Hin. apply (Permutation_in _ Hperm).
      rewrite <- (firstn_skipn n sorted_tools). apply in_or_app. now left.
    + intros k d Hk Hd Hn.
      assert (Hs : StronglySorted precedes
                     (firstn n sorted_tools ++ skipn n sorted_tools)).
      { rewrite firstn_skipn. now apply sorted_strongly_sorted. }
      apply (strongly_sorted_app precedes _ _ Hs); [exact Hk|].
      apply (Permutation_in _ (Permutation_sym Hperm)) in Hd.
      rewrite <- (firstn_skipn n sorted_tools) in Hd.
      apply in_app_or in Hd. destruct Hd as [Hd | Hd]; [contradiction | exact Hd].
Qed.

Lemma resource_filter_keeps_the_best_witness :
  Z.of_nat
    (List.length
       (ResourceFilter.apply {| ResourceFilter.max_tools := 2 |} five_tools
          (plain_context None)))
  = Z.min (Z.of_nat (List.length five_tools)) 2.
Proof.
  apply (resource_filter_keeps_the_best {| ResourceFilter.max_tools := 2 |}
           five_tools (plain_context None)).
  - unfold Dict.wf. simpl.
    repeat (constructor; [simpl; intuition discriminate|]). constructor.
  - simpl. lia.
Defined.



(** ** The filter chain of the controller *)

Lemma init_fields (env : Env) (st : HttpServerSettings)
    (all_tools : Dict.t Tool) (config : FilterConfig) :
  let self := ToolGateController.init env st all_tools config in
  ToolGateController.all_tools self = all_tools
  /\ ToolGateController.filters self
     = [ TaskType (TaskTypeFilter.init (cfg_task_type_allowlists config));
         Resource {| ResourceFilter.max_tools := effective_cap st config |};
         Security {| SecurityFilter.blocklist := cfg_blocklist config |} ].
Proof.
  unfold ToolGateController.init, ToolGateController._precompute_tool_sizes.
  cbn [ToolGateController.all_tools ToolGateController._tool_sizes].
  destruct (tiktoken_encode env) as [enc|];
    [destruct (snd (ToolGateController.fill_tiktoken env enc all_tools []))|];
    split; reflexivity.
Qed.

Lemma filter_length {V} (p : string -> V -> bool) (d : Dict.t V) :
  (List.length (Dict.filter p d) <= List.length d)%nat.
Proof.
  unfold Dict.filter. induction d as [|x l IH]; cbn; [constructor|].
  destruct (p (fst x) (snd x)); cbn; lia.
Qed.

Lemma slice_to_firstn {A} (k : Z) (l : list A) :
  exists m, Py.slice_to k l = firstn m l
            /\ ((0 <= k)%Z -> m = Z.to_nat k).
Proof.
  unfold Py.slice_to. destruct (Z.ltb_spec k 0).
  - eexists. split; [reflexivity | lia].
  - eexists. split; [reflexivity | auto].
Qed.

Lemma resource_filter_sound (self : ResourceFilter.t) (tools : Dict.t Tool)
    (context : FilterContext) :
  Dict.wf tools ->
  Dict.wf (ResourceFilter.apply self tools context)
  /\ (forall entry,
        In entry (ResourceFilter.apply self tools context) -> In entry tools)
  /\ ((0 <= ResourceFilter.max_tools self)%Z ->
      (Z.of_nat (List.length (ResourceFilter.apply self tools context))
       <= ResourceFilter.max_tools self)%Z).
Proof.
  intros Hwf.
  destruct (Z.le_gt_cases (Z.of_nat (List.length tools))
              (ResourceFilter.max_tools self)) as [Hle | Hgt].
  - assert (E : ResourceFilter.apply self tools context = tools).
    { unfold ResourceFilter.apply. apply Z.leb_le in Hle. now rewrite Hle. }
    rewrite E. split; [exact Hwf|]. split; [auto | intros _; exact Hle].
  - rewrite resource_filter_truncates by assumption.
    destruct (slice_to_firstn (ResourceFilter.max_tools self)
                (Py.sorted ResourceFilter.item_lt tools)) as (m & -> & Hm).
    split; [apply firstn_wf, sorted_wf, Hwf|]. split.
    + intros entry Hin.
      apply (Permutation_in _ (sorted_perm ResourceFilter.item_lt tools)).
      rewrite <- (firstn_skipn m (Py.sorted ResourceFilter.item_lt tools)).
      apply in_or_app. now left.
    + intros Hcap. rewrite (Hm Hcap).
      pose proof (firstn_le_length (Z.to_nat (ResourceFilter.max_tools self))
                    (Py.sorted ResourceFilter.item_lt tools)). lia.
Qed.

(** X11. What the chain of a controller guarantees for every context: the tools
    it lets through are entries of the catalog, none of them is on the
    blocklist, their names are distinct, and there are no more of them than
    the cap when the cap is not negative. *)
Theorem gated_tools_guarantees
    (env : Env) (st : HttpServerSettings) (all_tools : Dict.t Tool)
    (config : FilterConfig) (context : FilterContext) :
  Dict.wf all_tools ->
  let gated :=
    ToolGateController.get_available_tools st
      (ToolGateController.init env st all_tools config) context in
  Dict.wf gated
  /\ (forall n tool,
        In (n, tool) gated ->
        In (n, tool) all_tools /\ ~ In n (cfg_blocklist config))
  /\ ((0 <= effective_cap st config)%Z ->
      (Z.of_nat (List.length gated) <= effective_cap st config)%Z).
Proof.
  intros Hwf gated.
  destruct (init_fields env st all_tools config) as [Ha Hf].
  unfold gated, ToolGateController.get_available_tools.
  rewrite Ha, Hf. cbn [fold_left ToolFilter_apply].
  destruct (task_type_filter_selects_aux st
              (TaskTypeFilter.init (cfg_task_type_allowlists config))
              all_tools context) as [keep ->].
  set (t1 := Dict.filter keep all_tools).
  assert (W1 : Dict.wf t1) by now apply filter_wf.
  destruct (resource_filter_sound
              {| ResourceFilter.max_tools := effective_cap st config |}
              t1 context W1) as (W2 & S2 & L2).
  set (t2 := ResourceFilter.apply _ t1 context) in *.
  unfold SecurityFilter.apply. cbn [SecurityFilter.blocklist].
  split; [now apply filter_wf|]. split.
  - intros n tool Hin. apply filter_in in Hin. destruct Hin as [Hin Hb].
    apply S2 in Hin. apply filter_in in Hin. split; [tauto|].
    apply negb_true_iff in Hb. now apply mem_false_iff.
  - intros Hcap. specialize (L2 Hcap).
    pose proof (filter_length
                  (fun name _ => negb (Py.mem name (cfg_blocklist config))) t2).
    cbn [ResourceFilter.max_tools] in L2. lia.
Qed.

Lemma gated_tools_guarantees_witness :
  Dict.wf
    (ToolGateController.get_available_tools default_settings
       (ToolGateController.init sample_env default_settings sample_catalog
          sample_config)
       (plain_context (Some "storage"))).
Proof.
  apply (gated_tools_guarantees sample_env default_settings sample_catalog
           sample_config (plain_context (Some "storage"))).
  unfold Dict.wf. simpl.
  repeat (constructor; [simpl; intuition discriminate|]). constructor.
Defined.

(** ** The size table and the budget *)

Lemma sum_shift (l : list Z) (a : Z) :
  fold_left Z.add l a = (a + ToolGateController.sum l)%Z.
Proof.
  unfold ToolGateController.sum. revert a.
  induction l as [|x l IH]; intros a; cbn [fold_left]; [lia|].
  rewrite (IH (a + x)%Z), (IH (0 + x)%Z). lia.
Qed.

Lemma sum_cons (x : Z) (l : list Z) :
  ToolGateController.sum (x :: l) = (x + ToolGateController.sum l)%Z.
Proof.
  unfold ToolGateController.sum at 1. cbn [fold_left]. rewrite sum_shift. lia.
Qed.

Lemma sum_app (l1 l2 : list Z) :
  ToolGateController.sum (l1 ++ l2)
  = (ToolGateController.sum l1 + ToolGateController.sum l2)%Z.
Proof.
  induction l1 as [|x l1 IH]; [reflexivity|].
  cbn [app]. rewrite !sum_cons, IH. lia.
Qed.

Lemma sum_nonneg (f : string -> Z) (l : list string) :
  (forall x, 0 <= f x)%Z -> (0 <= ToolGateController.sum (map f l))%Z.
Proof.
  intros Hf. induction l as [|x l IH]; [reflexivity|].
  cbn [map]. rewrite sum_cons. specialize (Hf x). lia.
Qed.

(** A sum over distinct names is bounded by the sum over any list of
    distinct names that has all the names that count. *)
Lemma sum_sublist (f : string -> Z) (l l' : list string) :
  (forall x, 0 <= f x)%Z ->
  NoDup l ->
  (forall x, In x l -> In x l' \/ f x = 0%Z) ->
  (ToolGateController.sum (map f l) <= ToolGateController.sum (map f l'))%Z.
Proof.
  intros Hf. revert l'. induction l as [|x l IH]; intros l' Hnd Hin.
  - now apply sum_nonneg.
  - inversion Hnd as [|? ? Hx Hnd']; subst. cbn [map]. rewrite sum_cons.
    destruct (in_dec string_dec x l') as [Hxl | Hxl].
    + apply in_split in Hxl. destruct Hxl as (l1 & l2 & ->).
      rewrite map_app. cbn [map]. rewrite sum_app, sum_cons.
      assert (H : (ToolGateController.sum (map f l)
                   <= ToolGateController.sum (map f (l1 ++ l2)))%Z).
      { apply IH; [exact Hnd'|]. intros y Hy.
        destruct (Hin y (or_intror Hy)) as [H | H]; [|now right].
        left. apply in_app_or in H. apply in_or_app.
        destruct H as [H | [-> | H]]; [now left | contradiction | now right]. }
      rewrite map_app, sum_app in H. lia.
    + assert (E : f x = 0%Z).
      { destruct (Hin x (or_introl eq_refl)); [contradiction | assumption]. }
      rewrite E. cbn [Z.add].
      apply IH; [exact Hnd'|]. intros y Hy. apply Hin. now right.
Qed.

Lemma values_by_get (d : Dict.t Z) :
  Dict.wf d ->
  Dict.values d = map (fun k => Dict.get_or k d 0%Z) (Dict.keys d).
Proof.
  unfold Dict.wf, Dict.values, Dict.keys, Dict.get_or.
  induction d as [|[k v] d IH]; intros Hnd; [reflexivity|].
  inversion Hnd as [|? ? Hk Hnd']; subst. cbn [map fst snd Dict.get].
  rewrite String.eqb_refl. f_equal. rewrite IH by exact Hnd'.
  apply map_ext_in. intros x Hx.
  destruct (String.eqb_spec x k) as [->|]; [contradiction | reflexivity].
Qed.

Lemma set_in {V} (k : string) (v : V) (d : Dict.t V) (entry : string * V) :
  In entry (Dict.set k v d) -> entry = (k, v) \/ In entry d.
Proof.
  induction d as [|[k' v'] d IH]; simpl.
  - intros [<- | []]. now left.
  - destruct (String.eqb k k'); simpl.
    + intros [<- | H]; auto.
    + intros [<- | H]; auto. destruct (IH H); auto.
Qed.

Lemma set_size_ok (k : string) (v : Z) (sizes : Dict.t Z) :
  (0 <= v)%Z -> SizeTableOK sizes -> SizeTableOK (Dict.set k v sizes).
Proof.
  intros Hv [Hwf Hpos]. split; [now apply set_wf|].
  intros k' v' Hin. apply set_in in Hin.
  destruct Hin as [[= -> ->] | Hin]; [exact Hv | now apply (Hpos k')].
Qed.

Lemma approx_size_nonneg (s : string) :
  (0 <= ToolGateController.approx_size s)%Z.
Proof. unfold ToolGateController.approx_size. apply Z.div_pos; lia. Qed.

Lemma fill_approx_ok (env : Env) (items : Dict.t Tool) (sizes : Dict.t Z) :
  SizeTableOK sizes ->
  SizeTableOK (ToolGateController.fill_approx env items sizes).
Proof.
  unfold ToolGateController.fill_approx.
  apply (fold_left_invariant _ SizeTableOK). intros acc item _ H.
  apply set_size_ok; [apply approx_size_nonneg | exact H].
Qed.

Lemma fill_tiktoken_ok_table (env : Env) (enc : string -> option nat)
    (items : Dict.t Tool) (sizes : Dict.t Z) :
  SizeTableOK sizes ->
  SizeTableOK (fst (ToolGateController.fill_tiktoken env enc items sizes)).
Proof.
  revert sizes. induction items as [|[k v] items IH]; intros sizes H;
    [exact H|].
  cbn [ToolGateController.fill_tiktoken].
  destruct (enc (json_dumps_tool env v)) as [n|]; [|exact H].
  apply IH. apply set_size_ok; [lia | exact H].
Qed.

Lemma init_size_table (env : Env) (st : HttpServerSettings)
    (all_tools : Dict.t Tool) (config : FilterConfig) :
  let self := ToolGateController.init env st all_tools config in
  SizeTableOK (ToolGateController._tool_sizes self)
  /\ ToolGateController._total_all_tools_size self
     = ToolGateController.sum
         (Dict.values (ToolGateController._tool_sizes self)).
Proof.
  assert (H0 : SizeTableOK []) by (split; [constructor | intros k v []]).
  unfold ToolGateController.init, ToolGateController._precompute_tool_sizes.
  cbn [ToolGateController.all_tools ToolGateController._tool_sizes].
  destruct (tiktoken_encode env) as [enc|].
  - pose proof (fill_tiktoken_ok_table env enc all_tools [] H0) as H1.
    destruct (snd (ToolGateController.fill_tiktoken env enc all_tools []));
      cbn [ToolGateController._tool_sizes
           ToolGateController._total_all_tools_size];
      split; try reflexivity; [exact H1 | now apply fill_approx_ok].
  - cbn [fst snd ToolGateController._tool_sizes
         ToolGateController._total_all_tools_size].
    split; [now apply fill_approx_ok | reflexivity].
Qed.

(** X12. For a controller built over a non-empty catalog, the size reported for
    any dictionary of tools lies between 0 and the total recorded for the
    whole catalog; so when that total is within the hard limit no call of
    [get_context_size] raises, whatever is enforced. *)
Theorem context_size_within_total
    (env : Env) (st : HttpServerSettings) (all_tools : Dict.t Tool)
    (config : FilterConfig) (tools : Dict.t Tool) :
  all_tools <> [] ->
  Dict.wf tools ->
  let self := ToolGateController.init env st all_tools config in
  let total := ToolGateController._total_all_tools_size self in
  (0 <= token_count env st self tools <= total)%Z
  /\ ((total <= 7600)%Z ->
      forall enforce_hard_limit,
        snd (ToolGateController.get_context_size env st self tools
               enforce_hard_limit)
        = Return (token_count env st self tools)).
Proof.
  intros Hne Hwf self total.
  destruct (init_uses_precomputed env st all_tools config Hne) as [_ Hu].
  destruct (init_size_table env st all_tools config) as [[Hwfs Hpos] Htot].
  fold self in Hu, Hwfs, Hpos, Htot.
  set (f := fun name => Dict.get_or name (ToolGateController._tool_sizes self) 0%Z).
  assert (Hf : forall x, (0 <= f x)%Z).
  { intros x. unfold f, Dict.get_or.
    destruct (Dict.get x (ToolGateController._tool_sizes self)) as [v|] eqn:E;
      [|lia]. apply get_in in E. now apply (Hpos x). }
  assert (Hcount : token_count env st self tools
                   = ToolGateController.sum (map f (Dict.keys tools))).
  { unfold token_count, ToolGateController.estimate_tokens. now rewrite Hu. }
  assert (Hbound : (0 <= token_count env st self tools <= total)%Z).
  { rewrite Hcount. split; [now apply sum_nonneg|].
    unfold total. rewrite Htot, (values_by_get _ Hwfs). fold f.
    apply sum_sublist; [exact Hf | exact Hwf|].
    intros x _.
    destruct (in_dec string_dec x
                (Dict.keys (ToolGateController._tool_sizes self))) as [H | H];
      [now left | right].
    unfold f, Dict.get_or. apply get_none_iff in H. now rewrite H. }
  split; [exact Hbound|]. intros Htotal enforce.
  rewrite get_context_size_unfold. cbn [snd].
  assert (E : (7600 <? token_count env st self tools)%Z = false)
    by (apply Z.ltb_ge; lia).
  now rewrite E.
Qed.

Lemma context_size_within_total_witness :
  (0 <= token_count sample_env strict_settings
          (ToolGateController.init sample_env strict_settings sample_catalog
             sample_config) sample_tools
   <= ToolGateController._total_all_tools_size
        (ToolGateController.init sample_env strict_settings sample_catalog
           sample_config))%Z.
Proof.
  apply (context_size_within_total sample_env strict_settings sample_catalog
           sample_config sample_tools).
  - discriminate.
  - unfold Dict.wf. simpl.
    repeat (constructor; [simpl; intuition discriminate|]). constructor.
Defined.

(** X13. The estimator of a controller is never left at [unknown] and never set
    to [fallback]: after construction the precomputed table is used exactly
    when the catalog is not empty, and with an empty catalog every call
    serializes the tools it is given. *)
Theorem precomputed_table_used_iff_catalog_nonempty
    (env : Env) (st : HttpServerSettings) (all_tools : Dict.t Tool)
    (config : FilterConfig) :
  let self := ToolGateController.init env st all_tools config in
  (ToolGateController._estimator_type self = Tiktoken
   \/ ToolGateController._estimator_type self = Approx)
  /\ (ToolGateController.use_precomputed self = true <-> all_tools <> [])
  /\ (all_tools = [] ->
      forall tools,
        snd (fst (ToolGateController.estimate_tokens env st self tools))
        = [Serialize (Dict.keys tools)]).
Proof.
  cbv zeta.
  pose proof (init_tool_sizes env st all_tools config) as Hinit.
  cbv zeta in Hinit. destruct Hinit as (He & _ & Habs & _).
  split; [exact He|].
  assert (Hempty : all_tools = [] ->
                   ToolGateController.use_precomputed
                     (ToolGateController.init env st all_tools config) = false).
  { intros ->. unfold ToolGateController.use_precomputed.
    destruct (ToolGateController._tool_sizes _) as [|[k v] rest] eqn:E;
      [reflexivity|].
    specialize (Habs k (fun H => H)). cbn in Habs.
    now rewrite String.eqb_refl in Habs. }
  split; [split|].
  - intros H ->. rewrite (Hempty eq_refl) in H. discriminate.
  - intros H. now apply init_uses_precomputed.
  - intros E tools. unfold ToolGateController.estimate_tokens.
    rewrite (Hempty E).
    destruct (String.eqb (log_level st) "DEBUG"), (tiktoken_encode env) as [enc|];
      try destruct (enc _); reflexivity.
Qed.

(** ** The keyword classifier *)

Lemma str_app_assoc (a b c : string) :
  ((a ++ b) ++ c)%string = (a ++ b ++ c)%string.
Proof. induction a as [|x a IH]; simpl; [reflexivity | now rewrite IH]. Qed.

Lemma lower_app (a b : string) :
  Py.lower (a ++ b) = (Py.lower a ++ Py.lower b)%string.
Proof. induction a as [|x a IH]; simpl; [reflexivity | now rewrite IH]. Qed.

Lemma substring_extend (k s pre post : string) :
  Substring k s -> Substring k (pre ++ s ++ post).
Proof.
  intros (a & b & ->). exists (pre ++ a)%string, (b ++ post)%string.
  now rewrite !str_app_assoc.
Qed.

Lemma classify_intent_in (self : KeywordIntentClassifier.t) (q t : string) :
  In t (KeywordIntentClassifier.classify_intent self q) <->
  exists keywords,
    In (t, keywords) (KeywordIntentClassifier.keyword_mappings self)
    /\ entry_matches q (t, keywords) = true.
Proof.
  unfold KeywordIntentClassifier.classify_intent. rewrite classify_loop.
  cbn [app]. rewrite in_map_iff. split.
  - intros ([t' kws] & E & Hin). cbn in E. subst t'.
    apply filter_In in Hin. now exists kws.
  - intros (kws & Hin & Hm). exists (t, kws). split; [reflexivity|].
    now apply filter_In.
Qed.

(** X14. For ASCII text, adding text before or after a query never
    removes a detected label. *)
Theorem classify_intent_monotone
    (self : KeywordIntentClassifier.t) (pre q post : string) :
  is_ascii pre = true ->
  is_ascii q = true ->
  is_ascii post = true ->
  incl (KeywordIntentClassifier.classify_intent self q)
       (KeywordIntentClassifier.classify_intent self (pre ++ q ++ post)).
Proof.
  intros _ _ _ t Ht. apply classify_intent_in in Ht. apply classify_intent_in.
  destruct Ht as (kws & Hin & Hm). exists kws. split; [exact Hin|].
  apply entry_matches_iff in Hm. apply entry_matches_iff.
  destruct Hm as (k & Hk & Hs). exists k. split; [exact Hk|].
  rewrite !lower_app. now apply substring_extend.
Qed.

Lemma classify_intent_monotone_witness :
  incl
    (KeywordIntentClassifier.classify_intent
       (KeywordIntentClassifier.init None) "my ZFS pool")
    (KeywordIntentClassifier.classify_intent
       (KeywordIntentClassifier.init None)
       ("Please show " ++ "my ZFS pool" ++ " to user Bob")).
Proof.
  apply (classify_intent_monotone (KeywordIntentClassifier.init None)
           "Please show " "my ZFS pool" " to user Bob");
    reflexivity.
Defined.

(** X15. The labels of a classification are labels of the mapping, each at most
    once. *)
Theorem classify_intent_labels_distinct
    (self : KeywordIntentClassifier.t) (q : string) :
  Dict.wf (KeywordIntentClassifier.keyword_mappings self) ->
  NoDup (KeywordIntentClassifier.classify_intent self q)
  /\ incl (KeywordIntentClassifier.classify_intent self q)
          (Dict.keys (KeywordIntentClassifier.keyword_mappings self)).
Proof.
  intros Hwf. unfold KeywordIntentClassifier.classify_intent.
  rewrite classify_loop. cbn [app]. split.
  - apply (filter_wf (fun t kws => entry_matches q (t, kws))) in Hwf.
    unfold Dict.wf, Dict.keys, Dict.filter in Hwf.
    erewrite filter_ext; [exact Hwf|]. intros [t kws]. reflexivity.
  - intros t Ht. apply in_map_iff in Ht. destruct Ht as (e & <- & He).
    apply filter_In in He. unfold Dict.keys. now apply in_map.
Qed.

Lemma classify_intent_labels_distinct_witness :
  NoDup
    (KeywordIntentClassifier.classify_intent
       (KeywordIntentClassifier.init None) "clone the zfs pool of the vm").
Proof.
  apply (classify_intent_labels_distinct (KeywordIntentClassifier.init None)).
  unfold Dict.wf. simpl.
  repeat (constructor; [simpl; intuition discriminate|]). constructor.
Defined.

Lemma has_upper_app (a b : string) :
  has_upper (a ++ b) = has_upper a || has_upper b.
Proof.
  induction a as [|x a IH]; simpl; [reflexivity|].
  rewrite IH. now rewrite orb_assoc.
Qed.

Lemma has_upper_lower (s : string) : has_upper (Py.lower s) = false.
Proof.
  induction s as [|c s IH]; simpl; [reflexivity|].
  now rewrite isupper_lower_char, IH.
Qed.

Lemma upper_keyword_no_match (keyword q : string) :
  has_upper keyword = true -> Py.contains keyword (Py.lower q) = false.
Proof.
  intros Hk. destruct (Py.contains keyword (Py.lower q)) eqn:E; [|reflexivity].
  apply contains_iff in E. destruct E as (a & b & E).
  pose proof (has_upper_lower q) as H. rewrite E in H.
  rewrite !has_upper_app, Hk in H. now rewrite orb_true_r in H.
Qed.

(** X16. Keywords are compared as configured with the lower-cased query: a label
    whose keywords all have an upper-case letter is never detected. *)
Theorem upper_case_keywords_never_match
    (self : KeywordIntentClassifier.t) (t : string) (keywords : list string)
    (q : string) :
  Dict.wf (KeywordIntentClassifier.keyword_mappings self) ->
  In (t, keywords) (KeywordIntentClassifier.keyword_mappings self) ->
  Forall (fun keyword => has_upper keyword = true) keywords ->
  ~ In t (KeywordIntentClassifier.classify_intent self q).
Proof.
  intros Hwf Hin Hup Ht. apply classify_intent_in in Ht.
  destruct Ht as (kws & Hin' & Hm).
  assert (E : kws = keywords).
  { apply (in_get _ _ _ Hwf) in Hin. apply (in_get _ _ _ Hwf) in Hin'.
    congruence. }
  subst kws. unfold entry_matches in Hm. cbn [snd] in Hm.
  apply existsb_exists in Hm. destruct Hm as (k & Hk & Hc).
  rewrite Forall_forall in Hup.
  rewrite (upper_keyword_no_match k q (Hup k Hk)) in Hc. discriminate.
Qed.

Lemma upper_case_keywords_never_match_witness :
  ~ In "storage-ops"
      (KeywordIntentClassifier.classify_intent
         (KeywordIntentClassifier.init
            (Some [("storage-ops", ["ZFS"; "Pool"]); ("user-ops", ["user"])]))
         "list the ZFS Pool of user bob").
Proof.
  apply (upper_case_keywords_never_match
           (KeywordIntentClassifier.init
              (Some [("storage-ops", ["ZFS"; "Pool"]); ("user-ops", ["user"])]))
           "storage-ops" ["ZFS"; "Pool"]).
  - unfold Dict.wf. simpl.
    repeat (constructor; [simpl; intuition discriminate|]). constructor.
  - now left.
  - repeat constructor.
Defined.

(** ** Listing, then calling *)

Lemma tool_filter_wf (st : HttpServerSettings) (f : ToolFilter)
    (tools : Dict.t Tool) (context : FilterContext) :
  Dict.wf tools -> Dict.wf (ToolFilter_apply st f tools context).
Proof.
  intros Hwf. destruct f as [f | f | f]; cbn [ToolFilter_apply].
  - destruct (task_type_filter_selects_aux st f tools context) as [keep ->].
    now apply filter_wf.
  - now apply resource_filter_sound.
  - now apply filter_wf.
Qed.

Lemma get_available_tools_wf (st : HttpServerSettings)
    (self : ToolGateController.t) (context : FilterContext) :
  Dict.wf (ToolGateController.all_tools self) ->
  Dict.wf (ToolGateController.get_available_tools st self context).
Proof.
  unfold ToolGateController.get_available_tools.
  apply (fold_left_invariant _ (@Dict.wf Tool)).
  intros tools f _. apply tool_filter_wf.
Qed.

(** The set [handle_tools_list] stores for the session. *)
Lemma stored_set (env : Env) (st : HttpServerSettings) (self : TrueNASHTTPMCP.t)
    (params : option TrueNASHTTPMCP.ListParams) (request_id session : string)
    (scopes : list string) (task_type_header : option string) :
  let gated :=
    ToolGateController.get_available_tools st
      (TrueNASHTTPMCP.tool_gate_controller self)
      (fst (TrueNASHTTPMCP.build_context st self params request_id session
              task_type_header)) in
  let after :=
    fst (TrueNASHTTPMCP.handle_tools_list env st self params request_id
           session scopes task_type_header) in
  Dict.get session (TrueNASHTTPMCP.session_tools after)
  = Some (if TrueNASHTTPMCP.scope_limited scopes
          then Dict.filter
                 (fun _ tool =>
                    TrueNASHTTPMCP.shares_scope scopes
                      (TrueNASHTTPMCP.effective_scopes tool))
                 gated
          else gated)
  /\ TrueNASHTTPMCP.tool_registry after = TrueNASHTTPMCP.tool_registry self
  /\ forall other,
       other <> session ->
       Dict.get other (TrueNASHTTPMCP.session_tools after)
       = Dict.get other (TrueNASHTTPMCP.session_tools self).
Proof.
  cbv zeta. unfold TrueNASHTTPMCP.handle_tools_list.
  destruct (TrueNASHTTPMCP.build_context _ _ _ _ _ _) as [context m].
  cbn [fst].
  destruct (ToolGateController.get_context_size _ _ _ _ _) as [[c ev] [n|n]];
    cbn [fst TrueNASHTTPMCP.session_tools TrueNASHTTPMCP.tool_registry
         TrueNASHTTPMCP.with_session_tools];
    (split; [now rewrite get_set, String.eqb_refl|]);
    (split; [reflexivity|]);
    intros other Hne; rewrite get_set;
    apply String.eqb_neq in Hne; now rewrite Hne.
Qed.

(** X17. After [tools/list] in a session, whether or not the size check raised,
    a [tools/call] in the same session with the same scopes for any tool of
    the stored set passes both the availability and the scope check, with
    the stored description of the tool. *)
Theorem listed_tool_can_be_called
    (env : Env) (st : HttpServerSettings) (self : TrueNASHTTPMCP.t)
    (params : option TrueNASHTTPMCP.ListParams)
    (request_id request_id' session : string) (scopes : list string)
    (task_type_header : option string)
    (stored : Dict.t Tool) (tool_name : string) (tool : Tool)
    (arguments : option Json) :
  Dict.wf (ToolGateController.all_tools
             (TrueNASHTTPMCP.tool_gate_controller self)) ->
  let after :=
    fst (TrueNASHTTPMCP.handle_tools_list env st self params request_id
           session scopes task_type_header) in
  Dict.get session (TrueNASHTTPMCP.session_tools after) = Some stored ->
  In (tool_name, tool) stored ->
  TrueNASHTTPMCP.handle_tools_call after
    (Some {| TrueNASHTTPMCP.cp_name := Some tool_name;
             TrueNASHTTPMCP.cp_arguments := arguments |})
    request_id' session scopes
  = TrueNASHTTPMCP.Proceed tool_name tool
      (match arguments with Some a => a | None => JObj [] end).
Proof.
  intros Hwf after Hget Hin.
  destruct (stored_set env st self params request_id session scopes
              task_type_header) as (Hs & _ & _).
  fold after in Hs. rewrite Hget in Hs. injection Hs as Hs.
  set (gated := ToolGateController.get_available_tools _ _ _) in Hs.
  assert (Hg : Dict.wf gated) by now apply get_available_tools_wf.
  assert (Hst : Dict.wf stored).
  { rewrite Hs. destruct (TrueNASHTTPMCP.scope_limited scopes);
      [now apply filter_wf | exact Hg]. }
  assert (Hscope : TrueNASHTTPMCP.scope_limited scopes
                   && negb (TrueNASHTTPMCP.shares_scope scopes
                              (TrueNASHTTPMCP.effective_scopes tool)) = false).
  { destruct (TrueNASHTTPMCP.scope_limited scopes); [|reflexivity].
    rewrite Hs in Hin. apply filter_in in Hin. destruct Hin as [_ ->].
    reflexivity. }
  unfold TrueNASHTTPMCP.handle_tools_call.
  cbn [TrueNASHTTPMCP.cp_name TrueNASHTTPMCP.cp_arguments].
  assert (Hne : stored <> []) by (intros E; rewrite E in Hin; destruct Hin).
  rewrite (session_filtered_entry after session stored Hget Hne).
  rewrite (in_get _ _ _ Hst Hin). now rewrite Hscope.
Qed.

Lemma listed_tool_can_be_called_witness :
  TrueNASHTTPMCP.handle_tools_call
    (fst (TrueNASHTTPMCP.handle_tools_list sample_env default_settings
            (sample_server default_settings)
            (list_request None (Some "show me my zfs pools")) "req-1" "S"
            ["storage-ops"] None))
    (call_request "list_pools") "req-2" "S" ["storage-ops"]
  = TrueNASHTTPMCP.Proceed "list_pools" list_pools (JObj []).
Proof.
  apply (listed_tool_can_be_called sample_env default_settings
           (sample_server default_settings)
           (list_request None (Some "show me my zfs pools")) "req-1" "req-2" "S"
           ["storage-ops"] None [("list_pools", list_pools)] "list_pools"
           list_pools None).
  - unfold Dict.wf. simpl.
    repeat (constructor; [simpl; intuition discriminate|]). constructor.
  - reflexivity.
  - now left.
Defined.

Lemma scope_limited_false_iff (scopes : list string) :
  TrueNASHTTPMCP.scope_limited scopes = false <->
  scopes = [] \/ In "admin" scopes.
Proof.
  unfold TrueNASHTTPMCP.scope_limited. destruct scopes as [|s l].
  - split; auto.
  - rewrite negb_false_iff, mem_iff. split; [auto | intros [H | H]];
      [discriminate | exact H].
Qed.

(** X18. A caller whose scope set is empty is as unrestricted as one that has
    [admin]: [tools/list] stores for it the whole output of the gate, and
    [tools/call] refuses it no tool of the visible set. *)
Theorem empty_or_admin_scopes_unrestricted
    (env : Env) (st : HttpServerSettings) (self : TrueNASHTTPMCP.t)
    (scopes : list string) :
  scopes = [] \/ In "admin" scopes ->
  (forall params request_id session task_type_header,
      Dict.get session
        (TrueNASHTTPMCP.session_tools
           (fst (TrueNASHTTPMCP.handle_tools_list env st self params request_id
                   session scopes task_type_header)))
      = Some (ToolGateController.get_available_tools st
                (TrueNASHTTPMCP.tool_gate_controller self)
                (fst (TrueNASHTTPMCP.build_context st self params request_id
                        session task_type_header))))
  /\ (forall tool_name arguments request_id session tool_meta,
        Dict.get tool_name (TrueNASHTTPMCP.session_filtered self session)
        = Some tool_meta ->
        TrueNASHTTPMCP.handle_tools_call self
          (Some {| TrueNASHTTPMCP.cp_name := Some tool_name;
                   TrueNASHTTPMCP.cp_arguments := arguments |})
          request_id session scopes
        = TrueNASHTTPMCP.Proceed tool_name tool_meta
            (match arguments with Some a => a | None => JObj [] end)).
Proof.
  intros H. apply scope_limited_false_iff in H. split.
  - intros params request_id session header.
    destruct (stored_set env st self params request_id session scopes header)
      as (Hs & _). rewrite H in Hs. exact Hs.
  - intros tool_name arguments request_id session tool_meta Hget.
    unfold TrueNASHTTPMCP.handle_tools_call.
    cbn [TrueNASHTTPMCP.cp_name TrueNASHTTPMCP.cp_arguments].
    now rewrite Hget, H.
Qed.

Lemma empty_or_admin_scopes_unrestricted_witness :
  TrueNASHTTPMCP.handle_tools_call (sample_server default_settings)
    (call_request "create_user") "req-1" "S" []
  = TrueNASHTTPMCP.Proceed "create_user" create_user (JObj []).
Proof.
  apply (empty_or_admin_scopes_unrestricted sample_env default_settings
           (sample_server default_settings) []).
  - now left.
  - reflexivity.
Defined.

(** X19. A [tools/list] touches the entry of its own session only: in any other
    session [tools/call] answers as before. *)
Theorem tools_list_leaves_other_sessions
    (env : Env) (st : HttpServerSettings) (self : TrueNASHTTPMCP.t)
    (params : option TrueNASHTTPMCP.ListParams) (request_id session : string)
    (scopes : list string) (task_type_header : option string)
    (other : string) :
  other <> session ->
  let after :=
    fst (TrueNASHTTPMCP.handle_tools_list env st self params request_id
           session scopes task_type_header) in
  Dict.get other (TrueNASHTTPMCP.session_tools after)
  = Dict.get other (TrueNASHTTPMCP.session_tools self)
  /\ forall call request_id' scopes',
       TrueNASHTTPMCP.handle_tools_call after call request_id' other scopes'
       = TrueNASHTTPMCP.handle_tools_call self call request_id' other scopes'.
Proof.
  intros Hne after.
  destruct (stored_set env st self params request_id session scopes
              task_type_header) as (_ & Hr & Ho).
  fold after in Hr, Ho. specialize (Ho other Hne).
  split; [exact Ho|]. intros call request_id' scopes'.
  unfold TrueNASHTTPMCP.handle_tools_call, TrueNASHTTPMCP.session_filtered.
  now rewrite Ho, Hr.
Qed.

Lemma tools_list_leaves_other_sessions_witness :
  Dict.get "T"
    (TrueNASHTTPMCP.session_tools
       (fst (TrueNASHTTPMCP.handle_tools_list sample_env default_settings
               (sample_server default_settings)
               (list_request (Some "storage") None) "req-1" "S" [] None)))
  = None.
Proof.
  apply (tools_list_leaves_other_sessions sample_env default_settings
           (sample_server default_settings)
           (list_request (Some "storage") None) "req-1" "S" [] None "T").
  discriminate.
Defined.

(** ** The whole of [tools/call] *)

(** X20. Content is returned only for a tool of the visible set that the scopes
    admit, with arguments the validator accepts, by a registered handler
    that returns; and the content is what the handler returned. *)
Theorem content_only_from_authorized_handler
    (rt : Dispatch.Runtime) (self : TrueNASHTTPMCP.t)
    (params : option TrueNASHTTPMCP.CallParams) (request_id session : string)
    (scopes : list string) (result : Json) :
  Dispatch.handle_tools_call rt self params request_id session scopes
  = Dispatch.Content result ->
  exists p tool_name tool_meta handler,
    params = Some p
    /\ TrueNASHTTPMCP.cp_name p = Some tool_name
    /\ Dict.get tool_name (TrueNASHTTPMCP.session_filtered self session)
       = Some tool_meta
    /\ (TrueNASHTTPMCP.scope_limited scopes = false
        \/ TrueNASHTTPMCP.shares_scope scopes
             (TrueNASHTTPMCP.effective_scopes tool_meta) = true)
    /\ Dispatch.validate_arguments rt tool_meta
         (match TrueNASHTTPMCP.cp_arguments p with
          | Some a => a
          | None => JObj []
          end) = Dispatch.Valid
    /\ Dict.get tool_name (Dispatch._handlers rt) = Some handler
    /\ handler (match TrueNASHTTPMCP.cp_arguments p with
                | Some a => a
                | None => JObj []
                end) = Some result.
Proof.
  unfold Dispatch.handle_tools_call, TrueNASHTTPMCP.handle_tools_call.
  destruct params as [p|]; [|discriminate].
  destruct (TrueNASHTTPMCP.cp_name p) as [tool_name|] eqn:En; [|discriminate].
  destruct (Dict.get tool_name (TrueNASHTTPMCP.session_filtered self session))
    as [tool_meta|] eqn:Eg; [|discriminate].
  destruct (TrueNASHTTPMCP.scope_limited scopes
            && negb (TrueNASHTTPMCP.shares_scope scopes
                       (TrueNASHTTPMCP.effective_scopes tool_meta))) eqn:Es;
    [discriminate|].
  unfold Dispatch.finish_tools_call.
  destruct (Dispatch.validate_arguments rt tool_meta _) eqn:Ev;
    try discriminate.
  destruct (Dict.get tool_name (Dispatch._handlers rt)) as [handler|] eqn:Eh;
    [|discriminate].
  destruct (handler _) as [r|] eqn:Er; [|discriminate].
  intros H.
  assert (E : r = result).
  { destruct (truthy_json (response_schema tool_meta));
      [destruct (Dispatch.jsonschema_validate rt r _)|];
      congruence. }
  subst r. exists p, tool_name, tool_meta, handler.
  repeat split; auto.
  apply andb_false_iff in Es. destruct Es as [Es | Es]; [now left | right].
  now apply negb_false_iff.
Qed.

Lemma content_only_from_authorized_handler_witness :
  exists p tool_name tool_meta handler,
    call_request "list_pools" = Some p
    /\ TrueNASHTTPMCP.cp_name p = Some tool_name
    /\ Dict.get tool_name
         (TrueNASHTTPMCP.session_filtered (sample_server default_settings) "S")
       = Some tool_meta
    /\ (TrueNASHTTPMCP.scope_limited ["storage-ops"] = false
        \/ TrueNASHTTPMCP.shares_scope ["storage-ops"]
             (TrueNASHTTPMCP.effective_scopes tool_meta) = true)
    /\ Dispatch.validate_arguments sample_runtime tool_meta
         (match TrueNASHTTPMCP.cp_arguments p with
          | Some a => a
          | None => JObj []
          end) = Dispatch.Valid
    /\ Dict.get tool_name (Dispatch._handlers sample_runtime) = Some handler
    /\ handler (match TrueNASHTTPMCP.cp_arguments p with
                | Some a => a
                | None => JObj []
                end) = Some (JArr [JStr "tank"]).
Proof.
  apply (content_only_from_authorized_handler sample_runtime
           (sample_server default_settings) (call_request "list_pools")
           "req-1" "S" ["storage-ops"] (JArr [JStr "tank"])).
  reflexivity.
Defined.

(** ** The endpoint *)

Ltac endpoint_case :=
  cbn [fst snd response_id]; repeat split; try reflexivity;
  try (intros; congruence);
  try (let H := fresh in intros ? ? H; injection H as <- <-; simpl; auto).

(** X21. A request without an id is answered with an empty body and changes
    nothing, whatever its method; a request with an id is answered with an
    envelope that carries the id; and only [tools/list] with an id can
    change the server. *)
Theorem endpoint_envelopes
    (rt : Dispatch.Runtime) (env : Env) (st : HttpServerSettings)
    (self : TrueNASHTTPMCP.t) (request : Dispatch.RpcRequest)
    (request_id : string) (x_session_id : option string) (derived : string)
    (scopes : list string) (x_task_type : option string) :
  let reply :=
    Dispatch.mcp_endpoint rt env st self request request_id x_session_id
      derived scopes x_task_type in
  response_id (snd reply) = Dispatch.rpc_id request
  /\ (Dispatch.rpc_id request = None -> reply = (self, Dispatch.EmptyBody))
  /\ (Dispatch.rpc_method request <> "tools/list" -> fst reply = self)
  /\ (forall id code,
        snd reply = Dispatch.ErrorEnvelope id code ->
        In code [JSONRPCError.INTERNAL_ERROR; JSONRPCError.INVALID_PARAMS;
                 JSONRPCError.METHOD_NOT_FOUND]).
Proof.
  cbv zeta. unfold Dispatch.mcp_endpoint.
  destruct (Dispatch.rpc_id request) as [id|]; [|endpoint_case].
  destruct (String.eqb_spec (Dispatch.rpc_method request) "initialize")
    as [M1 | M1]; [endpoint_case|].
  destruct (String.eqb_spec (Dispatch.rpc_method request) "tools/list")
    as [M2 | M2].
  { destruct (TrueNASHTTPMCP.handle_tools_list _ _ _ _ _ _ _ _)
      as [after [listing | n]]; endpoint_case. }
  destruct (String.eqb_spec (Dispatch.rpc_method request) "tools/call")
    as [M3 | M3].
  { unfold Dispatch.handle_tools_call, TrueNASHTTPMCP.handle_tools_call.
    destruct (Dispatch.call_params _) as [p|]; [|endpoint_case].
    destruct (TrueNASHTTPMCP.cp_name p) as [tn|]; [|endpoint_case].
    destruct (Dict.get tn _) as [tm|]; [|endpoint_case].
    destruct (_ && _); [endpoint_case|].
    unfold Dispatch.finish_tools_call.
    destruct (Dispatch.validate_arguments rt tm _); [|endpoint_case ..].
    destruct (Dict.get tn (Dispatch._handlers rt)) as [h|]; [|endpoint_case].
    destruct (h _) as [r|]; [|endpoint_case].
    destruct (truthy_json (response_schema tm));
      [destruct (Dispatch.jsonschema_validate rt r (response_schema tm))|];
      endpoint_case. }
  destruct (String.eqb_spec (Dispatch.rpc_method request) "prompts/list")
    as [M4 | M4]; [endpoint_case|].
  destruct (String.eqb_spec (Dispatch.rpc_method request) "prompts/get")
    as [M5 | M5].
  { destruct (Dispatch.handle_prompts_get _); endpoint_case. }
  endpoint_case.
Qed.

(** X22. When the size check of [tools/list] raises, the endpoint answers
    INTERNAL_ERROR, and the set computed for the session has already
    replaced the stored one. *)
Theorem budget_error_keeps_the_new_cache
    (rt : Dispatch.Runtime) (env : Env) (st : HttpServerSettings)
    (self : TrueNASHTTPMCP.t) (request : Dispatch.RpcRequest)
    (request_id : string) (x_session_id : option string) (derived : string)
    (scopes : list string) (x_task_type : option string)
    (id : Dispatch.RpcId) (n : Z) :
  Dispatch.rpc_method request = "tools/list" ->
  Dispatch.rpc_id request = Some id ->
  let session := Dispatch.resolve_session_id x_session_id derived in
  let params := Dispatch.list_params (Dispatch.rpc_params request) in
  snd (TrueNASHTTPMCP.handle_tools_list env st self params request_id session
         scopes x_task_type) = RaiseValueError n ->
  let reply :=
    Dispatch.mcp_endpoint rt env st self request request_id x_session_id
      derived scopes x_task_type in
  let gated :=
    ToolGateController.get_available_tools st
      (TrueNASHTTPMCP.tool_gate_controller self)
      (fst (TrueNASHTTPMCP.build_context st self params request_id session
              x_task_type)) in
  snd reply = Dispatch.ErrorEnvelope id JSONRPCError.INTERNAL_ERROR
  /\ Dict.get session (TrueNASHTTPMCP.session_tools (fst reply))
     = Some (if TrueNASHTTPMCP.scope_limited scopes
             then Dict.filter
                    (fun _ tool =>
                       TrueNASHTTPMCP.shares_scope scopes
                         (TrueNASHTTPMCP.effective_scopes tool))
                    gated
             else gated).
Proof.
  intros Hm Hid session params Hraise reply gated.
  destruct (stored_set env st self params request_id session scopes
              x_task_type) as (Hs & _).
  fold gated in Hs.
  unfold reply, Dispatch.mcp_endpoint. rewrite Hid, Hm. cbn [String.eqb].
  fold session. fold params.
  destruct (TrueNASHTTPMCP.handle_tools_list env st self params request_id
              session scopes x_task_type) as [after [listing | m]];
    cbn [fst snd] in *; [discriminate|].
  split; [reflexivity | exact Hs].
Qed.

Lemma budget_error_keeps_the_new_cache_witness :
  snd (Dispatch.mcp_endpoint sample_runtime heavy_env strict_settings
         heavy_server
         (rpc "tools/list" (Some (Dispatch.IdInt 1)) None (Some "storage") None)
         "req-1" (Some "S") "derived" ["admin"] None)
  = Dispatch.ErrorEnvelope (Dispatch.IdInt 1) JSONRPCError.INTERNAL_ERROR
  /\ Dict.get "S"
       (TrueNASHTTPMCP.session_tools
          (fst (Dispatch.mcp_endpoint sample_runtime heavy_env strict_settings
                  heavy_server
                  (rpc "tools/list" (Some (Dispatch.IdInt 1)) None
                     (Some "storage") None)
                  "req-1" (Some "S") "derived" ["admin"] None)))
     = Some [("list_pools", list_pools)].
Proof.
  apply (budget_error_keeps_the_new_cache sample_runtime heavy_env
           strict_settings heavy_server
           (rpc "tools/list" (Some (Dispatch.IdInt 1)) None (Some "storage")
              None)
           "req-1" (Some "S") "derived" ["admin"] None (Dispatch.IdInt 1)
           8000%Z).
  - reflexivity.
  - reflexivity.
  - vm_compute. reflexivity.
Defined.

(** ** Authentication *)

Lemma in_scope_table_iff (self : Auth.Settings) (token : string) :
  Auth.in_scope_table self token = true <->
  exists table,
    Auth._token_scopes_cache self = Some table
    /\ In token (Dict.keys table).
Proof.
  unfold Auth.in_scope_table.
  destruct (Auth._token_scopes_cache self) as [[|e rest]|].
  - split; [discriminate | intros (t & [= <-] & [])].
  - rewrite mem_iff_keys. split.
    + intros H. eexists. split; [reflexivity | exact H].
    + intros (t & [= <-] & H). exact H.
  - split; [discriminate | intros (t & E & _); discriminate].
Qed.

Lemma compare_secret_cases (expected provided : string) :
  (Auth._compare_secret expected provided = Some true <->
     expected <> "" /\ is_ascii expected = true /\ provided = expected)
  /\ (Auth._compare_secret expected provided = None <->
        expected <> ""
        /\ (is_ascii expected = false \/ is_ascii provided = false)).
Proof.
  unfold Auth._compare_secret, Auth.compare_digest.
  destruct (String.eqb_spec expected "") as [-> | Hne].
  - split; split; try discriminate; intros [H _]; congruence.
  - destruct (is_ascii expected) eqn:Ea, (is_ascii provided) eqn:Ep; cbn [andb].
    + split; split.
      * intros [= E]. apply String.eqb_eq in E. auto.
      * intros (_ & _ & ->). now rewrite String.eqb_refl.
      * discriminate.
      * intros [_ [H | H]]; discriminate.
    + split; split; try discriminate; auto.
      intros (_ & _ & ->). congruence.
    + split; split; try discriminate; auto.
      intros (_ & H & _). discriminate.
    + split; split; try discriminate; auto.
      intros (_ & H & _). discriminate.
Qed.

(** X23. A token that is a key of the scope table is accepted with the
    scopes listed for it, without any comparison.  Any other token is
    compared with the access token unless that is empty: it is accepted,
    with [admin], exactly when the access token is not empty, is ASCII and
    equals it; the comparison raises exactly when the access token is not
    empty and one of the two is not ASCII; in every other case the token is
    refused. *)
Theorem token_acceptance (self : Auth.Settings) (token : string) :
  let listed :=
    exists table,
      Auth._token_scopes_cache self = Some table
      /\ In token (Dict.keys table) in
  let expected := Auth.mcp_access_token self in
  ((exists granted,
       Auth.verify_token_with_scopes self token = Auth.Accepted granted) <->
     listed
     \/ (expected <> "" /\ is_ascii expected = true /\ token = expected))
  /\ (Auth.verify_token_with_scopes self token = Auth.Raised <->
        ~ listed
        /\ expected <> ""
        /\ (is_ascii expected = false \/ is_ascii token = false))
  /\ (forall table scopes,
        Auth._token_scopes_cache self = Some table ->
        Dict.get token table = Some scopes ->
        exists granted,
          Auth.verify_token_with_scopes self token = Auth.Accepted granted
          /\ NoDup granted
          /\ forall s, In s granted <-> In s scopes)
  /\ (~ listed ->
      expected <> "" ->
      is_ascii expected = true ->
      token = expected ->
      Auth.verify_token_with_scopes self token = Auth.Accepted ["admin"]).
Proof.
  cbv zeta. unfold Auth.verify_token_with_scopes, Auth.verify_token,
    Auth.resolve_scopes.
  pose proof (in_scope_table_iff self token) as Ht.
  destruct (compare_secret_cases (Auth.mcp_access_token self) token)
    as [Hc Hr].
  split; [|split; [|split]].
  - destruct (Auth.in_scope_table self token).
    + split; [intros _; left; now apply Ht | intros _; eexists; reflexivity].
    + destruct (Auth._compare_secret (Auth.mcp_access_token self) token)
        as [[|]|].
      * split; [intros _; right; now apply Hc | intros _; eexists; reflexivity].
      * split; [intros [g H]; discriminate|].
        intros [H | H]; [apply Ht in H | apply Hc in H]; discriminate.
      * split; [intros [g H]; discriminate|].
        intros [H | H]; [apply Ht in H | apply Hc in H]; discriminate.
  - destruct (Auth.in_scope_table self token).
    + split; [discriminate|]. intros (Hn & _). exfalso. apply Hn.
      now apply Ht.
    + assert (Hn : ~ (exists table,
                        Auth._token_scopes_cache self = Some table
                        /\ In token (Dict.keys table))).
      { intros H. apply Ht in H. discriminate. }
      destruct (Auth._compare_secret (Auth.mcp_access_token self) token)
        as [[|]|].
      * split; [discriminate|]. intros (_ & H). apply Hr in H. discriminate.
      * split; [discriminate|]. intros (_ & H). apply Hr in H. discriminate.
      * split; [intros _ | reflexivity]. split; [exact Hn|]. now apply Hr.
  - intros table scopes Hcache Hget.
    assert (Hin : Auth.in_scope_table self token = true).
    { apply Ht. exists table. split; [exact Hcache|].
      apply get_in in Hget. change token with (fst (token, scopes)).
      unfold Dict.keys. now apply in_map. }
    rewrite Hin. cbv beta iota. rewrite Hin, Hcache.
    unfold Dict.get_or. rewrite Hget.
    eexists. split; [reflexivity|]. split.
    + clear. unfold Py.set_update.
      apply (fold_left_invariant _ (@NoDup string)); [|constructor].
      intros acc x _ Hnd. destruct (Py.mem x acc) eqn:E; [exact Hnd|].
      apply NoDup_app; [exact Hnd | repeat constructor; intros [] |].
      intros y Hy [<- | []]. apply mem_iff in Hy. congruence.
    + intros s. pose proof (set_update_in [] scopes s) as H.
      simpl in H. tauto.
  - intros Hn Hne Ha ->.
    destruct (Auth.in_scope_table self (Auth.mcp_access_token self)) eqn:E.
    + exfalso. apply Hn. now apply Ht.
    + rewrite (proj2 Hc (conj Hne (conj Ha eq_refl))). cbv beta iota.
      now rewrite E.
Qed.

Example non_ascii_access_token_raises :
  Auth.verify_token_with_scopes
    {| Auth.mcp_access_token := String (ascii_of_nat 233) "clef";
       Auth._token_scopes_cache := None |}
    "guess" = Auth.Raised.
Proof. reflexivity. Qed.

(** [validate] refuses only the configuration with neither an access token
    nor a scope table; it accepts an empty scope table without an access
    token, and then no token at all is accepted. *)
Lemma validate_edge_cases
    (mcp_access_token : string) (token_scopes : option (Dict.t (list string))) :
  (Auth.validate mcp_access_token token_scopes = None <->
     mcp_access_token = "" /\ token_scopes = None)
  /\ (forall self,
        Auth.validate mcp_access_token token_scopes = Some self ->
        Auth.mcp_access_token self = mcp_access_token
        /\ Auth._token_scopes_cache self = token_scopes)
  /\ exists self,
       Auth.validate "" (Some []) = Some self
       /\ forall token,
            Auth.verify_token_with_scopes self token = Auth.Unauthorized.
Proof.
  unfold Auth.validate. split; [|split].
  - destruct (String.eqb_spec mcp_access_token "") as [-> | Hne],
      token_scopes as [table|]; cbn; split;
      try discriminate; try tauto; intros [H1 H2]; congruence.
  - destruct (negb (negb (String.eqb mcp_access_token "")) && _);
      [discriminate|]. intros self [= <-]. split; reflexivity.
  - eexists. split; [reflexivity|]. intros token. reflexivity.
Qed.

(** X24. A token whose entry in the scope table is the empty list is accepted
    with the empty scope set, and the empty scope set passes every scope
    check: no tool of the visible set is refused to it. *)
Theorem empty_scope_list_grants_everything
    (auth : Auth.Settings) (table : Dict.t (list string)) (token : string) :
  Auth._token_scopes_cache auth = Some table ->
  Dict.get token table = Some [] ->
  Auth.verify_token_with_scopes auth token = Auth.Accepted []
  /\ forall (self : TrueNASHTTPMCP.t) tool_name arguments request_id session
            tool_meta,
       Dict.get tool_name (TrueNASHTTPMCP.session_filtered self session)
       = Some tool_meta ->
       TrueNASHTTPMCP.handle_tools_call self
         (Some {| TrueNASHTTPMCP.cp_name := Some tool_name;
                  TrueNASHTTPMCP.cp_arguments := arguments |})
         request_id session []
       = TrueNASHTTPMCP.Proceed tool_name tool_meta
           (match arguments with Some a => a | None => JObj [] end).
Proof.
  intros Hcache Hget. split.
  - assert (Hin : Auth.in_scope_table auth token = true).
    { apply in_scope_table_iff. exists table. split; [exact Hcache|].
      apply get_in in Hget. change token with (fst (token, @nil string)).
      unfold Dict.keys. now apply in_map. }
    unfold Auth.verify_token_with_scopes, Auth.verify_token,
      Auth.resolve_scopes.
    rewrite Hin. cbv beta iota. rewrite Hin, Hcache.
    unfold Dict.get_or. now rewrite Hget.
  - intros self tool_name arguments request_id session tool_meta Hg.
    unfold TrueNASHTTPMCP.handle_tools_call.
    cbn [TrueNASHTTPMCP.cp_name TrueNASHTTPMCP.cp_arguments].
    now rewrite Hg.
Qed.

Lemma empty_scope_list_grants_everything_witness :
  Auth.verify_token_with_scopes
    {| Auth.mcp_access_token := "secret";
       Auth._token_scopes_cache :=
         Some [("reader", ["storage-ops"]); ("guest", [])] |}
    "guest" = Auth.Accepted [].
Proof.
  apply (empty_scope_list_grants_everything
           {| Auth.mcp_access_token := "secret";
              Auth._token_scopes_cache :=
                Some [("reader", ["storage-ops"]); ("guest", [])] |}
           [("reader", ["storage-ops"]); ("guest", [])] "guest");
    reflexivity.
Defined.

(** ** The registry *)

Lemma mem_by_keys {V W} (k : string) (d : Dict.t V) (d' : Dict.t W) :
  Dict.keys d = Dict.keys d' -> Dict.mem k d = Dict.mem k d'.
Proof.
  intros E. destruct (Dict.mem k d) eqn:E1, (Dict.mem k d') eqn:E2;
    try reflexivity.
  - apply mem_iff_keys in E1. rewrite E in E1. apply mem_iff_keys in E1.
    congruence.
  - apply mem_iff_keys in E2. rewrite <- E in E2. apply mem_iff_keys in E2.
    congruence.
Qed.

Lemma build_input_schema_shape (params : Dict.t Json) :
  exists properties required,
    RegistryLoader._build_input_schema params
    = JObj [("type", JStr "object");
            ("properties", JObj properties);
            ("required", JArr required)].
Proof.
  unfold RegistryLoader._build_input_schema.
  destruct (fold_left RegistryLoader.schema_step params ([], []))
    as [properties required].
  now exists properties, (map JStr required).
Qed.

Lemma load_entry_ok {Handler : Type} (tts : list string)
    (reg : RegistryLoader.Registry Handler)
    (entry : option (RegistryLoader.Entry Handler)) :
  (tts = ["truenas-ops"]
   \/ exists class, In (class, tts) RegistryLoader.TASK_TYPE_MAP) ->
  RegistryOK reg -> RegistryOK (RegistryLoader.load_entry tts reg entry).
Proof.
  intros Htt (Hk & Hwf & Hall).
  destruct entry as [e|]; [|exact (conj Hk (conj Hwf Hall))].
  unfold RegistryLoader.load_entry, RegistryOK.
  cbn [RegistryLoader.r_tools RegistryLoader.r_handlers].
  split; [|split].
  - rewrite !keys_set_eq, Hk.
    now rewrite (mem_by_keys (RegistryLoader.e_name e) _ _ Hk).
  - now apply set_wf.
  - intros n tool Hin. apply set_in in Hin. destruct Hin as [E | Hin];
      [|now apply Hall].
    injection E as -> ->. unfold RegisteredTool.
    cbn [name path method priority required_scopes task_types request_schema].
    repeat split; try reflexivity; [exact Htt|].
    destruct (build_input_schema_shape
                (match RegistryLoader.e_param_schema e with
                 | Some p => p
                 | None => []
                 end)) as (properties & required & ->).
    now exists properties, required.
Qed.

Lemma task_type_map_lookup (class : string) :
  let tts :=
    Dict.get_or class RegistryLoader.TASK_TYPE_MAP ["truenas-ops"] in
  tts = ["truenas-ops"]
  \/ exists class', In (class', tts) RegistryLoader.TASK_TYPE_MAP.
Proof.
  cbv zeta. unfold Dict.get_or.
  destruct (Dict.get class RegistryLoader.TASK_TYPE_MAP) as [tt|] eqn:E;
    [|now left].
  right. exists class. now apply get_in.
Qed.

Lemma load_tools_ok {Handler : Type}
    (instances : list (RegistryLoader.ToolInstance Handler)) :
  RegistryOK (RegistryLoader._load_tools instances).
Proof.
  unfold RegistryLoader._load_tools.
  apply (fold_left_invariant _ RegistryOK).
  - intros reg tool _ Hreg. unfold RegistryLoader.load_instance.
    destruct (RegistryLoader.definitions tool) as [entries|]; [|exact Hreg].
    apply (fold_left_invariant _ RegistryOK); [|exact Hreg].
    intros reg' entry _ Hreg'. apply load_entry_ok; [|exact Hreg'].
    apply task_type_map_lookup.
  - split; [reflexivity|]. split; [constructor | intros n tool []].
Qed.

(** X25. Whatever the tool objects give, the registry keeps its two
    dictionaries in step: the same names in the same order, so every
    registered tool has a handler.  Every registered tool is stored under
    its own name, with priority 0, its task types also as its required
    scopes, and a request schema that is never empty, so that the arguments
    of a call to it are always validated. *)
Theorem registry_invariants {Handler : Type}
    (instances : list (RegistryLoader.ToolInstance Handler)) :
  let reg := RegistryLoader._load_tools instances in
  Dict.keys (RegistryLoader.r_tools reg)
  = Dict.keys (RegistryLoader.r_handlers reg)
  /\ Dict.wf (RegistryLoader.r_tools reg)
  /\ (forall n,
        Dict.mem n (RegistryLoader.r_tools reg) = true ->
        RegistryLoader.get_handler reg n <> None)
  /\ (forall n tool,
        In (n, tool) (RegistryLoader.r_tools reg) ->
        RegisteredTool n tool
        /\ TrueNASHTTPMCP.effective_scopes tool = task_types tool
        /\ forall rt arguments,
             exists schema,
               request_schema tool = Some schema
               /\ Dispatch.validate_arguments rt tool arguments
                  = Dispatch.jsonschema_validate rt arguments schema).
Proof.
  cbv zeta. destruct (load_tools_ok instances) as (Hk & Hwf & Hall).
  split; [exact Hk|]. split; [exact Hwf|]. split.
  - intros n Hn. unfold RegistryLoader.get_handler.
    rewrite (mem_by_keys n _ _ Hk) in Hn. unfold Dict.mem in Hn.
    destruct (Dict.get n _); [discriminate | discriminate].
  - intros n tool Hin. pose proof (Hall n tool Hin) as Hreg.
    split; [exact Hreg|].
    destruct Hreg as (_ & _ & _ & _ & Hs & Htt & props & req & Hschema).
    split.
    + unfold TrueNASHTTPMCP.effective_scopes. rewrite Hs.
      destruct (task_types tool); reflexivity.
    + intros rt arguments. eexists. split; [exact Hschema|].
      unfold Dispatch.validate_arguments. now rewrite Hschema.
Qed.

Lemma schema_step_object (properties : Dict.t Json) (required : list string)
    (param : string) (meta : Dict.t Json) :
  RegistryLoader.schema_step (properties, required) (param, JObj meta)
  = (Dict.set param (JObj (property_of meta)) properties,
     if required_flag meta then required ++ [param] else required).
Proof.
  unfold RegistryLoader.schema_step, required_flag, property_of.
  destruct (Dict.get "required" meta) as [flag|]; [|reflexivity].
  destruct (truthy_json flag); reflexivity.
Qed.

Lemma schema_step_other (acc : Dict.t Json * list string) (param : string)
    (meta : Json) :
  (forall fields, meta <> JObj fields) ->
  RegistryLoader.schema_step acc (param, meta) = acc.
Proof.
  intros H. destruct acc as [properties required].
  destruct meta; try reflexivity. exfalso. now apply (H fields).
Qed.

Lemma marks_required_iff (meta : Json) :
  marks_required meta <->
  exists fields, meta = JObj fields /\ required_flag fields = true.
Proof.
  unfold marks_required, required_flag. split.
  - intros (fields & flag & -> & Hg & Ht). exists fields. now rewrite Hg.
  - intros (fields & -> & H).
    destruct (Dict.get "required" fields) as [flag|] eqn:E; [|discriminate].
    now exists fields, flag.
Qed.

Lemma schema_loop (params : Dict.t Json) (properties : Dict.t Json)
    (required : list string) :
  let result :=
    fold_left RegistryLoader.schema_step params (properties, required) in
  (Dict.wf properties -> Dict.wf (fst result))
  /\ (forall n,
        In n (Dict.keys (fst result)) <->
        In n (Dict.keys properties)
        \/ exists fields, In (n, JObj fields) params)
  /\ (forall n,
        In n (snd result) <->
        In n required
        \/ exists meta, In (n, meta) params /\ marks_required meta).
Proof.
  revert properties required.
  induction params as [|[param meta] params IH]; intros properties required.
  - cbn. split; [auto|]. split; intros n; split; auto.
    + intros [H | (f & [])]. exact H.
    + intros [H | (m & [] & _)]. exact H.
  - cbn [fold_left].
    assert (Hobj : (exists fields, meta = JObj fields)
                   \/ forall fields, meta <> JObj fields).
    { destruct meta; try (right; intros f; discriminate). left. eauto. }
    destruct Hobj as [(fields & ->) | Hother].
    + rewrite schema_step_object.
      destruct (IH (Dict.set param (JObj (property_of fields)) properties)
                  (if required_flag fields then required ++ [param]
                   else required)) as (Hw & Hk & Hr).
      split; [intros H; now apply Hw, set_wf|]. split.
      * intros n. rewrite Hk, keys_set. split.
        -- intros [[-> | H] | (f & H)].
           ++ right. exists fields. now left.
           ++ now left.
           ++ right. exists f. now right.
        -- intros [H | (f & [E | H])].
           ++ left. now right.
           ++ injection E as -> _. left. now left.
           ++ right. now exists f.
      * intros n. rewrite Hr. split.
        -- intros [H | (m & Hin & Hm)].
           ++ destruct (required_flag fields) eqn:Ef; [|now left].
              apply in_app_or in H. destruct H as [H | [<- | []]];
                [now left|].
              right. exists (JObj fields). split; [now left|].
              apply marks_required_iff. now exists fields.
           ++ right. exists m. split; [now right | exact Hm].
        -- intros [H | (m & [E | Hin] & Hm)].
           ++ left. destruct (required_flag fields); [|exact H].
              apply in_or_app. now left.
           ++ injection E as -> <-. left.
              apply marks_required_iff in Hm.
              destruct Hm as (f & [= <-] & Hf). rewrite Hf.
              apply in_or_app. right. now left.
           ++ right. now exists m.
    + rewrite (schema_step_other _ param meta Hother).
      destruct (IH properties required) as (Hw & Hk & Hr).
      split; [exact Hw|]. split.
      * intros n. rewrite Hk. split.
        -- intros [H | (f & H)]; [now left|]. right. exists f. now right.
        -- intros [H | (f & [E | H])]; [now left | |right; now exists f].
           injection E as _ E. exfalso. now apply (Hother f).
      * intros n. rewrite Hr. split.
        -- intros [H | (m & Hin & Hm)]; [now left|].
           right. exists m. split; [now right | exact Hm].
        -- intros [H | (m & [E | Hin] & Hm)]; [now left | |right; now exists m].
           injection E as _ <-. apply marks_required_iff in Hm.
           destruct Hm as (f & E & _). exfalso. now apply (Hother f).
Qed.

(** X26. The input schema built for a tool declares a property for exactly the
    parameters described by an object, and requires exactly those whose
    description marks them required; so it never requires a property it
    does not declare. *)
Theorem input_schema_consistent (params : Dict.t Json) :
  exists properties required,
    RegistryLoader._build_input_schema params
    = JObj [("type", JStr "object");
            ("properties", JObj properties);
            ("required", JArr (map JStr required))]
    /\ Dict.wf properties
    /\ (forall n,
          In n (Dict.keys properties) <->
          exists fields, In (n, JObj fields) params)
    /\ (forall n,
          In n required <->
          exists meta, In (n, meta) params /\ marks_required meta)
    /\ incl required (Dict.keys properties).
Proof.
  destruct (schema_loop params [] []) as (Hw & Hk & Hr).
  set (result := fold_left RegistryLoader.schema_step params ([], [])) in *.
  exists (fst result), (snd result). split.
  { unfold RegistryLoader._build_input_schema. fold result.
    now destruct result. }
  set (properties := fst result) in *. set (required := snd result) in *.
  split; [apply Hw; constructor|].
  assert (Hk' : forall n, In n (Dict.keys properties) <->
                          exists fields, In (n, JObj fields) params).
  { intros n. specialize (Hk n). simpl in Hk. tauto. }
  assert (Hr' : forall n, In n required <->
                          exists meta, In (n, meta) params
                                       /\ marks_required meta).
  { intros n. specialize (Hr n). simpl in Hr. tauto. }
  split; [exact Hk'|]. split; [exact Hr'|].
  intros n Hn. apply Hr' in Hn. destruct Hn as (meta & Hin & Hm).
  apply marks_required_iff in Hm. destruct Hm as (fields & -> & _).
  apply Hk'. now exists fields.
Qed.

Example input_schema_sample :
  RegistryLoader._build_input_schema
    [("pool", JObj [("type", JStr "string"); ("required", JBool true)]);
     ("limit", JObj [("type", JStr "integer"); ("default", JInt 10)]);
     ("note", JStr "ignored");
     ("force", JObj [("required", JInt 0)])]
  = JObj [("type", JStr "object");
          ("properties",
           JObj [("pool", JObj [("type", JStr "string")]);
                 ("limit", JObj [("type", JStr "integer");
                                 ("default", JInt 10)]);
                 ("force", JObj [("type", JStr "string")])]);
          ("required", JArr [JStr "pool"])].
Proof. reflexivity. Qed.

(** ** The default allowlists *)

Lemma allow_tool_get (tool_name : string) (allowlists : Dict.t (list string))
    (task_type tt : string) :
  Dict.get_or tt (allow_tool tool_name allowlists task_type) []
  = if String.eqb tt task_type
    then Dict.get_or task_type allowlists [] ++ [tool_name]
    else Dict.get_or tt allowlists [].
Proof.
  unfold allow_tool, Dict.get_or. rewrite get_set.
  destruct (String.eqb tt task_type); reflexivity.
Qed.

Lemma allow_loop_in (tool_name : string) (tts : list string)
    (allowlists : Dict.t (list string)) (tt n : string) :
  In n (Dict.get_or tt (fold_left (allow_tool tool_name) tts allowlists) [])
  <-> In n (Dict.get_or tt allowlists []) \/ (n = tool_name /\ In tt tts).
Proof.
  revert allowlists. induction tts as [|t tts IH]; intros allowlists.
  - cbn. split; [auto | intros [H | [_ []]]; exact H].
  - cbn [fold_left]. rewrite IH, allow_tool_get.
    destruct (String.eqb_spec tt t) as [-> | Hne].
    + rewrite in_app_iff. cbn [In]. split.
      * intros [[H | [<- | []]] | [-> H]]; auto.
      * intros [H | [-> [_ | H]]]; auto.
    + cbn [In]. split.
      * intros [H | [-> H]]; auto.
      * intros [H | [-> [E | H]]]; auto. congruence.
Qed.

Lemma allow_loop_keys (tool_name : string) (tts : list string)
    (allowlists : Dict.t (list string)) (tt : string) :
  In tt (Dict.keys (fold_left (allow_tool tool_name) tts allowlists))
  <-> In tt (Dict.keys allowlists) \/ In tt tts.
Proof.
  revert allowlists. induction tts as [|t tts IH]; intros allowlists.
  - cbn. tauto.
  - cbn [fold_left]. rewrite IH. unfold allow_tool. rewrite keys_set.
    cbn [In]. split.
    + intros [[-> | H] | H]; auto.
    + intros [H | [-> | H]]; auto.
Qed.

Lemma default_allowlists_loop (tools : Dict.t Tool)
    (allowlists : Dict.t (list string)) :
  let result :=
    fold_left
      (fun allowlists item =>
         fold_left (allow_tool (fst item)) (task_types (snd item)) allowlists)
      tools allowlists in
  (Dict.wf allowlists -> Dict.wf result)
  /\ (forall tt,
        In tt (Dict.keys result) <->
        In tt (Dict.keys allowlists)
        \/ exists n tool, In (n, tool) tools /\ In tt (task_types tool))
  /\ (forall tt n,
        In n (Dict.get_or tt result []) <->
        In n (Dict.get_or tt allowlists [])
        \/ exists tool, In (n, tool) tools /\ In tt (task_types tool)).
Proof.
  revert allowlists. induction tools as [|[name tool] tools IH];
    intros allowlists.
  - cbn. split; [auto|]. split; intros; split; auto.
    + intros [H | (? & ? & [] & _)]. exact H.
    + intros [H | (? & [] & _)]. exact H.
  - cbn [fold_left fst snd].
    destruct (IH (fold_left (allow_tool name) (task_types tool) allowlists))
      as (Hw & Hk & Hg).
    split; [|split].
    + intros H. apply Hw.
      apply (fold_left_invariant _ (@Dict.wf (list string))); [|exact H].
      intros acc t _ Hacc. unfold allow_tool. now apply set_wf.
    + intros tt. rewrite Hk, allow_loop_keys. split.
      * intros [[H | H] | (n & t & Hin & Ht)]; auto.
        -- right. exists name, tool. split; [now left | exact H].
        -- right. exists n, t. split; [now right | exact Ht].
      * intros [H | (n & t & [E | Hin] & Ht)]; auto.
        -- injection E as -> ->. auto.
        -- right. now exists n, t.
    + intros tt n. rewrite Hg, allow_loop_in. split.
      * intros [[H | [-> H]] | (t & Hin & Ht)]; auto.
        -- right. exists tool. split; [now left | exact H].
        -- right. exists t. split; [now right | exact Ht].
      * intros [H | (t & [E | Hin] & Ht)]; auto.
        -- injection E as -> ->. auto.
        -- right. now exists t.
Qed.

(** X27. The default allowlists have one entry for each task type some tool
    carries, and the entry of a task type lists exactly the names of the
    tools that carry it. *)
Theorem default_allowlists_by_tag (tools : Dict.t Tool) :
  let allowlists := _build_default_allowlists tools in
  Dict.wf allowlists
  /\ (forall tt,
        In tt (Dict.keys allowlists) <->
        exists n tool, In (n, tool) tools /\ In tt (task_types tool))
  /\ (forall tt n,
        In n (Dict.get_or tt allowlists []) <->
        exists tool, In (n, tool) tools /\ In tt (task_types tool)).
Proof.
  cbv zeta. unfold _build_default_allowlists.
  destruct (default_allowlists_loop tools []) as (Hw & Hk & Hg).
  split; [apply Hw; constructor|]. split.
  - intros tt. specialize (Hk tt). simpl in Hk. tauto.
  - intros tt n. specialize (Hg tt n). simpl in Hg. tauto.
Qed.

Example default_allowlists_sample :
  _build_default_allowlists sample_catalog
  = [("storage-ops", ["list_pools"]); ("user-ops", ["create_user"]);
     ("meta-ops", ["tool_info"])].
Proof. reflexivity. Qed.

Lemma canon_nonempty (label c : string) : canon label = Some c -> label <> "".
Proof.
  unfold canon. intros H ->. discriminate.
Qed.

(** With canonical keys that are pairwise distinct, the constructor of the
    filter keeps every entry as configured. *)
Lemma init_keeps_canonical_entries (raw : Dict.t (list string))
    (k : string) (v : list string) :
  Dict.wf raw ->
  (forall k', In k' (Dict.keys raw) -> canon k' = Some k') ->
  In (k, v) raw ->
  Dict.get k (TaskTypeFilter.task_type_allowlists (TaskTypeFilter.init raw))
  = Some v.
Proof.
  intros Hwf Hcanon Hin. rewrite init_allowlists.
  apply in_split in Hin. destruct Hin as (pre & post & ->).
  apply expand_get_last.
  - apply Hcanon. unfold Dict.keys. rewrite map_app. apply in_or_app.
    right. now left.
  - intros k' v' Hin' E.
    assert (Hk' : In k' (Dict.keys (pre ++ (k, v) :: post))).
    { unfold Dict.keys. rewrite map_app. apply in_or_app. right. right.
      change k' with (fst (k', v')). now apply in_map. }
    rewrite (Hcanon k' Hk') in E. injection E as ->.
    unfold Dict.wf, Dict.keys in Hwf. rewrite map_app in Hwf. cbn [map fst] in Hwf.
    apply NoDup_remove_2 in Hwf. apply Hwf. apply in_or_app. right.
    change k with (fst (k, v')). now apply in_map.
Qed.

(** X28. With the default allowlists over a catalog whose tags are in canonical
    form, an explicit label, in any spelling, selects exactly the tools
    that carry the tag it stands for. *)
Theorem default_allowlists_select_by_tag
    (st : HttpServerSettings) (tools : Dict.t Tool) (label tt : string) :
  Dict.wf tools ->
  (forall n tool t,
      In (n, tool) tools -> In t (task_types tool) -> canon t = Some t) ->
  canon label = Some tt ->
  (exists n tool, In (n, tool) tools /\ In tt (task_types tool)) ->
  TaskTypeFilter.apply st
    (TaskTypeFilter.init (_build_default_allowlists tools)) tools
    (plain_context (Some label))
  = Dict.filter (fun _ tool => Py.mem tt (task_types tool)) tools.
Proof.
  intros Hwf Htags Hlabel (n0 & tool0 & Hin0 & Htt0).
  destruct (default_allowlists_loop tools []) as (Hw & Hk & Hg).
  fold (_build_default_allowlists tools) in Hw, Hk, Hg.
  set (A := _build_default_allowlists tools) in *.
  set (self := TaskTypeFilter.init A).
  assert (HwA : Dict.wf A) by (apply Hw; constructor).
  assert (HkA : forall t, In t (Dict.keys A) -> canon t = Some t).
  { intros t Ht. apply Hk in Ht. destruct Ht as [[] | (n & tool & Hin & Ht)].
    now apply (Htags n tool). }
  assert (Hmem : In tt (Dict.keys A)).
  { apply Hk. right. now exists n0, tool0. }
  destruct (Dict.get tt A) as [v|] eqn:Ev;
    [|apply get_none_iff in Ev; contradiction].
  assert (Hv : Dict.get tt (TaskTypeFilter.task_type_allowlists self) = Some v).
  { apply init_keeps_canonical_entries; auto. now apply get_in. }
  assert (Hvn : forall n, In n v <->
                          exists tool, In (n, tool) tools
                                       /\ In tt (task_types tool)).
  { intros n. specialize (Hg tt n). unfold Dict.get_or in Hg.
    rewrite Ev in Hg. simpl in Hg. tauto. }
  assert (Hres : resolved_labels st self (plain_context (Some label)) = [tt]).
  { unfold resolved_labels, TaskTypeFilter.select_task_types.
    cbn [plain_context task_type detected_task_types Py.truthy_list
         Py.truthy_str].
    pose proof (canon_nonempty label tt Hlabel) as Hne.
    apply String.eqb_neq in Hne. rewrite Hne. cbn [negb].
    assert (E : TaskTypeFilter._normalize_task_types self [label] = [tt]).
    { unfold TaskTypeFilter._normalize_task_types. cbn [fold_left].
      unfold TaskTypeFilter.normalize_step. unfold canon in Hlabel.
      rewrite Hlabel. unfold Dict.mem. now rewrite Hv. }
    destruct (intent_precedence st); exact E. }
  assert (Hmerged : forall n,
             InMergedAllowlist self [tt] n <-> In n v).
  { intros n. unfold InMergedAllowlist, Dict.get_or. split.
    - intros (l & [<- | []] & H). now rewrite Hv in H.
    - intros H. exists tt. split; [now left|]. now rewrite Hv. }
  rewrite apply_normal_resolution.
  - rewrite Hres. unfold Dict.filter. apply filter_ext_in.
    intros [n tool] Hin. cbn [fst snd].
    destruct (keep_tool self [tt] n tool) eqn:Ek,
             (Py.mem tt (task_types tool)) eqn:Em; try reflexivity.
    + apply keep_tool_iff in Ek. destruct Ek as [_ (l & [<- | []] & H)].
      apply mem_iff in H. congruence.
    + apply mem_iff in Em.
      assert (Hk' : keep_tool self [tt] n tool = true).
      { apply keep_tool_iff. split.
        - apply Hmerged, Hvn. now exists tool.
        - exists tt. split; [now left | exact Em]. }
      congruence.
  - intros (Hq & _). apply Hq. reflexivity.
  - rewrite Hres. discriminate.
  - rewrite Hres. intros E.
    assert (Hn0 : In n0 (TaskTypeFilter._merge_allowlists self [tt])).
    { apply merge_allowlists_in, Hmerged, Hvn. now exists tool0. }
    rewrite E in Hn0. exact Hn0.
Qed.

Lemma default_allowlists_select_by_tag_witness :
  TaskTypeFilter.apply default_settings
    (TaskTypeFilter.init (_build_default_allowlists sample_catalog))
    sample_catalog (plain_context (Some " Storage-OPS"))
  = Dict.filter (fun _ tool => Py.mem "storage-ops" (task_types tool))
      sample_catalog.
Proof.
  apply (default_allowlists_select_by_tag default_settings sample_catalog
           " Storage-OPS" "storage-ops").
  - unfold Dict.wf. simpl.
    repeat (constructor; [simpl; intuition discriminate|]). constructor.
  - intros n tool t [E | [E | [E | []]]] Ht; injection E as <- <-;
      destruct Ht as [<- | []]; reflexivity.
  - reflexivity.
  - exists "list_pools", list_pools. split; [now left | now left].
Defined.
